(** * passive-scanner: Planner, Evaluator and Evidence

    A shallow embedding of [engine/evaluator.py], [engine/planner.py],
    [engine/evidence.py] and [fingerprint/model.py], with the properties
    of the specification proved (or refuted) on it.

    Conventions of the embedding:
    - a Python [str] is a [string] whose characters are the code points
      below 256;
    - a Python [dict] with string keys is an insertion-ordered association
      list with distinct keys; assignment to an existing key keeps its place;
    - the payloads exchanged with providers are JSON-like values [pyval]
      (no floating point numbers);
    - a Python function that may raise returns a [result]. *)

From Stdlib Require Import List String Ascii ZArith NArith Bool Lia Arith.
From Stdlib Require Import DecimalString Permutation Sorted.
Import ListNotations.
Local Open Scope list_scope.
Local Open Scope string_scope.

Set Implicit Arguments.
Set Warnings "-register-all".

(* ################################################################# *)
(** * Python values *)

Module Py.

Inductive pyval : Type :=
| PNone
| PBool (b : bool)
| PInt (z : Z)
| PStr (s : string)
| PList (l : list pyval)
| PDict (d : list (string * pyval)).

Definition dict := list (string * pyval).

(** The exceptions the modelled code can raise by itself. *)
Inductive exc : Type :=
| TypeError
| AttributeError
| KeyError
| ReError.

Inductive result (A : Type) : Type :=
| Ok (a : A)
| Raise (e : exc).
Arguments Ok {A} a.
Arguments Raise {A} e.

Definition bind {A B} (m : result A) (k : A -> result B) : result B :=
  match m with
  | Ok a => k a
  | Raise e => Raise e
  end.

Notation "x <- m ;; k" := (bind m (fun x => k))
  (at level 61, m at next level, right associativity).

(** Induction over [pyval] that reaches the values nested in lists and
    dictionaries. *)
Section PyvalInd.
Variable P : pyval -> Prop.
Hypothesis HNone : P PNone.
Hypothesis HBool : forall b, P (PBool b).
Hypothesis HInt : forall z, P (PInt z).
Hypothesis HStr : forall s, P (PStr s).
Hypothesis HList : forall l, Forall P l -> P (PList l).
Hypothesis HDict : forall d, Forall (fun kv => P (snd kv)) d -> P (PDict d).

Fixpoint pyval_nested_ind (v : pyval) : P v :=
  match v with
  | PNone => HNone
  | PBool b => HBool b
  | PInt z => HInt z
  | PStr s => HStr s
  | PList l =>
      HList ((fix go (l : list pyval) : Forall P l :=
                match l with
                | [] => Forall_nil _
                | x :: r => Forall_cons x (pyval_nested_ind x) (go r)
                end) l)
  | PDict d =>
      HDict ((fix go (d : dict) : Forall (fun kv => P (snd kv)) d :=
                match d with
                | [] => Forall_nil _
                | kv :: r =>
                    Forall_cons (P := fun kv => P (snd kv)) kv
                      (pyval_nested_ind (snd kv)) (go r)
                end) d)
  end.
End PyvalInd.

(** ** Dictionaries *)

(** [d.get(k)], [None] of the option when the key is absent. *)
Fixpoint lookup {V} (k : string) (d : list (string * V)) : option V :=
  match d with
  | [] => None
  | (k', v) :: r => if String.eqb k k' then Some v else lookup k r
  end.

(** [d.get(k, default)] *)
Definition get_default (d : dict) (k : string) (default : pyval) : pyval :=
  match lookup k d with
  | Some v => v
  | None => default
  end.

(** [d[k] = v]: an existing key keeps its position, a new key goes last. *)
Fixpoint assign {V} (k : string) (v : V) (d : list (string * V))
  : list (string * V) :=
  match d with
  | [] => [(k, v)]
  | (k', v') :: r =>
      if String.eqb k k' then (k, v) :: r else (k', v') :: assign k v r
  end.

Definition keys {V} (d : list (string * V)) : list string := map fst d.

(** ** Truth value, [bool(v)] and [not v]. *)
Definition truthy (v : pyval) : bool :=
  match v with
  | PNone => false
  | PBool b => b
  | PInt z => negb (Z.eqb z 0)
  | PStr s => negb (String.eqb s "")
  | PList l => match l with [] => false | _ => true end
  | PDict d => match d with [] => false | _ => true end
  end.

(** ** Strings *)

(** [needle in hay] for two strings. *)
Fixpoint is_substring (needle hay : string) : bool :=
  if String.prefix needle hay then true
  else match hay with
       | EmptyString => false
       | String _ rest => is_substring needle rest
       end.

(** [v == s] where [s] is a string: only an equal string is equal to it. *)
Definition eq_str (v : pyval) (s : string) : bool :=
  match v with
  | PStr t => String.eqb t s
  | _ => false
  end.

Definition hex_digit (n : N) : ascii :=
  match n with
  | 0 => "0" | 1 => "1" | 2 => "2" | 3 => "3" | 4 => "4" | 5 => "5"
  | 6 => "6" | 7 => "7" | 8 => "8" | 9 => "9" | 10 => "a" | 11 => "b"
  | 12 => "c" | 13 => "d" | 14 => "e" | _ => "f"
  end%N%char.

(** Two lower-case hexadecimal digits of a code point below 256. *)
Definition hex2 (c : ascii) : string :=
  let n := N_of_ascii c in
  String (hex_digit (N.div n 16)) (String (hex_digit (N.modulo n 16)) "").

Definition str_of_Z (z : Z) : string := NilZero.string_of_int (Z.to_int z).

Fixpoint has_char (c : ascii) (s : string) : bool :=
  match s with
  | EmptyString => false
  | String a r => Ascii.eqb a c || has_char c r
  end.

(** [repr] of a string: single quotes unless the string has a single quote
    and no double quote; the quote and the backslash are escaped, tab,
    newline and return have their short escapes, the other characters that
    are not printable are written [\xhh]. *)
Definition printable (c : ascii) : bool :=
  let n := N_of_ascii c in
  ((32 <=? n) && (n <? 127) || (161 <=? n) && negb (n =? 173))%N.

Definition repr_char (quote c : ascii) : string :=
  if Ascii.eqb c quote || Ascii.eqb c "\"%char then String "\" (String c "")
  else if Ascii.eqb c "009"%char then "\t"
  else if Ascii.eqb c "010"%char then "\n"
  else if Ascii.eqb c "013"%char then "\r"
  else if printable c then String c ""
  else "\x" ++ hex2 c.

Fixpoint repr_chars (quote : ascii) (s : string) : string :=
  match s with
  | EmptyString => ""
  | String c r => repr_char quote c ++ repr_chars quote r
  end.

Definition dquote : ascii := "034"%char.
Definition squote : ascii := "039"%char.

Definition repr_str (s : string) : string :=
  let q := if has_char squote s && negb (has_char dquote s)
           then dquote else squote in
  String q (repr_chars q s ++ String q "").

(** [", ".join(l)] and the like. *)
Definition join (sep : string) (l : list string) : string := String.concat sep l.

Fixpoint repr (v : pyval) : string :=
  match v with
  | PNone => "None"
  | PBool true => "True"
  | PBool false => "False"
  | PInt z => str_of_Z z
  | PStr s => repr_str s
  | PList l => "[" ++ join ", " (map repr l) ++ "]"
  | PDict d =>
      "{" ++ join ", " (map (fun kv => repr_str (fst kv) ++ ": " ++ repr (snd kv)) d)
          ++ "}"
  end.

(** [str(v)], what an f-string writes for [{v}]. *)
Definition str (v : pyval) : string :=
  match v with
  | PStr s => s
  | _ => repr v
  end.

End Py.

Import Py.

(* ################################################################# *)
(** * fingerprint/model.py *)

Module Probe.
Record t : Type := Build {
  name : string;
  protocol : string;
  field : string;
  match_type : string;
  value : string
}.
End Probe.

Module Fingerprint.
Record t : Type := Build {
  fingerprint_id : string;
  name : string;
  version : string;
  probes : list Probe.t;
  match_logic : string
}.
End Fingerprint.

(* ################################################################# *)
(** * engine/evaluator.py *)

Module Evaluator.

(** [x in v] with [x] a string: substring of a string, member of a list, key
    of a dictionary; the other values are not containers. *)
Definition contains_in (x : string) (v : pyval) : result bool :=
  match v with
  | PStr s => Ok (is_substring x s)
  | PList l => Ok (existsb (fun e => eq_str e x) l)
  | PDict d => Ok (match lookup x d with Some _ => true | None => false end)
  | PNone | PBool _ | PInt _ => Raise TypeError
  end.

(** [v[k]] with [k] a string. *)
Definition subscript (v : pyval) (k : string) : result pyval :=
  match v with
  | PDict d => match lookup k d with Some x => Ok x | None => Raise KeyError end
  | _ => Raise TypeError
  end.

(** [len(v)] *)
Definition len (v : pyval) : result nat :=
  match v with
  | PStr s => Ok (String.length s)
  | PList l => Ok (List.length l)
  | PDict d => Ok (List.length d)
  | PNone | PBool _ | PInt _ => Raise TypeError
  end.

(** [v[0]], used only where [len(v) > 0]. *)
Definition subscript0 (v : pyval) : result pyval :=
  match v with
  | PList (x :: _) => Ok x
  | PStr (String c _) => Ok (PStr (String c ""))
  | PList [] | PStr EmptyString | PDict _ => Raise KeyError
  | PNone | PBool _ | PInt _ => Raise TypeError
  end.

(** [v.get(k, default)]: only a dictionary has the method. *)
Definition get (v : pyval) (k : string) (default : pyval) : result pyval :=
  match v with
  | PDict d => Ok (get_default d k default)
  | _ => Raise AttributeError
  end.

(** The extraction of [field_value] from [data]; [PNone] is the [None] the
    variable starts with. *)
Definition extract_field (data : pyval) (field : string) : result pyval :=
  has_items <- contains_in "items" data ;;
  if has_items then
    items <- subscript data "items" ;;
    n <- len items ;;
    if (0 <? n)%nat then
      item <- subscript0 items ;;
      if String.eqb field "headers.server" then
        d <- get item "data" (PDict []) ;;
        h <- get d "http" (PDict []) ;;
        hd <- get h "head" (PDict []) ;;
        get hd "server" PNone
      else if String.eqb field "certificate.serial" then
        d <- get item "data" (PDict []) ;;
        c <- get d "certificate" (PDict []) ;;
        get c "serial" PNone
      else Ok PNone
    else Ok PNone
  else Ok PNone.

Definition is_none (v : pyval) : bool :=
  match v with PNone => true | _ => false end.

Section WithRe.

(** [re.search] of Python's library: [re_valid pattern] tells whether the
    pattern compiles (otherwise [re.error] is raised, whatever the subject),
    [re_found pattern s] whether the search finds a match in the string. *)
Variable re_valid : string -> bool.
Variable re_found : string -> string -> bool.

(** [bool(re.search(pattern, v))] *)
Definition search (pattern : string) (v : pyval) : result bool :=
  if re_valid pattern then
    match v with
    | PStr s => Ok (re_found pattern s)
    | _ => Raise TypeError
    end
  else Raise ReError.

Definition evaluate_probe (probe_result : dict) (probe : Probe.t)
  : result (bool * string) :=
  if negb (truthy (get_default probe_result "success" (PBool false))) then
    Ok (false,
        "Probe failed: "
          ++ str (get_default probe_result "error" (PStr "Unknown error")))
  else
    let data := get_default probe_result "data" (PDict []) in
    field_value <- extract_field data (Probe.field probe) ;;
    if is_none field_value then Ok (false, "Field not found in response")
    else
      let evidence := Probe.field probe ++ "=" ++ str field_value in
      if String.eqb (Probe.match_type probe) "exact" then
        Ok (eq_str field_value (Probe.value probe), evidence)
      else if String.eqb (Probe.match_type probe) "contains" then
        m <- contains_in (Probe.value probe) field_value ;;
        Ok (m, evidence)
      else if String.eqb (Probe.match_type probe) "regex" then
        m <- search (Probe.value probe) field_value ;;
        Ok (m, evidence)
      else
        Ok (false, "Unknown match type: " ++ Probe.match_type probe).

(** One entry of [individual_results]. *)
Record probe_record : Type := {
  rec_probe : string;
  rec_match : bool;
  rec_evidence : string
}.

(** The dictionary [evaluate_fingerprint] returns. *)
Record evaluation : Type := {
  ev_fingerprint_id : string;
  overall_match : bool;
  probe_results : list probe_record;
  evidence : string;
  matched_probes : list string
}.

(** The loop over [probe_results]: both lists grow by one entry per pair. *)
Fixpoint evaluate_each (prs : list (Probe.t * dict))
    (individual_results : list probe_record) (all_evidence : list string)
  : result (list probe_record * list string) :=
  match prs with
  | [] => Ok (individual_results, all_evidence)
  | (probe, r) :: rest =>
      me <- evaluate_probe r probe ;;
      evaluate_each rest
        (individual_results
           ++ [{| rec_probe := Probe.name probe;
                  rec_match := fst me;
                  rec_evidence := snd me |}])%list
        (all_evidence ++ [snd me])%list
  end.

Definition evaluate_fingerprint (prs : list (Probe.t * dict))
    (fingerprint : Fingerprint.t) : result evaluation :=
  st <- evaluate_each prs [] [] ;;
  let individual_results := fst st in
  let all_evidence := snd st in
  let overall :=
    if String.eqb (Fingerprint.match_logic fingerprint) "all" then
      forallb rec_match individual_results
    else if String.eqb (Fingerprint.match_logic fingerprint) "any" then
      existsb rec_match individual_results
    else forallb rec_match individual_results in
  Ok {| ev_fingerprint_id := Fingerprint.fingerprint_id fingerprint;
        overall_match := overall;
        probe_results := individual_results;
        evidence := join "; " all_evidence;
        matched_probes :=
          map rec_probe (filter rec_match individual_results) |}.

End WithRe.

End Evaluator.

(* ################################################################# *)
(** * hashlib.sha256 *)

Module SHA256.

Local Open Scope N_scope.

Definition w32 (x : N) : N := N.land x 4294967295.
Definition add32 (a b : N) : N := w32 (a + b).
Definition rotr (n x : N) : N :=
  N.lor (N.shiftr x n) (w32 (N.shiftl x (32 - n))).
Definition shr (n x : N) : N := N.shiftr x n.
Definition not32 (x : N) : N := N.lxor x 4294967295.

Definition Ch (x y z : N) : N := N.lxor (N.land x y) (N.land (not32 x) z).
Definition Maj (x y z : N) : N :=
  N.lxor (N.lxor (N.land x y) (N.land x z)) (N.land y z).
Definition Sigma0 (x : N) : N := N.lxor (N.lxor (rotr 2 x) (rotr 13 x)) (rotr 22 x).
Definition Sigma1 (x : N) : N := N.lxor (N.lxor (rotr 6 x) (rotr 11 x)) (rotr 25 x).
Definition sigma0 (x : N) : N := N.lxor (N.lxor (rotr 7 x) (rotr 18 x)) (shr 3 x).
Definition sigma1 (x : N) : N := N.lxor (N.lxor (rotr 17 x) (rotr 19 x)) (shr 10 x).

(** The round constants and the initial state are the first 32 bits of the
    fractional parts of the cube roots of the first 64 primes and of the
    square roots of the first 8. *)
Definition is_prime (n : nat) : bool :=
  forallb (fun d => negb (Nat.eqb (n mod d) 0)) (seq 2 (n - 2)).

Definition primes : list N :=
  map N.of_nat (firstn 64 (filter is_prime (seq 2 400))).

(** The integer cube root, bit by bit from the top. *)
Definition cube_root (n : N) : N :=
  fold_left
    (fun r i => let r' := r + 2 ^ N.of_nat i in
                if r' * r' * r' <=? n then r' else r)
    (rev (seq 0 40)) 0.

Definition K : list N :=
  Eval vm_compute in map (fun p => w32 (cube_root (p * 2 ^ 96))) primes.

(** The eight working words. *)
Record state : Type := St {
  ha : N; hb : N; hc : N; hd : N; he : N; hf : N; hg : N; hh : N
}.

Definition frac_sqrt (i : nat) : N :=
  w32 (N.sqrt (nth i primes 0 * 2 ^ 64)).

Definition H0 : state :=
  Eval vm_compute in
    St (frac_sqrt 0) (frac_sqrt 1) (frac_sqrt 2) (frac_sqrt 3)
       (frac_sqrt 4) (frac_sqrt 5) (frac_sqrt 6) (frac_sqrt 7).

(** Padding: the bit 1, zeros up to 56 modulo 64, the length in bits on
    eight bytes. *)
Definition be_bytes (n : nat) (x : N) : list N :=
  map (fun i => N.land (N.shiftr x (8 * N.of_nat i)) 255) (rev (seq 0 n)).

Definition pad (msg : list N) : list N :=
  let l := List.length msg in
  let z := ((64 - (l + 9) mod 64) mod 64)%nat in
  (msg ++ [128] ++ repeat 0 z ++ be_bytes 8 (8 * N.of_nat l))%list.

Definition word_of (b : list N) : N :=
  fold_left (fun acc x => acc * 256 + x) b 0.

(** The words of a run of bytes, four bytes each. *)
Fixpoint words (fuel : nat) (b : list N) : list N :=
  match fuel, b with
  | S f, b0 :: b1 :: b2 :: b3 :: r => word_of [b0; b1; b2; b3] :: words f r
  | _, _ => []
  end.

Fixpoint blocks (fuel : nat) (w : list N) : list (list N) :=
  match fuel, w with
  | S f, _ :: _ => firstn 16 w :: blocks f (skipn 16 w)
  | _, _ => []
  end.

(** The message schedule: 48 more words after the 16 of the block. *)
Fixpoint schedule (n : nat) (w : list N) : list N :=
  match n with
  | O => w
  | S m =>
      let i := List.length w in
      let x := add32 (add32 (sigma1 (nth (i - 2) w 0)) (nth (i - 7) w 0))
                 (add32 (sigma0 (nth (i - 15) w 0)) (nth (i - 16) w 0)) in
      schedule m (w ++ [x])%list
  end.

Definition round (s : state) (kw : N * N) : state :=
  let '(St a b c d e f g h) := s in
  let t1 := add32 (add32 (add32 h (Sigma1 e)) (add32 (Ch e f g) (fst kw))) (snd kw) in
  let t2 := add32 (Sigma0 a) (Maj a b c) in
  St (add32 t1 t2) a b c (add32 d t1) e f g.

Definition compress (s : state) (block : list N) : state :=
  let w := schedule 48 block in
  let '(St a b c d e f g h) := fold_left round (combine K w) s in
  St (add32 (ha s) a) (add32 (hb s) b) (add32 (hc s) c) (add32 (hd s) d)
     (add32 (he s) e) (add32 (hf s) f) (add32 (hg s) g) (add32 (hh s) h).

Definition digest (msg : list N) : state :=
  let p := pad msg in
  let w := words (List.length p) p in
  fold_left compress (blocks (List.length w) w) H0.

Local Open Scope string_scope.

Definition nib (x : N) (i : N) : ascii :=
  hex_digit (N.land (N.shiftr x (4 * i)) 15).

(** The eight hexadecimal digits of a word. *)
Definition hex8 (x : N) : string :=
  String (nib x 7) (String (nib x 6) (String (nib x 5) (String (nib x 4)
  (String (nib x 3) (String (nib x 2) (String (nib x 1) (String (nib x 0)
   "")))))))%N.

Definition hexdigest (msg : list N) : string :=
  let s := digest msg in
  hex8 (ha s) ++ hex8 (hb s) ++ hex8 (hc s) ++ hex8 (hd s)
    ++ hex8 (he s) ++ hex8 (hf s) ++ hex8 (hg s) ++ hex8 (hh s).

(** [s.encode()] of a string of code points below 128. *)
Definition encode (s : string) : list N :=
  map N_of_ascii (list_ascii_of_string s).

End SHA256.




(* ################################################################# *)
(** * json.dumps(obj, sort_keys=True) *)

Module Json.

Definition backslash : ascii := "\"%char.

(** The encoding of one character inside a JSON string with the default
    [ensure_ascii]: everything outside the printable ASCII range is escaped. *)
Definition escape_char (c : ascii) : string :=
  let n := N_of_ascii c in
  if Ascii.eqb c dquote then String backslash (String dquote "")
  else if Ascii.eqb c backslash then "\\"
  else if (n =? 10)%N then "\n"
  else if (n =? 13)%N then "\r"
  else if (n =? 9)%N then "\t"
  else if (n =? 8)%N then "\b"
  else if (n =? 12)%N then "\f"
  else if ((32 <=? n) && (n <=? 126))%N then String c ""
  else "\u00" ++ hex2 c.

Fixpoint escape (s : string) : string :=
  match s with
  | EmptyString => ""
  | String c r => escape_char c ++ escape r
  end.

Definition dumps_str (s : string) : string :=
  String dquote (escape s ++ String dquote "").

(** Sorting of the items of a dictionary by key (code point order), stable. *)
Fixpoint insert {V} (x : string * V) (l : list (string * V))
  : list (string * V) :=
  match l with
  | [] => [x]
  | y :: r => if String.leb (fst x) (fst y) then x :: y :: r
              else y :: insert x r
  end.

Definition sort_items {V} (l : list (string * V)) : list (string * V) :=
  fold_right insert [] l.

Definition dumps_item (kv : string * string) : string :=
  dumps_str (fst kv) ++ ": " ++ snd kv.

(** The values of a dictionary are encoded first and the items sorted by key
    afterwards; the encoder sorts first and encodes in that order, which
    gives the same text as the order of the keys does not depend on the
    values. *)
Fixpoint dumps (v : pyval) : string :=
  match v with
  | PNone => "null"
  | PBool true => "true"
  | PBool false => "false"
  | PInt z => str_of_Z z
  | PStr s => dumps_str s
  | PList l => "[" ++ join ", " (map dumps l) ++ "]"
  | PDict d =>
      "{" ++ join ", "
               (map dumps_item
                  (sort_items (map (fun kv => (fst kv, dumps (snd kv))) d)))
          ++ "}"
  end.

End Json.

(* ################################################################# *)
(** * engine/evidence.py *)

Module Evidence.

(** [timestamp] holds the text [isoformat()] gives for the capture time;
    [match_] is the field [match]. *)
Record t : Type := Build {
  probe_name : string;
  target : string;
  timestamp : string;
  success : pyval;
  match_ : bool;
  expected_value : string;
  actual_value : string;
  error_message : string;
  raw_data : pyval
}.

Definition raw_data_hash (self : t) : string :=
  if negb (truthy (raw_data self)) then ""
  else
    let data_str := Json.dumps (raw_data self) in
    String.substring 0 16 (SHA256.hexdigest (SHA256.encode data_str)).

Definition summary (self : t) : string :=
  if negb (truthy (success self)) then "Failed: " ++ error_message self
  else if match_ self then
    "Matched '" ++ expected_value self ++ "' found as '"
      ++ actual_value self ++ "'"
  else
    "No match: expected '" ++ expected_value self ++ "', got '"
      ++ actual_value self ++ "'".

Definition to_dict (self : t) : dict :=
  [ ("probe_name", PStr (probe_name self));
    ("target", PStr (target self));
    ("timestamp", PStr (timestamp self));
    ("success", success self);
    ("match", PBool (match_ self));
    ("expected_value", PStr (expected_value self));
    ("actual_value", PStr (actual_value self));
    ("error_message", PStr (error_message self));
    ("raw_data_hash", PStr (raw_data_hash self));
    ("summary", PStr (summary self)) ].

End Evidence.

Module EvidenceCollector.

(** The collector is its [evidence_list]. *)
Definition t : Type := list Evidence.t.

Definition new : t := [].

Definition add_evidence (self : t) (evidence : Evidence.t) : t :=
  (self ++ [evidence])%list.

(** [raw_data or {}] *)
Definition or_empty (raw_data : pyval) : pyval :=
  if truthy raw_data then raw_data else PDict [].

(** [now] is the capture time the new record gets. The default values of
    the optional arguments are written out by the callers. *)
Definition add_probe_result (self : t) (now : string)
    (probe_name target : string) (success : pyval) (match_ : bool)
    (expected_value actual_value error_message : string)
    (raw_data : pyval) : Evidence.t * t :=
  let evidence :=
    Evidence.Build probe_name target now success match_
      expected_value actual_value error_message (or_empty raw_data) in
  (evidence, add_evidence self evidence).

Definition get_evidence_for_target (self : t) (target : string)
  : list Evidence.t :=
  filter (fun e => String.eqb (Evidence.target e) target) self.

Definition get_failed_probes (self : t) : list Evidence.t :=
  filter (fun e => negb (truthy (Evidence.success e))) self.

Definition get_matching_probes (self : t) : list Evidence.t :=
  filter (fun e => truthy (Evidence.success e) && Evidence.match_ e) self.

End EvidenceCollector.


(* ################################################################# *)
(** * providers/base.py *)

(** What a call of [query] does: it returns its dictionary or raises an
    exception, of which the handler of the planner uses the text [str(e)]. *)
Inductive query_outcome : Type :=
| Returned (result : dict)
| Raised (message : string).

(** A provider, over the state [W] of the outside world its queries read and
    change. [can_handle] is the pure predicate of the contract. *)
Record Provider (W : Type) : Type := {
  can_handle : Probe.t -> bool;
  query : string -> Probe.t -> W -> query_outcome * W
}.
Arguments can_handle {W} _ _.
Arguments query {W} _ _ _ _.

(* ################################################################# *)
(** * engine/planner.py *)

Module ScanPlan.

Record t : Type := Build {
  target_probes : list (string * list Probe.t);
  fingerprint_providers : list (string * list nat)
}.

Definition new : t := Build [] [].

Definition add_target (self : t) (target : string) (probes : list Probe.t)
  : t :=
  Build (assign target probes (target_probes self))
        (fingerprint_providers self).

Definition get_targets (self : t) : list string :=
  keys (target_probes self).

Definition get_probes_for_target (self : t) (target : string)
  : list Probe.t :=
  match lookup target (target_probes self) with
  | Some probes => probes
  | None => []
  end.

Definition validate (self : t) : bool :=
  match target_probes self with
  | [] => false
  | _ :: _ => true
  end.

End ScanPlan.

Module Planner.

(** [l[:stop]] *)
Definition slice_to {A} (l : list A) (stop : Z) : list A :=
  if (0 <=? stop)%Z then firstn (Z.to_nat stop) l
  else firstn (List.length l - Z.to_nat (- stop)) l.

Section WithWorld.

Variable W : Type.

(** The time [datetime.now()] reads, as [isoformat()] writes it. *)
Variable clock : W -> string.

(** The planner is its list of registered providers. *)
Definition t : Type := list (Provider W).

Definition register_provider (self : t) (provider : Provider W) : t :=
  (self ++ [provider])%list.

Definition any_can_handle (self : t) (probe : Probe.t) : bool :=
  existsb (fun provider => can_handle provider probe) self.

Definition create_scan_plan (self : t) (targets : list string)
    (fingerprint : Fingerprint.t) (max_probes_per_target : Z) : ScanPlan.t :=
  fold_left
    (fun plan target =>
       let valid_probes :=
         filter (any_can_handle self)
           (slice_to (Fingerprint.probes fingerprint) max_probes_per_target) in
       match valid_probes with
       | [] => plan
       | _ :: _ => ScanPlan.add_target plan target valid_probes
       end)
    targets ScanPlan.new.

(** The provider selected for a probe, with its position in [providers]:
    two providers are the same object when they sit at the same position. *)
Fixpoint select_from (i : nat) (providers : list (Provider W))
    (probe : Probe.t) : option (nat * Provider W) :=
  match providers with
  | [] => None
  | provider :: rest =>
      if can_handle provider probe then Some (i, provider)
      else select_from (S i) rest probe
  end.

Definition select_provider_for_probe (self : t) (probe : Probe.t)
  : option (nat * Provider W) :=
  select_from 0 self probe.

(** [provider_probes[provider].append(probe)] on the [defaultdict]. *)
Fixpoint group_add (k : nat) (probe : Probe.t)
    (groups : list (nat * list Probe.t)) : list (nat * list Probe.t) :=
  match groups with
  | [] => [(k, [probe])]
  | (k', ps) :: rest =>
      if Nat.eqb k k' then (k', (ps ++ [probe])%list) :: rest
      else (k', ps) :: group_add k probe rest
  end.

Definition group_probes (self : t) (probes : list Probe.t)
  : list (nat * list Probe.t) :=
  fold_left
    (fun provider_probes probe =>
       match select_provider_for_probe self probe with
       | Some (k, _) => group_add k probe provider_probes
       | None => provider_probes
       end)
    probes [].

Definition optimize_probes (self : t) (probes : list Probe.t)
  : list Probe.t :=
  fold_left (fun optimized_probes g => (optimized_probes ++ snd g)%list)
    (group_probes self probes) [].

Definition optimize_plan (self : t) (plan : ScanPlan.t) : ScanPlan.t :=
  fold_left
    (fun optimized_plan tp =>
       match optimize_probes self (snd tp) with
       | [] => optimized_plan
       | optimized_probes =>
           ScanPlan.add_target optimized_plan (fst tp) optimized_probes
       end)
    (ScanPlan.target_probes plan) ScanPlan.new.

Definition total_probes (plan : ScanPlan.t) : nat :=
  list_sum (map (fun tp => List.length (snd tp)) (ScanPlan.target_probes plan)).

(** ** Execution *)

(** The state a run works on: the evidence collector and the world. A
    computation ends with a value or with a raised exception; what it did
    to the state before raising stays done. *)
Definition store : Type := (EvidenceCollector.t * W)%type.
Definition M (A : Type) : Type := store -> (A + string) * store.

Definition ret {A} (a : A) : M A := fun s => (inl a, s).
Definition raise {A} (message : string) : M A := fun s => (inr message, s).
Definition mbind {A B} (m : M A) (k : A -> M B) : M B :=
  fun s =>
    match m s with
    | (inl a, s') => k a s'
    | (inr e, s') => (inr e, s')
    end.
(** [try: body except Exception as e: handler(str(e))] *)
Definition try_except {A} (body : M A) (handler : string -> M A) : M A :=
  fun s =>
    match body s with
    | (inl a, s') => (inl a, s')
    | (inr e, s') => handler e s'
    end.

Notation "x <~ m ;; k" := (mbind m (fun x => k))
  (at level 61, m at next level, right associativity).

Definition call_query (provider : Provider W) (target : string)
    (probe : Probe.t) : M dict :=
  fun s =>
    match query provider target probe (snd s) with
    | (Returned result, w) => (inl result, (fst s, w))
    | (Raised message, w) => (inr message, (fst s, w))
    end.

Definition add_probe_result (probe_name target : string) (success : pyval)
    (match_ : bool) (expected_value actual_value error_message : string)
    (raw_data : pyval) : M Evidence.t :=
  fun s =>
    let (e, c) :=
      EvidenceCollector.add_probe_result (fst s) (clock (snd s))
        probe_name target success match_ expected_value actual_value
        error_message raw_data in
    (inl e, (c, snd s)).

(** The body of the loop over the probes of one target. *)
Definition execute_probe (self : t) (target : string)
    (target_results : list (Probe.t * dict)) (probe : Probe.t)
  : M (list (Probe.t * dict)) :=
  match select_provider_for_probe self probe with
  | None =>
      _ <~ add_probe_result (Probe.name probe) target (PBool false) false
             "" "" "No provider available" PNone ;;
      ret target_results
  | Some (_, provider) =>
      try_except
        (result <~ call_query provider target probe ;;
         _ <~ add_probe_result (Probe.name probe) target
                (get_default result "success" (PBool false)) false
                (Probe.value probe) "" ""
                (get_default result "data" (PDict [])) ;;
         ret (target_results ++ [(probe, result)])%list)
        (fun e =>
           _ <~ add_probe_result (Probe.name probe) target (PBool false)
                  false "" "" e PNone ;;
           ret target_results)
  end.

Fixpoint mfold {A B} (f : A -> B -> M A) (l : list B) (a : A) : M A :=
  match l with
  | [] => ret a
  | b :: r => a' <~ f a b ;; mfold f r a'
  end.

Definition execute_target (self : t) (plan : ScanPlan.t)
    (results : list (string * list (Probe.t * dict))) (target : string)
  : M (list (string * list (Probe.t * dict))) :=
  let probes := ScanPlan.get_probes_for_target plan target in
  target_results <~ mfold (execute_probe self target) probes [] ;;
  ret (assign target target_results results).

Definition execute_plan (self : t) (plan : ScanPlan.t)
  : M (list (string * list (Probe.t * dict))) :=
  if negb (ScanPlan.validate plan) then ret []
  else mfold (execute_target self plan) (ScanPlan.get_targets plan) [].

End WithWorld.

End Planner.

(* ################################################################# *)
(** * Notions the properties are stated with *)

Module Spec.

(** Every dictionary inside the value has distinct keys, as a Python
    dictionary has. *)
Fixpoint distinct_keys (v : pyval) : Prop :=
  match v with
  | PList l =>
      (fix all (l : list pyval) : Prop :=
         match l with
         | [] => True
         | x :: r => distinct_keys x /\ all r
         end) l
  | PDict d =>
      NoDup (keys d) /\
      (fix all (d : dict) : Prop :=
         match d with
         | [] => True
         | kv :: r => distinct_keys (snd kv) /\ all r
         end) d
  | _ => True
  end.

(** Two payloads with the same content: equal scalars, lists equal entry by
    entry, dictionaries with the same keys and the same content under each
    key, in whatever order the keys were inserted. *)
Fixpoint same_content (a b : pyval) : bool :=
  match a, b with
  | PNone, PNone => true
  | PBool x, PBool y => Bool.eqb x y
  | PInt x, PInt y => Z.eqb x y
  | PStr x, PStr y => String.eqb x y
  | PList l, PList m =>
      (fix go (l m : list pyval) : bool :=
         match l, m with
         | [], [] => true
         | x :: l', y :: m' => same_content x y && go l' m'
         | _, _ => false
         end) l m
  | PDict d, PDict e =>
      Nat.eqb (List.length d) (List.length e) &&
      (fix go (d : dict) : bool :=
         match d with
         | [] => true
         | kv :: r =>
             match lookup (fst kv) e with
             | Some v' => same_content (snd kv) v'
             | None => false
             end && go r
         end) d
  | _, _ => false
  end.

(** A character of the lower-case hexadecimal alphabet. *)
Definition is_hex (c : ascii) : bool :=
  let n := N_of_ascii c in
  ((48 <=? n) && (n <=? 57) || (97 <=? n) && (n <=? 102))%N.

Fixpoint all_hex (s : string) : bool :=
  match s with
  | EmptyString => true
  | String c r => is_hex c && all_hex r
  end.

Section Execution.

Variable W : Type.
Variable clock : W -> string.

Let planner := Planner.t W.
Let store := Planner.store W.

(** The evidence of an attempt that gave no result. *)
Definition failed_evidence (probe : Probe.t) (target now message : string)
  : Evidence.t :=
  Evidence.Build (Probe.name probe) target now (PBool false) false
    "" "" message (PDict []).

(** The evidence of a query that returned [result]. *)
Definition result_evidence (probe : Probe.t) (target now : string)
    (result : dict) : Evidence.t :=
  Evidence.Build (Probe.name probe) target now
    (get_default result "success" (PBool false)) false
    (Probe.value probe) "" ""
    (EvidenceCollector.or_empty (get_default result "data" (PDict []))).

(** What one probe of a target does to the result list of the target, to
    the collector and to the world. *)
Inductive probe_step (self : planner) (target : string) (probe : Probe.t)
  : list (Probe.t * dict) * store -> list (Probe.t * dict) * store -> Prop :=
| step_no_provider : forall trs ec w,
    Planner.select_provider_for_probe self probe = None ->
    probe_step self target probe (trs, (ec, w))
      (trs,
       ((ec ++ [failed_evidence probe target (clock w)
                  "No provider available"])%list, w))
| step_returned : forall trs ec w k provider result w',
    Planner.select_provider_for_probe self probe = Some (k, provider) ->
    query provider target probe w = (Returned result, w') ->
    probe_step self target probe (trs, (ec, w))
      ((trs ++ [(probe, result)])%list,
       ((ec ++ [result_evidence probe target (clock w') result])%list, w'))
| step_raised : forall trs ec w k provider message w',
    Planner.select_provider_for_probe self probe = Some (k, provider) ->
    query provider target probe w = (Raised message, w') ->
    probe_step self target probe (trs, (ec, w))
      (trs,
       ((ec ++ [failed_evidence probe target (clock w') message])%list, w')).

(** The probes of a target, in order. *)
Inductive probes_run (self : planner) (target : string)
  : list Probe.t ->
    list (Probe.t * dict) * store -> list (Probe.t * dict) * store -> Prop :=
| probes_done : forall s, probes_run self target [] s s
| probes_next : forall probe rest s1 s2 s3,
    probe_step self target probe s1 s2 ->
    probes_run self target rest s2 s3 ->
    probes_run self target (probe :: rest) s1 s3.

(** The targets of a plan, in order: each one starts from an empty result
    list and stores its list under its name. *)
Inductive targets_run (self : planner) (plan : ScanPlan.t)
  : list string ->
    list (string * list (Probe.t * dict)) * store ->
    list (string * list (Probe.t * dict)) * store -> Prop :=
| targets_done : forall s, targets_run self plan [] s s
| targets_next : forall target rest results st trs st' s3,
    probes_run self target (ScanPlan.get_probes_for_target plan target)
      ([], st) (trs, st') ->
    targets_run self plan rest (assign target trs results, st') s3 ->
    targets_run self plan (target :: rest) (results, st) s3.

End Execution.

(** The probes a plan gives a target when it is built from the first
    [max_probes] probes of a fingerprint. *)
Definition surviving_probes {W} (self : Planner.t W)
    (fingerprint : Fingerprint.t) (max_probes : nat) : list Probe.t :=
  filter (Planner.any_can_handle self)
    (firstn max_probes (Fingerprint.probes fingerprint)).

(** The position of the provider selected for a probe. *)
Definition selected {W} (self : Planner.t W) (probe : Probe.t) : option nat :=
  option_map fst (Planner.select_provider_for_probe self probe).

Definition selected_is {W} (self : Planner.t W) (k : nat) (probe : Probe.t)
  : bool :=
  match selected self probe with
  | Some k' => Nat.eqb k k'
  | None => false
  end.

Definition assignable {W} (self : Planner.t W) (probe : Probe.t) : bool :=
  match selected self probe with Some _ => true | None => false end.

(** The providers selected for the probes of a list, each once, in the order
    they are first met from left to right. *)
Fixpoint first_met {W} (self : Planner.t W) (probes : list Probe.t)
  : list nat :=
  match probes with
  | [] => []
  | probe :: rest =>
      match selected self probe with
      | Some k => k :: remove Nat.eq_dec k (first_met self rest)
      | None => first_met self rest
      end
  end.

(** The regrouping by provider: for each provider in the order of first
    encounter, its probes in their original order. *)
Definition regrouped {W} (self : Planner.t W) (probes : list Probe.t)
  : list Probe.t :=
  flat_map (fun k => filter (selected_is self k) probes)
    (first_met self probes).

(** What optimization makes of the entries of a plan: each target keeps its
    regrouped probes, and a target left without probes is not kept. *)
Definition regrouped_entries {W} (self : Planner.t W)
    (entries : list (string * list Probe.t)) : list (string * list Probe.t) :=
  filter (fun tp => match snd tp with [] => false | _ => true end)
    (map (fun tp => (fst tp, regrouped self (snd tp))) entries).

(** [error or 'Unknown error']: the error when it is there and not empty. *)
Definition error_or_unknown (probe_result : dict) : string :=
  let e := get_default probe_result "error" PNone in
  if truthy e then str e else "Unknown error".

(** The nested path of the two fields the evaluator understands. *)
Definition field_path (field : string) : option (list string) :=
  if String.eqb field "headers.server" then
    Some ["data"; "http"; "head"; "server"]
  else if String.eqb field "certificate.serial" then
    Some ["data"; "certificate"; "serial"]
  else None.

(** A key of the path is missing from the dictionary reached so far. *)
Fixpoint path_missing (v : pyval) (path : list string) : bool :=
  match path with
  | [] => false
  | k :: rest =>
      match v with
      | PDict d =>
          match lookup k d with
          | None => true
          | Some v' => path_missing v' rest
          end
      | _ => false
      end
  end.

(** The path meets a value that is not a dictionary before its end: the
    value has no [get]. *)
Fixpoint path_blocked (v : pyval) (path : list string) : bool :=
  match path with
  | [] => false
  | k :: rest =>
      match v with
      | PDict d =>
          match lookup k d with
          | None => false
          | Some v' => path_blocked v' rest
          end
      | _ => true
      end
  end.

(** The successful results from which no field value can be extracted: the
    data, a dictionary, has no items, or the first item lacks the path. *)
Definition nothing_to_extract (probe_result : dict) (field : string) : Prop :=
  truthy (get_default probe_result "success" (PBool false)) = true /\
  exists d, get_default probe_result "data" (PDict []) = PDict d /\
    (lookup "items" d = None
     \/ lookup "items" d = Some (PList [])
     \/ exists item rest path,
          lookup "items" d = Some (PList (item :: rest)) /\
          field_path field = Some path /\
          path_missing item path = true).

(** The record the loop of [evaluate_fingerprint] makes of a pair and of the
    verdict of its probe. *)
Definition record_of (pr : Probe.t * dict) (me : bool * string)
  : Evaluator.probe_record :=
  {| Evaluator.rec_probe := Probe.name (fst pr);
     Evaluator.rec_match := fst me;
     Evaluator.rec_evidence := snd me |}.

Definition records_of (prs : list (Probe.t * dict)) (mes : list (bool * string))
  : list Evaluator.probe_record :=
  map (fun x => record_of (fst x) (snd x)) (combine prs mes).

(** [mes] lists the verdicts [evaluate_probe] returns for the pairs. *)
Definition verdicts (re_valid : string -> bool)
    (re_found : string -> string -> bool)
    (prs : list (Probe.t * dict)) (mes : list (bool * string)) : Prop :=
  Forall2
    (fun pr me =>
       Evaluator.evaluate_probe re_valid re_found (snd pr) (fst pr) = Ok me)
    prs mes.

End Spec.

(* ################################################################# *)
(** * providers/netlas.py *)

Module NetlasProvider.

(** What the request of [query] comes to: [session.get], [raise_for_status]
    and [response.json()] give the decoded body, or one of them raises an
    exception, of which the handler keeps the text. *)
Inductive http_outcome : Type :=
| Body (data : pyval)
| Failed (message : string).

Section WithHttp.

Variable W : Type.

(** [time.sleep(self.rate_limit_delay)], which stands before the [try] of
    [query]: the delay passes, or the call raises on a delay it rejects and
    gives the text of its exception. *)
Variable sleep : W -> option string * W.

(** The request to the Responses endpoint with the search expression [q];
    the other parameters are constants. *)
Variable http_get : string -> W -> http_outcome * W.

(** [probe.protocol in ["http", "tls"]] *)
Definition can_handle (probe : Probe.t) : bool :=
  existsb (String.eqb (Probe.protocol probe)) ["http"; "tls"].

Definition quoted (s : string) : string :=
  String dquote (s ++ String dquote "").

(** The search expression, for the two kinds of probe the provider knows. *)
Definition build_query (target : string) (probe : Probe.t) : option string :=
  if String.eqb (Probe.protocol probe) "http"
     && String.eqb (Probe.field probe) "headers.server"
  then Some ("ip:" ++ quoted target ++ " AND http.head.server:"
               ++ quoted (Probe.value probe))
  else if String.eqb (Probe.protocol probe) "tls"
          && String.eqb (Probe.field probe) "certificate.serial"
  then Some ("ip:" ++ quoted target ++ " AND certificate.serial:"
               ++ quoted (Probe.value probe))
  else None.

Definition answer (success : bool) (data error : pyval) : dict :=
  [("success", PBool success); ("data", data); ("error", error)].

Definition query (target : string) (probe : Probe.t) (w : W)
  : query_outcome * W :=
  match sleep w with
  | (Some message, w1) => (Raised message, w1)
  | (None, w1) =>
      match build_query target probe with
      | None =>
          (Returned
             (answer false PNone
                (PStr ("Unsupported probe: " ++ Probe.protocol probe ++ "."
                         ++ Probe.field probe))), w1)
      | Some q =>
          match http_get q w1 with
          | (Body data, w2) => (Returned (answer true data PNone), w2)
          | (Failed message, w2) =>
              (Returned (answer false PNone (PStr message)), w2)
          end
      end
  end.

Definition provider : Provider W := @Build_Provider W can_handle query.

End WithHttp.

End NetlasProvider.

(* ################################################################# *)
(** * scan.py *)

Module Scan.

(** [c.isspace()] for a code point below 256. *)
Definition is_space (c : ascii) : bool :=
  let n := N_of_ascii c in
  ((9 <=? n) && (n <=? 13) || (28 <=? n) && (n <=? 32)
   || (n =? 133) || (n =? 160))%N.

Fixpoint lstrip (s : string) : string :=
  match s with
  | EmptyString => ""
  | String c r => if is_space c then lstrip r else s
  end.

Fixpoint rstrip (s : string) : string :=
  match s with
  | EmptyString => ""
  | String c r =>
      match rstrip r with
      | EmptyString => if is_space c then "" else String c ""
      | r' => String c r'
      end
  end.

(** [s.strip()] *)
Definition strip (s : string) : string := lstrip (rstrip s).

(** The lines a text file gives when it is iterated: each line ends with
    its newline, the last one possibly without. [content] is the text as
    the reader delivers it, with its line ends translated to newlines. *)
Fixpoint file_lines_from (current : string) (content : string) : list string :=
  match content with
  | EmptyString =>
      match current with EmptyString => [] | _ => [current] end
  | String c r =>
      if Ascii.eqb c "010"%char
      then (current ++ String c "") :: file_lines_from "" r
      else file_lines_from (current ++ String c "") r
  end.

Definition file_lines (content : string) : list string :=
  file_lines_from "" content.

(** [[line.strip() for line in f if line.strip()]] *)
Definition load_targets (content : string) : list string :=
  map strip (filter (fun line => negb (String.eqb (strip line) "")) (file_lines content)).

(** One entry of [results]: the target, the flag [match] and the fields of
    the evaluation. *)
Record entry : Type := {
  entry_target : string;
  entry_match : bool;
  entry_evaluation : Evaluator.evaluation
}.

(** How the work on a target ends: with an entry, or with the exception a
    query or the evaluation raised, which nothing in [main] catches. *)
Inductive ending (A : Type) : Type :=
| Done (a : A)
| QueryRaised (message : string)
| EvaluationRaised (e : exc).
Arguments Done {A} a.
Arguments QueryRaised {A} message.
Arguments EvaluationRaised {A} e.

Section WithProvider.

Variable W : Type.
Variable re_valid : string -> bool.
Variable re_found : string -> string -> bool.
Variable provider : Provider W.

(** The loop over the probes of the fingerprint. *)
Fixpoint run_probes (target : string) (probes : list Probe.t)
    (probe_results : list (Probe.t * dict)) (w : W)
  : ending (list (Probe.t * dict)) * W :=
  match probes with
  | [] => (Done probe_results, w)
  | probe :: rest =>
      if can_handle provider probe then
        match query provider target probe w with
        | (Returned result, w') =>
            run_probes target rest (probe_results ++ [(probe, result)])%list w'
        | (Raised message, w') => (QueryRaised message, w')
        end
      else run_probes target rest probe_results w
  end.

(** The body of the loop over the targets. *)
Definition process_target (fingerprint : Fingerprint.t) (target : string)
    (w : W) : ending entry * W :=
  match run_probes target (Fingerprint.probes fingerprint) [] w with
  | (Done probe_results, w') =>
      match Evaluator.evaluate_fingerprint re_valid re_found probe_results
              fingerprint with
      | Ok evaluation =>
          (Done {| entry_target := target;
                   entry_match :=
                     if Evaluator.overall_match evaluation then true else false;
                   entry_evaluation := evaluation |}, w')
      | Raise e => (EvaluationRaised e, w')
      end
  | (QueryRaised message, w') => (QueryRaised message, w')
  | (EvaluationRaised e, w') => (EvaluationRaised e, w')
  end.

(** The loop over the targets. *)
Fixpoint process_targets (fingerprint : Fingerprint.t) (targets : list string)
    (results : list entry) (w : W) : ending (list entry) * W :=
  match targets with
  | [] => (Done results, w)
  | target :: rest =>
      match process_target fingerprint target w with
      | (Done e, w') =>
          process_targets fingerprint rest (results ++ [e])%list w'
      | (QueryRaised message, w') => (QueryRaised message, w')
      | (EvaluationRaised e, w') => (EvaluationRaised e, w')
      end
  end.

End WithProvider.

End Scan.

(* ################################################################# *)
(** * More notions for the properties *)

Module Notions.

(** The elements of a list, each at its first occurrence. *)
Fixpoint first_occurrences (seen : list string) (l : list string)
  : list string :=
  match l with
  | [] => []
  | x :: r =>
      if existsb (String.eqb x) seen then first_occurrences seen r
      else x :: first_occurrences (x :: seen) r
  end.

(** [s] is [l] with some elements left out. *)
Inductive subsequence {A : Type} : list A -> list A -> Prop :=
| sub_nil : subsequence [] []
| sub_keep : forall x s l, subsequence s l -> subsequence (x :: s) (x :: l)
| sub_skip : forall x s l, subsequence s l -> subsequence s (x :: l).

(** A provider that keeps the contract: its queries return and never
    raise. *)
Definition keeps_contract {W : Type} (provider : Provider W) : Prop :=
  forall target probe w, exists result w',
    query provider target probe w = (Returned result, w').

(** The probes of a plan with their targets, in the order of execution. *)
Definition attempts (plan : ScanPlan.t) : list (string * Probe.t) :=
  flat_map
    (fun t => map (fun p => (t, p)) (ScanPlan.get_probes_for_target plan t))
    (ScanPlan.get_targets plan).

(** The values that are no containers: [None], booleans and integers. *)
Definition is_scalar (v : pyval) : bool :=
  match v with
  | PNone | PBool _ | PInt _ => true
  | _ => false
  end.

(** The target and the probe a record of evidence is about. *)
Definition evidence_key (e : Evidence.t) : string * string :=
  (Evidence.target e, Evidence.probe_name e).

(** A record as execution leaves it, before any evaluation. *)
Definition unevaluated (e : Evidence.t) : Prop :=
  Evidence.match_ e = false /\ Evidence.actual_value e = "".

(** A line of a file, without its newline. *)
Definition one_line (line : string) : Prop :=
  has_char "010"%char line = false.

(** The text of the file that holds the lines [lines], each ended by its
    newline, and then [last]: the line without a newline the file ends
    with, empty when the file ends with a newline. *)
Definition text_of (lines : list string) (last : string) : string :=
  fold_right (fun line rest => line ++ String "010"%char rest) last lines.

End Notions.

(* ################################################################# *)
(** * Sample data, after the fixtures of the test suite *)

Module Samples.

Definition http_probe : Probe.t :=
  Probe.Build "http_server_header" "http" "headers.server" "contains" "Apache".

Definition tls_probe : Probe.t :=
  Probe.Build "tls_certificate" "tls" "certificate.serial" "exact"
    "1234567890ABCDEF".

Definition sample_fingerprint : Fingerprint.t :=
  Fingerprint.Build "test-fp-001" "Test Apache Server" "1.0"
    [http_probe; tls_probe] "all".

Definition server_response (server : pyval) : dict :=
  [ ("success", PBool true);
    ("data",
     PDict [("items",
             PList [PDict [("data",
                            PDict [("http",
                                    PDict [("head",
                                            PDict [("server", server)])])])]])])
  ].

Definition serial_response (serial : string) : dict :=
  [ ("success", PBool true);
    ("data",
     PDict [("items",
             PList [PDict [("data",
                            PDict [("certificate",
                                    PDict [("serial", PStr serial)])])]])]) ].

Definition timeout_result : dict :=
  [("success", PBool false); ("error", PStr "Timeout")].

(** A search for patterns without special characters: every such pattern
    compiles and is found where it occurs literally. *)
Definition literal_valid (pattern : string) : bool := true.
Definition literal_found (pattern s : string) : bool := is_substring pattern s.

(** A world that counts the queries made, and its clock. *)
Definition world : Type := nat.
Definition clock (w : world) : string :=
  "2024-01-01T00:00:0" ++ str_of_Z (Z.of_nat (w mod 10)).

Definition handles (protocols : list string) (probe : Probe.t) : bool :=
  existsb (String.eqb (Probe.protocol probe)) protocols.

(** The provider of the fixtures: it answers HTTP and TLS probes with a
    successful result. *)
Definition mock_provider : Provider world :=
  {| can_handle := handles ["http"; "tls"];
     query := fun target probe w =>
       (Returned (server_response (PStr "Apache/2.4.41")), S w) |}.

Definition http_only_provider : Provider world :=
  {| can_handle := handles ["http"];
     query := fun target probe w =>
       (Returned (server_response (PStr "nginx")), S w) |}.

Definition tls_only_provider : Provider world :=
  {| can_handle := handles ["tls"];
     query := fun target probe w =>
       (Returned (serial_response "1234567890ABCDEF"), S w) |}.

(** A provider that breaks its contract and raises. *)
Definition failing_provider : Provider world :=
  {| can_handle := fun _ => true;
     query := fun target probe w => (Raised "Provider failure", S w) |}.

Definition targets : list string := ["192.0.2.1"; "192.0.2.2"; "192.0.2.3"].

Definition sample_scan_plan : ScanPlan.t :=
  fold_left (fun plan target => ScanPlan.add_target plan target
                                  [http_probe; tls_probe])
    targets ScanPlan.new.

Definition http_probe2 : Probe.t :=
  Probe.Build "http_powered_by" "http" "headers.server" "regex" "PHP".

(** A probe no sample provider handles. *)
Definition dns_probe : Probe.t :=
  Probe.Build "dns_txt" "dns" "txt" "exact" "v=spf1".

Definition mixed_plan : ScanPlan.t :=
  ScanPlan.add_target ScanPlan.new "192.0.2.1"
    [http_probe; tls_probe; dns_probe; http_probe2].

Definition evidence_with (raw_data : pyval) : Evidence.t :=
  Evidence.Build "test_probe" "192.0.2.1" "2024-01-01T00:00:00" (PBool true)
    true "Apache" "Apache/2.4" "" raw_data.

(** The same content with the keys inserted in two orders. *)
Definition payload_ab : pyval :=
  PDict [("a", PInt 1);
         ("b", PDict [("x", PStr "1"); ("y", PList [PNone; PBool true])])].

Definition payload_ba : pyval :=
  PDict [("b", PDict [("y", PList [PNone; PBool true]); ("x", PStr "1")]);
         ("a", PInt 1)].

(** A failed attempt, with the payload the collector gives it. *)
Definition failed_attempt : Evidence.t :=
  Evidence.Build "p" "t" "2024-01-01T00:00:00" (PBool false) false "" ""
    "timeout" (PDict []).

End Samples.

(* ################################################################# *)
(** * More sample data *)

Module Fixtures.

(** A world that counts the requests sent; the delay passes and leaves it
    alone. *)
Definition sleep (w : nat) : option string * nat := (None, w).

(** The delay of a provider whose [rate_limit_delay] was set below zero. *)
Definition sleep_rejected (w : nat) : option string * nat :=
  (Some "sleep length must be non-negative", w).

Definition apache_body : pyval :=
  PDict [("items",
          PList [PDict [("data",
                         PDict [("http",
                                 PDict [("head",
                                         PDict [("server",
                                                 PStr "Apache/2.4.41")])])])]])].

(** A service that answers every request, and one that is down. *)
Definition http_ok (q : string) (w : nat) : NetlasProvider.http_outcome * nat :=
  (NetlasProvider.Body apache_body, S w).


Definition netlas : Provider nat := NetlasProvider.provider sleep http_ok.

(** An HTTP probe on a field the provider has no request for. *)
Definition serial_over_http : Probe.t :=
  Probe.Build "serial_over_http" "http" "certificate.serial" "exact" "00".

(** A probe on a field the evaluator does not know. *)
Definition title_probe : Probe.t :=
  Probe.Build "http_title" "http" "http.title" "contains" "Welcome".

Definition dns_fingerprint : Fingerprint.t :=
  Fingerprint.Build "fp-dns" "DNS only" "1.0" [Samples.dns_probe] "all".

Definition data_none : dict := [("success", PBool true); ("data", PNone)].

End Fixtures.

(* ################################################################# *)
(** * Properties *)

(** ** Strings and dictionaries *)





Lemma eq_str_iff (v : pyval) (s : string) : eq_str v s = true <-> v = PStr s.
Proof.
  destruct v; simpl; try (split; [discriminate | intros H; discriminate]).
  rewrite String.eqb_eq. split; [now intros -> | now intros [= ->]].
Qed.

(** ** Evaluator.evaluate_probe *)

Section EvaluatorFacts.

Variable re_valid : string -> bool.
Variable re_found : string -> string -> bool.

Let evaluate_probe := Evaluator.evaluate_probe re_valid re_found.

Lemma evaluate_probe_failed (probe_result : dict) (probe : Probe.t) :
  truthy (get_default probe_result "success" (PBool false)) = false ->
  evaluate_probe probe_result probe
  = Ok (false,
        "Probe failed: "
          ++ str (get_default probe_result "error" (PStr "Unknown error"))).
Proof.
  intros H. unfold evaluate_probe, Evaluator.evaluate_probe. now rewrite H.
Qed.

Lemma evaluate_probe_extracted (probe_result : dict) (probe : Probe.t)
    (fv : pyval) :
  truthy (get_default probe_result "success" (PBool false)) = true ->
  Evaluator.extract_field (get_default probe_result "data" (PDict []))
    (Probe.field probe) = Ok fv ->
  evaluate_probe probe_result probe
  = if Evaluator.is_none fv then Ok (false, "Field not found in response")
    else
      let evidence := Probe.field probe ++ "=" ++ str fv in
      if String.eqb (Probe.match_type probe) "exact" then
        Ok (eq_str fv (Probe.value probe), evidence)
      else if String.eqb (Probe.match_type probe) "contains" then
        bind (Evaluator.contains_in (Probe.value probe) fv)
          (fun m => Ok (m, evidence))
      else if String.eqb (Probe.match_type probe) "regex" then
        bind (Evaluator.search re_valid re_found (Probe.value probe) fv)
          (fun m => Ok (m, evidence))
      else Ok (false, "Unknown match type: " ++ Probe.match_type probe).
Proof.
  intros Hs He. unfold evaluate_probe, Evaluator.evaluate_probe.
  rewrite Hs, He. reflexivity.
Qed.

Lemma path_missing_server (item : pyval) :
  Spec.path_missing item ["data"; "http"; "head"; "server"] = true ->
  (d <- Evaluator.get item "data" (PDict []) ;;
   h <- Evaluator.get d "http" (PDict []) ;;
   hd <- Evaluator.get h "head" (PDict []) ;;
   Evaluator.get hd "server" PNone) = Ok PNone.
Proof.
  simpl. destruct item as [| | | | |d0]; try discriminate.
  unfold Evaluator.get at 1, get_default; simpl.
  destruct (lookup "data" d0) as [[| | | | |d1]|]; try discriminate;
    [|reflexivity].
  unfold Evaluator.get at 1, get_default; simpl.
  destruct (lookup "http" d1) as [[| | | | |d2]|]; try discriminate;
    [|reflexivity].
  unfold Evaluator.get at 1, get_default; simpl.
  destruct (lookup "head" d2) as [[| | | | |d3]|]; try discriminate;
    [|reflexivity].
  unfold Evaluator.get, get_default; simpl.
  destruct (lookup "server" d3); [discriminate | reflexivity].
Qed.

Lemma path_missing_serial (item : pyval) :
  Spec.path_missing item ["data"; "certificate"; "serial"] = true ->
  (d <- Evaluator.get item "data" (PDict []) ;;
   c <- Evaluator.get d "certificate" (PDict []) ;;
   Evaluator.get c "serial" PNone) = Ok PNone.
Proof.
  simpl. destruct item as [| | | | |d0]; try discriminate.
  unfold Evaluator.get at 1, get_default; simpl.
  destruct (lookup "data" d0) as [[| | | | |d1]|]; try discriminate;
    [|reflexivity].
  unfold Evaluator.get at 1, get_default; simpl.
  destruct (lookup "certificate" d1) as [[| | | | |d2]|]; try discriminate;
    [|reflexivity].
  unfold Evaluator.get, get_default; simpl.
  destruct (lookup "serial" d2); [discriminate | reflexivity].
Qed.

Lemma nothing_to_extract_none (probe_result : dict) (field : string) :
  Spec.nothing_to_extract probe_result field ->
  Evaluator.extract_field (get_default probe_result "data" (PDict [])) field
  = Ok PNone.
Proof.
  intros [_ [d [-> H]]]. unfold Evaluator.extract_field; simpl.
  destruct H as [H | [H | [item [rest [path [H [Hp Hm]]]]]]]; rewrite H; simpl.
  - reflexivity.
  - reflexivity.
  - unfold Spec.field_path in Hp.
    destruct (String.eqb field "headers.server").
    + injection Hp as <-. now apply path_missing_server.
    + destruct (String.eqb field "certificate.serial"); [|discriminate].
      injection Hp as <-. now apply path_missing_serial.
Qed.

Lemma path_blocked_server (item : pyval) :
  Spec.path_blocked item ["data"; "http"; "head"; "server"] = true ->
  (d <- Evaluator.get item "data" (PDict []) ;;
   h <- Evaluator.get d "http" (PDict []) ;;
   hd <- Evaluator.get h "head" (PDict []) ;;
   Evaluator.get hd "server" PNone) = Raise AttributeError.
Proof.
  simpl. destruct item as [| | | | |d0]; try reflexivity.
  unfold Evaluator.get at 1, get_default; simpl.
  destruct (lookup "data" d0) as [[| | | | |d1]|]; try discriminate;
    try reflexivity.
  unfold Evaluator.get at 1, get_default; simpl.
  destruct (lookup "http" d1) as [[| | | | |d2]|]; try discriminate;
    try reflexivity.
  unfold Evaluator.get at 1, get_default; simpl.
  destruct (lookup "head" d2) as [[| | | | |d3]|]; try discriminate;
    try reflexivity.
  unfold Evaluator.get, get_default; simpl.
  destruct (lookup "server" d3); discriminate.
Qed.

Lemma path_blocked_serial (item : pyval) :
  Spec.path_blocked item ["data"; "certificate"; "serial"] = true ->
  (d <- Evaluator.get item "data" (PDict []) ;;
   c <- Evaluator.get d "certificate" (PDict []) ;;
   Evaluator.get c "serial" PNone) = Raise AttributeError.
Proof.
  simpl. destruct item as [| | | | |d0]; try reflexivity.
  unfold Evaluator.get at 1, get_default; simpl.
  destruct (lookup "data" d0) as [[| | | | |d1]|]; try discriminate;
    try reflexivity.
  unfold Evaluator.get at 1, get_default; simpl.
  destruct (lookup "certificate" d1) as [[| | | | |d2]|]; try discriminate;
    try reflexivity.
  unfold Evaluator.get, get_default; simpl.
  destruct (lookup "serial" d2); discriminate.
Qed.

Lemma extract_field_blocked (d : dict) (field : string) (item : pyval)
    (rest : list pyval) (path : list string) :
  lookup "items" d = Some (PList (item :: rest)) ->
  Spec.field_path field = Some path ->
  Spec.path_blocked item path = true ->
  Evaluator.extract_field (PDict d) field = Raise AttributeError.
Proof.
  intros Hi Hp Hb. unfold Evaluator.extract_field; simpl. rewrite Hi; simpl.
  unfold Spec.field_path in Hp.
  destruct (String.eqb field "headers.server").
  - injection Hp as <-. now apply path_blocked_server.
  - destruct (String.eqb field "certificate.serial"); [|discriminate].
    injection Hp as <-. now apply path_blocked_serial.
Qed.

End EvaluatorFacts.

(** ** C4 and C5: the verdict of one probe *)

Section EvaluateProbe.

Variable re_valid : string -> bool.
Variable re_found : string -> string -> bool.


(** C5, as the code has it. A result whose [success] is false gives
    [(False, "Probe failed: " + str(error))], where [error] is what the
    result stores under the key ["error"], and ["Unknown error"] only when
    the result has no such key. A successful result whose data is a
    dictionary without items, with an empty list of items, or with a first
    item in which the path of the field runs through dictionaries up to one
    that lacks the next key gives [(False, "Field not found in response")];
    where the path meets a value that is not a dictionary before its end,
    the call raises [AttributeError]. *)
Theorem evaluate_probe_failure_paths (probe_result : dict) (probe : Probe.t) :
  let run := Evaluator.evaluate_probe re_valid re_found probe_result probe in
  (truthy (get_default probe_result "success" (PBool false)) = false ->
     (forall e, lookup "error" probe_result = Some e ->
        run = Ok (false, "Probe failed: " ++ str e))
     /\ (lookup "error" probe_result = None ->
        run = Ok (false, "Probe failed: Unknown error")))
  /\ (Spec.nothing_to_extract probe_result (Probe.field probe) ->
     run = Ok (false, "Field not found in response"))
  /\ (truthy (get_default probe_result "success" (PBool false)) = true ->
     forall d item rest path,
       get_default probe_result "data" (PDict []) = PDict d ->
       lookup "items" d = Some (PList (item :: rest)) ->
       Spec.field_path (Probe.field probe) = Some path ->
       Spec.path_blocked item path = true ->
       run = Raise AttributeError).
Proof.
  intros run. split; [|split].
  - intros Hs.
    assert (Hrun := evaluate_probe_failed re_valid re_found probe_result probe Hs).
    fold run in Hrun. unfold get_default in Hrun at 1.
    split.
    + intros e He. now rewrite He in Hrun.
    + intros He. now rewrite He in Hrun.
  - intros H.
    assert (He := nothing_to_extract_none H). destruct H as [Hs _].
    assert (Hrun := evaluate_probe_extracted re_valid re_found _ _ Hs He).
    exact Hrun.
  - intros Hs d item rest path Hd Hi Hp Hb.
    unfold run, Evaluator.evaluate_probe. rewrite Hs, Hd.
    now rewrite (extract_field_blocked _ _ Hi Hp Hb).
Qed.

End EvaluateProbe.


Lemma evaluate_probe_failure_paths_witness :
  Evaluator.evaluate_probe Samples.literal_valid Samples.literal_found
    Samples.timeout_result Samples.http_probe
  = Ok (false, "Probe failed: Timeout").
Proof.
  destruct (@evaluate_probe_failure_paths
              Samples.literal_valid Samples.literal_found
              Samples.timeout_result Samples.http_probe) as [Hf _].
  destruct (Hf eq_refl) as [He _].
  exact (He (PStr "Timeout") eq_refl).
Defined.

(** C5 as the specification words it fails twice. On a failed result that
    carries [error: None] the code writes the stored value,
    ["Probe failed: None"], and not ["Probe failed: Unknown error"]. On a
    successful result whose first item stores [http: None] the nested path
    of the server header is missing, and the call raises instead of
    answering that the field was not found. *)
Lemma evaluate_probe_error_none_counterexample :
  let probe_result := [("success", PBool false); ("error", PNone)] in
  let no_head :=
    [("success", PBool true);
     ("data",
      PDict [("items",
              PList [PDict [("data", PDict [("http", PNone)])]])])] in
  truthy (get_default probe_result "success" (PBool false)) = false
  /\ Evaluator.evaluate_probe Samples.literal_valid Samples.literal_found
       probe_result Samples.http_probe
     = Ok (false, "Probe failed: None")
  /\ Evaluator.evaluate_probe Samples.literal_valid Samples.literal_found
       probe_result Samples.http_probe
     <> Ok (false, "Probe failed: " ++ Spec.error_or_unknown probe_result)
  /\ Evaluator.evaluate_probe Samples.literal_valid Samples.literal_found
       no_head Samples.http_probe
     = Raise AttributeError.
Proof.
  cbv zeta. repeat split. vm_compute. discriminate.
Qed.


(** ** C3: the verdict of a fingerprint *)

Section EvaluateFingerprint.

Variable re_valid : string -> bool.
Variable re_found : string -> string -> bool.

Lemma evaluate_each_verdicts prs mes :
  Spec.verdicts re_valid re_found prs mes ->
  forall acc1 acc2,
    Evaluator.evaluate_each re_valid re_found prs acc1 acc2
    = Ok ((acc1 ++ Spec.records_of prs mes)%list, (acc2 ++ map snd mes)%list).
Proof.
  induction 1 as [|[probe r] me prs mes Hm _ IH]; intros acc1 acc2.
  - simpl. now rewrite !app_nil_r.
  - simpl in *. rewrite Hm. simpl. rewrite IH.
    unfold Spec.records_of; simpl. now rewrite <- !app_assoc.
Qed.

Lemma records_of_match prs mes :
  List.length prs = List.length mes ->
  map Evaluator.rec_match (Spec.records_of prs mes) = map fst mes.
Proof.
  revert mes; induction prs as [|pr prs IH]; intros [|me mes]; simpl;
    try discriminate; try reflexivity.
  intros [= H]. unfold Spec.records_of in *; simpl. now rewrite IH.
Qed.

Lemma forallb_map {A B} (f : A -> B) (p : B -> bool) (l : list A) :
  forallb p (map f l) = forallb (fun x => p (f x)) l.
Proof. induction l; simpl; congruence. Qed.

Lemma existsb_map {A B} (f : A -> B) (p : B -> bool) (l : list A) :
  existsb p (map f l) = existsb (fun x => p (f x)) l.
Proof. induction l; simpl; congruence. Qed.

Lemma records_of_forallb prs mes :
  List.length prs = List.length mes ->
  forallb Evaluator.rec_match (Spec.records_of prs mes) = forallb fst mes.
Proof.
  intros H. rewrite <- (forallb_map Evaluator.rec_match (fun b => b)).
  rewrite records_of_match by assumption. now rewrite forallb_map.
Qed.

Lemma records_of_existsb prs mes :
  List.length prs = List.length mes ->
  existsb Evaluator.rec_match (Spec.records_of prs mes) = existsb fst mes.
Proof.
  intros H. rewrite <- (existsb_map Evaluator.rec_match (fun b => b)).
  rewrite records_of_match by assumption. now rewrite existsb_map.
Qed.

(** C3, as the code has it. When [evaluate_probe] returns a verdict for
    each pair (none of the calls raises), [evaluate_fingerprint] returns;
    its [probe_results] hold one record per
    pair, in order, whatever the verdicts before it were; the overall verdict
    is the conjunction of the individual matches for ["all"] (true for no
    pair at all), their disjunction for ["any"], and the conjunction again for
    any other logic; [matched_probes] are the names of the pairs that matched;
    [evidence] is the evidence texts joined with ["; "] in the order of the
    pairs. *)
Theorem evaluate_fingerprint_aggregates
    (prs : list (Probe.t * dict)) (fingerprint : Fingerprint.t)
    (mes : list (bool * string)) :
  Spec.verdicts re_valid re_found prs mes ->
  exists out,
    Evaluator.evaluate_fingerprint re_valid re_found prs fingerprint = Ok out
    /\ Evaluator.ev_fingerprint_id out = Fingerprint.fingerprint_id fingerprint
    /\ Evaluator.probe_results out = Spec.records_of prs mes
    /\ List.length (Evaluator.probe_results out) = List.length prs
    /\ (Fingerprint.match_logic fingerprint = "all" ->
        Evaluator.overall_match out = forallb fst mes)
    /\ (Fingerprint.match_logic fingerprint = "any" ->
        Evaluator.overall_match out = existsb fst mes)
    /\ (Fingerprint.match_logic fingerprint <> "all" ->
        Fingerprint.match_logic fingerprint <> "any" ->
        Evaluator.overall_match out = forallb fst mes)
    /\ (prs = [] -> Fingerprint.match_logic fingerprint <> "any" ->
        Evaluator.overall_match out = true)
    /\ Evaluator.matched_probes out
       = map (fun x => Probe.name (fst (fst x)))
           (filter (fun x => fst (snd x)) (combine prs mes))
    /\ Evaluator.evidence out = join "; " (map snd mes).
Proof.
  intros Hv.
  assert (Hlen : List.length prs = List.length mes)
    by (eapply Forall2_length; exact Hv).
  unfold Evaluator.evaluate_fingerprint.
  rewrite (evaluate_each_verdicts Hv [] []). simpl.
  eexists; split; [reflexivity|]. simpl.
  rewrite records_of_forallb, records_of_existsb by assumption.
  repeat split.
  - unfold Spec.records_of. rewrite length_map, length_combine, <- Hlen.
    apply Nat.min_id.
  - intros ->. reflexivity.
  - intros ->. reflexivity.
  - intros N1 N2. apply String.eqb_neq in N1, N2. now rewrite N1, N2.
  - intros -> N. inversion Hv; subst. simpl.
    apply String.eqb_neq in N. rewrite N.
    now destruct (String.eqb (Fingerprint.match_logic fingerprint) "all").
  - unfold Spec.records_of. clear.
    induction (combine prs mes) as [|[pr [m e]] l IH]; simpl; [reflexivity|].
    destruct m; simpl; now rewrite IH.
Qed.

End EvaluateFingerprint.

(** C3 as the specification words it fails on a pair [evaluate_probe]
    raises on: a successful result without data stops the loop with
    [TypeError], so the pair behind it, which matches, is never evaluated
    and there is no output to hold its name. *)
Lemma evaluate_fingerprint_stops_counterexample :
  Evaluator.evaluate_fingerprint Samples.literal_valid Samples.literal_found
    [(Samples.http_probe, Fixtures.data_none);
     (Samples.tls_probe, Samples.serial_response "1234567890ABCDEF")]
    Samples.sample_fingerprint
  = Raise TypeError
  /\ Evaluator.evaluate_probe Samples.literal_valid Samples.literal_found
       (Samples.serial_response "1234567890ABCDEF") Samples.tls_probe
     = Ok (true, "certificate.serial=1234567890ABCDEF").
Proof. split; reflexivity. Qed.

Lemma evaluate_fingerprint_aggregates_witness :
  exists out,
    Evaluator.evaluate_fingerprint Samples.literal_valid Samples.literal_found
      [(Samples.http_probe, Samples.server_response (PStr "Apache/2.4.41"));
       (Samples.tls_probe, Samples.serial_response "0000")]
      Samples.sample_fingerprint = Ok out
    /\ Evaluator.overall_match out = false
    /\ Evaluator.matched_probes out = ["http_server_header"]
    /\ Evaluator.evidence out
       = "headers.server=Apache/2.4.41; certificate.serial=0000".
Proof.
  destruct (@evaluate_fingerprint_aggregates
              Samples.literal_valid Samples.literal_found
              [(Samples.http_probe, Samples.server_response (PStr "Apache/2.4.41"));
               (Samples.tls_probe, Samples.serial_response "0000")]
              Samples.sample_fingerprint
              [(true, "headers.server=Apache/2.4.41");
               (false, "certificate.serial=0000")]
              ltac:(repeat constructor))
    as (out & Hout & _ & _ & _ & Hall & _ & _ & _ & Hm & He).
  exists out. split; [exact Hout|]. split; [exact (Hall eq_refl)|].
  split; [exact Hm | exact He].
Defined.

(** ** Dictionaries as insertion-ordered association lists *)

Section Dictionaries.

Context {V : Type}.
Implicit Types (d : list (string * V)) (k : string) (v : V).

Lemma lookup_assign_eq k v d : lookup k (assign k v d) = Some v.
Proof.
  induction d as [|[k' v'] d IH]; simpl.
  - now rewrite String.eqb_refl.
  - destruct (String.eqb k k') eqn:E; simpl; rewrite ?String.eqb_refl, ?E; auto.
Qed.

Lemma lookup_assign_neq k k' v d :
  k <> k' -> lookup k' (assign k v d) = lookup k' d.
Proof.
  intros N. induction d as [|[k0 v0] d IH]; simpl.
  - apply not_eq_sym, String.eqb_neq in N. now rewrite N.
  - destruct (String.eqb k k0) eqn:E; simpl.
    + apply String.eqb_eq in E; subst k0.
      apply not_eq_sym, String.eqb_neq in N. now rewrite N.
    + now rewrite IH.
Qed.

Lemma keys_assign k v d k' :
  In k' (keys (assign k v d)) <-> k' = k \/ In k' (keys d).
Proof.
  unfold keys. induction d as [|[k0 v0] d IH]; simpl.
  - intuition congruence.
  - destruct (String.eqb k k0) eqn:E; simpl.
    + apply String.eqb_eq in E; subst k0. intuition congruence.
    + rewrite IH. intuition congruence.
Qed.

Lemma assign_fresh k v d :
  ~ In k (keys d) -> assign k v d = (d ++ [(k, v)])%list.
Proof.
  unfold keys. induction d as [|[k0 v0] d IH]; simpl; intros N; [reflexivity|].
  destruct (String.eqb k k0) eqn:E.
  - apply String.eqb_eq in E. intuition congruence.
  - rewrite IH; intuition congruence.
Qed.

Lemma lookup_none_iff k d : lookup k d = None <-> ~ In k (keys d).
Proof.
  unfold keys. induction d as [|[k0 v0] d IH]; simpl; [intuition congruence|].
  destruct (String.eqb k k0) eqn:E.
  - apply String.eqb_eq in E. split; [discriminate | intuition congruence].
  - apply String.eqb_neq in E. rewrite IH. intuition congruence.
Qed.

Lemma lookup_some_in k v d : lookup k d = Some v -> In (k, v) d.
Proof.
  induction d as [|[k0 v0] d IH]; simpl; [discriminate|].
  destruct (String.eqb k k0) eqn:E.
  - apply String.eqb_eq in E. intros [= ->]. left. now subst.
  - auto.
Qed.

Lemma lookup_app_fresh k d d' :
  ~ In k (keys d) -> lookup k (d ++ d')%list = lookup k d'.
Proof.
  unfold keys. induction d as [|[k0 v0] d IH]; simpl; intros N; [reflexivity|].
  destruct (String.eqb k k0) eqn:E.
  - apply String.eqb_eq in E. intuition congruence.
  - apply IH. intuition congruence.
Qed.

End Dictionaries.

(** ** C6 and C9: validity of a plan *)

Section PlanValidity.

Variable W : Type.
Variable clock : W -> string.

(** C6. [validate] is true iff the plan has at least one target entry and
    false otherwise, for the new plan in particular; it is a total function,
    so it answers without raising. [execute_plan] on a plan that fails
    [validate] returns the empty mapping and leaves the collector, and the
    world, as they were. *)
Theorem validate_iff_has_target
    (self : Planner.t W) (plan : ScanPlan.t) (st : Planner.store W) :
  (ScanPlan.validate plan = true
     <-> exists target, In target (ScanPlan.get_targets plan))
  /\ (ScanPlan.validate plan = false <-> ScanPlan.get_targets plan = [])
  /\ ScanPlan.validate ScanPlan.new = false
  /\ (ScanPlan.validate plan = false ->
      Planner.execute_plan clock self plan st = (inl [], st))
  /\ Planner.execute_plan clock self ScanPlan.new st = (inl [], st).
Proof.
  unfold ScanPlan.validate, ScanPlan.get_targets, keys, Planner.execute_plan.
  destruct plan as [[|[t ps] tp] fp]; simpl; repeat split;
    try discriminate; try reflexivity; try (intros H; discriminate H).
  - intros [x []].
  - intros _. exists t. now left.
Qed.

Lemma mbind_inl {A B} (m : Planner.M W A) (k : A -> Planner.M W B) s a s' :
  m s = (inl a, s') -> Planner.mbind m k s = k a s'.
Proof. intros H. unfold Planner.mbind. now rewrite H. Qed.

Lemma mbind_inr {A B} (m : Planner.M W A) (k : A -> Planner.M W B) s e s' :
  m s = (inr e, s') -> Planner.mbind m k s = (inr e, s').
Proof. intros H. unfold Planner.mbind. now rewrite H. Qed.

Lemma execute_target_no_probes (self : Planner.t W) (plan : ScanPlan.t)
    results target st :
  ScanPlan.get_probes_for_target plan target = [] ->
  Planner.execute_target clock self plan results target st
  = (inl (assign target [] results), st).
Proof. intros H. unfold Planner.execute_target. now rewrite H. Qed.

Lemma execute_targets_no_probes (self : Planner.t W) (plan : ScanPlan.t) st :
  (forall t, ScanPlan.get_probes_for_target plan t = []) ->
  forall targets results,
  exists results',
    Planner.mfold (Planner.execute_target clock self plan) targets results st
    = (inl results', st)
    /\ (forall t, In t targets -> lookup t results' = Some [])
    /\ (forall t, ~ In t targets -> lookup t results' = lookup t results).
Proof.
  intros He targets.
  induction targets as [|t targets IH]; intros results.
  - exists results. split; [reflexivity|].
    split; [now intros t []|reflexivity].
  - destruct (IH (assign t [] results)) as (r' & Hr & Hin & Hout).
    exists r'. split.
    + simpl. erewrite mbind_inl
        by (apply execute_target_no_probes, He). exact Hr.
    + split.
      * intros t' [<-|H]; [|now apply Hin].
        destruct (in_dec string_dec t targets) as [I|I]; [now apply Hin|].
        rewrite (Hout _ I). apply lookup_assign_eq.
      * intros t' N. rewrite Hout by (intros H; apply N; now right).
        apply lookup_assign_neq. intros ->. apply N. now left.
Qed.

(** C9. [add_target] with an empty list of probes stores the target with
    that empty list, and the plan validates although it holds no probe; a
    valid plan whose lists of probes are all empty is executed: the result
    maps every target of the plan to the empty list, and no evidence is
    appended. *)
Theorem add_target_with_no_probes
    (self : Planner.t W) (plan : ScanPlan.t) (target : string)
    (st : Planner.store W) :
  let plan' := ScanPlan.add_target plan target [] in
  lookup target (ScanPlan.target_probes plan') = Some []
  /\ In target (ScanPlan.get_targets plan')
  /\ ScanPlan.validate plan' = true
  /\ Planner.execute_plan clock self (ScanPlan.add_target ScanPlan.new target []) st
     = (inl [(target, [])], st)
  /\ ((forall t, ScanPlan.get_probes_for_target plan' t = []) ->
      exists results,
        Planner.execute_plan clock self plan' st = (inl results, st)
        /\ (forall t, In t (ScanPlan.get_targets plan') ->
            lookup t results = Some [])
        /\ (forall t, ~ In t (ScanPlan.get_targets plan') ->
            lookup t results = None)).
Proof.
  intros plan'.
  assert (Hv : ScanPlan.validate plan' = true).
  { unfold plan', ScanPlan.validate, ScanPlan.add_target. simpl.
    destruct (ScanPlan.target_probes plan) as [|[k v] r]; simpl;
      [reflexivity|]. now destruct (String.eqb target k). }
  split; [apply lookup_assign_eq|].
  split; [apply keys_assign; now left|].
  split; [exact Hv|].
  split.
  - unfold Planner.execute_plan. simpl.
    erewrite mbind_inl; [reflexivity|].
    apply execute_target_no_probes.
    unfold ScanPlan.get_probes_for_target. simpl.
    now rewrite String.eqb_refl.
  - intros He. unfold Planner.execute_plan. rewrite Hv. simpl.
    destruct (execute_targets_no_probes self plan' st He
                (ScanPlan.get_targets plan') [])
      as (results & Hr & Hin & Hout).
    exists results. split; [exact Hr|]. split; [exact Hin|].
    intros t N. now rewrite (Hout t N).
Qed.

End PlanValidity.

Lemma validate_iff_has_target_witness :
  ScanPlan.validate Samples.sample_scan_plan = true
  /\ Planner.execute_plan Samples.clock [Samples.mock_provider]
       ScanPlan.new (EvidenceCollector.new, 0)
     = (inl [], (EvidenceCollector.new, 0)).
Proof.
  destruct (validate_iff_has_target Samples.clock [Samples.mock_provider]
              Samples.sample_scan_plan (EvidenceCollector.new, 0))
    as (Hv & _ & Hnew & _ & _).
  destruct (validate_iff_has_target Samples.clock [Samples.mock_provider]
              ScanPlan.new (EvidenceCollector.new, 0))
    as (_ & _ & Hnew' & Hex & _).
  split.
  - apply Hv. exists "192.0.2.1". simpl. now left.
  - exact (Hex Hnew').
Defined.

Lemma add_target_with_no_probes_witness :
  exists results,
    Planner.execute_plan Samples.clock [Samples.mock_provider]
      (ScanPlan.add_target ScanPlan.new "192.0.2.1" [])
      (EvidenceCollector.new, 0)
    = (inl results, (EvidenceCollector.new, 0))
    /\ lookup "192.0.2.1" results = Some [].
Proof.
  destruct (add_target_with_no_probes Samples.clock [Samples.mock_provider]
              ScanPlan.new "192.0.2.1" (EvidenceCollector.new, 0))
    as (_ & Hin & _ & _ & Hex).
  destruct Hex as (results & Hr & Hs & _).
  - intros t. unfold ScanPlan.get_probes_for_target. simpl.
    now destruct (String.eqb t "192.0.2.1").
  - exists results. split; [exact Hr|]. apply Hs. exact Hin.
Defined.

(** ** C2: building a plan *)

Lemma slice_to_count {A} (l : list A) (stop : Z) :
  (0 <= stop)%Z -> Planner.slice_to l stop = firstn (Z.to_nat stop) l.
Proof.
  intros H. unfold Planner.slice_to.
  destruct (Z.leb_spec 0 stop); [reflexivity | lia].
Qed.

(** A negative bound counts from the end of the list, as slices do. *)
Lemma slice_to_negative {A} (l : list A) (stop : Z) :
  (stop < 0)%Z ->
  Planner.slice_to l stop = firstn (List.length l - Z.to_nat (- stop)) l.
Proof.
  intros H. unfold Planner.slice_to.
  destruct (Z.leb_spec 0 stop); [lia | reflexivity].
Qed.

Section CreateScanPlan.

Variable W : Type.
Variable self : Planner.t W.

Lemma add_all_lookup (vp : list Probe.t) (targets : list string) :
  forall plan t,
    lookup t (ScanPlan.target_probes
                (fold_left (fun plan target => ScanPlan.add_target plan target vp)
                   targets plan))
    = if in_dec string_dec t targets then Some vp
      else lookup t (ScanPlan.target_probes plan).
Proof.
  induction targets as [|t0 targets IH]; intros plan t; simpl; [reflexivity|].
  rewrite IH. destruct (in_dec string_dec t targets) as [I|I].
  - destruct (string_dec t0 t); reflexivity.
  - destruct (string_dec t0 t) as [->|N].
    + apply lookup_assign_eq.
    + simpl. now apply lookup_assign_neq.
Qed.

Lemma create_scan_plan_sliced (targets : list string)
    (fingerprint : Fingerprint.t) (m : Z) :
  let vp := filter (Planner.any_can_handle self)
              (Planner.slice_to (Fingerprint.probes fingerprint) m) in
  Planner.create_scan_plan self targets fingerprint m
  = match vp with
    | [] => ScanPlan.new
    | _ :: _ =>
        fold_left (fun plan target => ScanPlan.add_target plan target vp)
          targets ScanPlan.new
    end.
Proof.
  intros vp. unfold Planner.create_scan_plan. fold vp.
  generalize ScanPlan.new.
  destruct vp as [|p vp'].
  - induction targets; simpl; auto.
  - reflexivity.
Qed.

(** C2, as the code has it. The probes planned for a target are those of
    the slice [probes[:m]] of the fingerprint's probes that some registered
    provider can handle, in the order of the fingerprint. The slice is the
    first [m] probes for a bound [m] that is not negative, and all the probes
    but the last [-m] for a negative one. The truncation comes first, so a
    probe outside the slice is never planned. Every target of the list gets
    these probes when there are any; when there are none the plan holds no
    target, and no target is ever stored with an empty list. *)
Theorem create_scan_plan_truncates_then_filters
    (targets : list string) (fingerprint : Fingerprint.t) (m : Z) :
  let probes := Fingerprint.probes fingerprint in
  let cut :=
    if (0 <=? m)%Z then firstn (Z.to_nat m) probes
    else firstn (List.length probes - Z.to_nat (- m)) probes in
  let vp := filter (Planner.any_can_handle self) cut in
  let plan := Planner.create_scan_plan self targets fingerprint m in
  (forall t, In t targets -> vp <> [] ->
     lookup t (ScanPlan.target_probes plan) = Some vp)
  /\ (forall t, ~ In t targets ->
     lookup t (ScanPlan.target_probes plan) = None)
  /\ (vp = [] -> ScanPlan.target_probes plan = [])
  /\ (forall t ps, lookup t (ScanPlan.target_probes plan) = Some ps ->
     ps = vp /\ ps <> [] /\ In t targets)
  /\ (forall p, In p vp ->
     In p cut
     /\ exists provider, In provider self /\ can_handle provider p = true).
Proof.
  intros probes cut vp plan.
  assert (Hplan := create_scan_plan_sliced targets fingerprint m).
  cbv zeta in Hplan. fold plan in Hplan.
  change (Planner.slice_to (Fingerprint.probes fingerprint) m) with cut
    in Hplan.
  fold vp in Hplan.
  assert (Hlook : forall t,
    lookup t (ScanPlan.target_probes plan)
    = match vp with
      | [] => None
      | _ => if in_dec string_dec t targets then Some vp else None
      end).
  { intros t. rewrite Hplan. destruct vp; [reflexivity|]. apply add_all_lookup. }
  repeat split.
  - intros t I N. rewrite Hlook. destruct vp; [congruence|].
    now destruct (in_dec string_dec t targets).
  - intros t N. rewrite Hlook. destruct vp; [reflexivity|].
    now destruct (in_dec string_dec t targets).
  - intros E. rewrite Hplan, E. reflexivity.
  - rewrite Hlook in H. destruct vp; [discriminate|].
    destruct (in_dec string_dec t targets); congruence.
  - rewrite Hlook in H. destruct vp; [discriminate|].
    destruct (in_dec string_dec t targets); [|discriminate].
    injection H as <-. discriminate.
  - rewrite Hlook in H. destruct vp; [discriminate|].
    now destruct (in_dec string_dec t targets).
  - apply filter_In in H. tauto.
  - apply filter_In in H. destruct H as [_ H].
    unfold Planner.any_can_handle in H. apply existsb_exists in H.
    exact H.
Qed.

End CreateScanPlan.

(** The bound 1 on a fingerprint with an HTTP probe and a TLS probe keeps
    the HTTP probe alone. *)
Lemma create_scan_plan_truncates_then_filters_witness :
  lookup "192.0.2.1"
    (ScanPlan.target_probes
       (Planner.create_scan_plan [Samples.mock_provider] Samples.targets
          Samples.sample_fingerprint 1))
  = Some [Samples.http_probe].
Proof.
  destruct (@create_scan_plan_truncates_then_filters
              Samples.world [Samples.mock_provider] Samples.targets
              Samples.sample_fingerprint 1%Z) as (H & _).
  apply H; [simpl; now left | discriminate].
Defined.

(** C2 as the specification words it fails on a negative bound: of the
    first [max_probes_per_target] entries none survives, so every target
    would be left out of the plan; the code slices [probes[:-1]], which
    keeps all the probes but the last, and plans the HTTP probe. *)
Lemma create_scan_plan_negative_bound_counterexample :
  Spec.surviving_probes [Samples.mock_provider] Samples.sample_fingerprint
    (Z.to_nat (-1)) = []
  /\ lookup "192.0.2.1"
       (ScanPlan.target_probes
          (Planner.create_scan_plan [Samples.mock_provider] Samples.targets
             Samples.sample_fingerprint (-1)))
     = Some [Samples.http_probe].
Proof. split; reflexivity. Qed.

(** Truncation comes before filtering: with a provider for TLS only, the
    bound 1 leaves nothing to plan although the second probe is executable. *)
Example create_scan_plan_no_reconsideration :
  ScanPlan.target_probes
    (Planner.create_scan_plan [Samples.tls_only_provider] Samples.targets
       Samples.sample_fingerprint 1) = [].
Proof. reflexivity. Qed.

(** ** C1: execution of a plan *)

Section ExecutePlan.

Variable W : Type.
Variable clock : W -> string.
Variable self : Planner.t W.

Lemma execute_probe_step (target : string) (probe : Probe.t)
    (trs : list (Probe.t * dict)) (st : Planner.store W) :
  exists trs' st',
    Planner.execute_probe clock self target trs probe st = (inl trs', st')
    /\ Spec.probe_step clock self target probe (trs, st) (trs', st').
Proof.
  destruct st as [ec w]. unfold Planner.execute_probe.
  destruct (Planner.select_provider_for_probe self probe)
    as [[k provider]|] eqn:Hsel.
  - destruct (query provider target probe w) as [[result|message] w'] eqn:Hq.
    + do 2 eexists. split.
      * unfold Planner.try_except, Planner.mbind, Planner.call_query,
          Planner.add_probe_result, Planner.ret. simpl. rewrite Hq. simpl.
        reflexivity.
      * eapply Spec.step_returned; eassumption.
    + do 2 eexists. split.
      * unfold Planner.try_except, Planner.mbind, Planner.call_query,
          Planner.add_probe_result, Planner.ret. simpl. rewrite Hq. simpl.
        reflexivity.
      * eapply Spec.step_raised; eassumption.
  - do 2 eexists. split.
    + unfold Planner.mbind, Planner.add_probe_result, Planner.ret. simpl.
      reflexivity.
    + now apply Spec.step_no_provider.
Qed.

Lemma execute_probes_run (target : string) (probes : list Probe.t) :
  forall trs st,
  exists trs' st',
    Planner.mfold (Planner.execute_probe clock self target) probes trs st
    = (inl trs', st')
    /\ Spec.probes_run clock self target probes (trs, st) (trs', st').
Proof.
  induction probes as [|probe probes IH]; intros trs st.
  - exists trs, st. split; [reflexivity | constructor].
  - destruct (execute_probe_step target probe trs st) as (t1 & s1 & H1 & R1).
    destruct (IH t1 s1) as (t2 & s2 & H2 & R2).
    exists t2, s2. split.
    + simpl. erewrite mbind_inl by exact H1. exact H2.
    + econstructor; eassumption.
Qed.

Lemma execute_targets_run (plan : ScanPlan.t) (targets : list string) :
  forall results st,
  exists results' st',
    Planner.mfold (Planner.execute_target clock self plan) targets results st
    = (inl results', st')
    /\ Spec.targets_run clock self plan targets (results, st) (results', st')
    /\ (forall t, In t targets \/ In t (keys results) -> In t (keys results')).
Proof.
  induction targets as [|t targets IH]; intros results st.
  - exists results, st. split; [reflexivity|]. split; [constructor|].
    intros t [[]|H]; exact H.
  - destruct (execute_probes_run t (ScanPlan.get_probes_for_target plan t) [] st)
      as (trs & s1 & H1 & R1).
    destruct (IH (assign t trs results) s1) as (r2 & s2 & H2 & R2 & K2).
    exists r2, s2. split; [|split].
    + simpl. erewrite mbind_inl; [exact H2|].
      unfold Planner.execute_target. erewrite mbind_inl by exact H1.
      reflexivity.
    + econstructor; eassumption.
    + intros t' [[<-|H]|H]; apply K2.
      * right. apply keys_assign. now left.
      * now left.
      * right. apply keys_assign. now right.
Qed.

(** Every step appends one record of evidence. *)
Lemma probes_run_evidence (target : string) (probes : list Probe.t) s1 s2 :
  Spec.probes_run clock self target probes s1 s2 ->
  List.length (fst (snd s2))
  = (List.length (fst (snd s1)) + List.length probes)%nat.
Proof.
  induction 1 as [s|probe rest s1 s2 s3 Hstep _ IH]; simpl; [lia|].
  rewrite IH. inversion Hstep; subst; simpl; rewrite length_app; simpl; lia.
Qed.

Lemma targets_run_evidence (plan : ScanPlan.t) (targets : list string) s1 s2 :
  Spec.targets_run clock self plan targets s1 s2 ->
  List.length (fst (snd s2))
  = (List.length (fst (snd s1))
     + list_sum (map (fun t => List.length
                                 (ScanPlan.get_probes_for_target plan t))
                   targets))%nat.
Proof.
  induction 1 as [s|target rest results st trs st' s3 Hp _ IH]; simpl; [lia|].
  rewrite IH. simpl. apply probes_run_evidence in Hp. simpl in Hp. lia.
Qed.

(** C1. The execution of a valid plan returns its mapping and never ends
    with an exception. It runs the targets of the plan in order and the
    probes of each target in order, and each probe does one of three things
    ([Spec.probe_step]): with no provider available it appends a failed
    record of evidence with the message "No provider available" and no pair;
    with a provider whose query returns it appends the pair [(probe, result)]
    whatever [success] the result reports, and a record of evidence; with a
    provider whose query raises it appends a failed record of evidence that
    carries the message of the exception, and no pair. Every target of the
    plan is a key of the mapping returned, and the collector has one more
    record for each probe of the plan. *)
Theorem execute_plan_contains_failures
    (plan : ScanPlan.t) (ec : EvidenceCollector.t) (w : W) :
  ScanPlan.validate plan = true ->
  exists results ec' w',
    Planner.execute_plan clock self plan (ec, w) = (inl results, (ec', w'))
    /\ Spec.targets_run clock self plan (ScanPlan.get_targets plan)
         ([], (ec, w)) (results, (ec', w'))
    /\ (forall t, In t (ScanPlan.get_targets plan) -> In t (keys results))
    /\ List.length ec'
       = (List.length ec
          + list_sum (map (fun t => List.length
                                      (ScanPlan.get_probes_for_target plan t))
                        (ScanPlan.get_targets plan)))%nat.
Proof.
  intros Hv.
  destruct (execute_targets_run plan (ScanPlan.get_targets plan) [] (ec, w))
    as (results & [ec' w'] & Hrun & Hrel & Hkeys).
  exists results, ec', w'. unfold Planner.execute_plan. rewrite Hv. simpl.
  split; [exact Hrun|]. split; [exact Hrel|]. split.
  - intros t H. apply Hkeys. now left.
  - apply targets_run_evidence in Hrel. exact Hrel.
Qed.

End ExecutePlan.

(** A provider that raises on every query: the three targets are all in the
    result, with no pair, and six failed records carry the message. *)
Lemma execute_plan_contains_failures_witness :
  exists results ec' w',
    Planner.execute_plan Samples.clock [Samples.failing_provider]
      Samples.sample_scan_plan (EvidenceCollector.new, 0)
    = (inl results, (ec', w'))
    /\ (forall t, In t Samples.targets -> In t (keys results))
    /\ List.length ec' = 6.
Proof.
  destruct (@execute_plan_contains_failures
              Samples.world Samples.clock [Samples.failing_provider]
              Samples.sample_scan_plan EvidenceCollector.new 0 eq_refl)
    as (results & ec' & w' & Hrun & _ & Hkeys & Hlen).
  exists results, ec', w'. split; [exact Hrun|]. split; [exact Hkeys|].
  exact Hlen.
Defined.

Example execute_plan_failing_provider :
  Planner.execute_plan Samples.clock [Samples.failing_provider]
    (ScanPlan.add_target ScanPlan.new "192.0.2.1" [Samples.http_probe])
    (EvidenceCollector.new, 0)
  = (inl [("192.0.2.1", [])],
     ([Evidence.Build "http_server_header" "192.0.2.1" "2024-01-01T00:00:01"
         (PBool false) false "" "" "Provider failure" (PDict [])], 1)).
Proof. vm_compute. reflexivity. Qed.

Example execute_plan_no_provider :
  Planner.execute_plan Samples.clock ([] : list (Provider Samples.world))
    (ScanPlan.add_target ScanPlan.new "192.0.2.1" [Samples.http_probe])
    (EvidenceCollector.new, 0)
  = (inl [("192.0.2.1", [])],
     ([Evidence.Build "http_server_header" "192.0.2.1" "2024-01-01T00:00:00"
         (PBool false) false "" "" "No provider available" (PDict [])], 0)).
Proof. vm_compute. reflexivity. Qed.

(** ** C7: optimization of a plan *)

Lemma NoDup_remove_all (x : nat) (l : list nat) :
  NoDup l -> NoDup (remove Nat.eq_dec x l).
Proof.
  induction 1 as [|y l N _ IH]; simpl; [constructor|].
  destruct (Nat.eq_dec x y); [exact IH|].
  constructor; [|exact IH]. intros H. apply in_remove in H. tauto.
Qed.

Lemma fold_left_append {A B} (f : B -> list A) (l : list B) (acc : list A) :
  fold_left (fun acc x => (acc ++ f x)%list) l acc
  = (acc ++ flat_map f l)%list.
Proof.
  revert acc; induction l as [|x l IH]; intros acc; simpl.
  - now rewrite app_nil_r.
  - now rewrite IH, app_assoc.
Qed.

Section OptimizePlan.

Variable W : Type.
Variable self : Planner.t W.

Lemma selected_case {A} (probe : Probe.t) (f : nat -> A) (a : A) :
  match Planner.select_provider_for_probe self probe with
  | Some (k, _) => f k
  | None => a
  end
  = match Spec.selected self probe with Some k => f k | None => a end.
Proof.
  unfold Spec.selected.
  now destruct (Planner.select_provider_for_probe self probe) as [[k p]|].
Qed.

Lemma group_probes_snoc (l : list Probe.t) (p : Probe.t) :
  Planner.group_probes self (l ++ [p])
  = match Spec.selected self p with
    | Some k => Planner.group_add k p (Planner.group_probes self l)
    | None => Planner.group_probes self l
    end.
Proof.
  unfold Planner.group_probes. rewrite fold_left_app. simpl.
  apply selected_case.
Qed.

Lemma first_met_in (k : nat) (l : list Probe.t) :
  In k (Spec.first_met self l)
  <-> exists p, In p l /\ Spec.selected self p = Some k.
Proof.
  induction l as [|a l IH]; simpl.
  - split; [intros [] | intros [p [[] _]]].
  - destruct (Spec.selected self a) as [k0|] eqn:E; simpl.
    + split.
      * intros [<-|H]; [exists a; auto|].
        apply in_remove in H. destruct H as [H _].
        apply IH in H. destruct H as [p [Hp Hs]]. exists p; auto.
      * intros [p [[<-|Hp] Hs]]; [left; congruence|].
        destruct (Nat.eq_dec k0 k) as [->|N]; [now left|].
        right. apply in_in_remove; [congruence|]. apply IH. exists p; auto.
    + rewrite IH. split; intros [p [Hp Hs]].
      * exists p; auto.
      * destruct Hp as [<-|Hp]; [congruence|]. exists p; auto.
Qed.

Lemma first_met_NoDup (l : list Probe.t) : NoDup (Spec.first_met self l).
Proof.
  induction l as [|a l IH]; simpl; [constructor|].
  destruct (Spec.selected self a) as [k0|]; [|exact IH].
  constructor; [apply remove_In | now apply NoDup_remove_all].
Qed.

Lemma first_met_snoc (l : list Probe.t) (p : Probe.t) :
  Spec.first_met self (l ++ [p])
  = (Spec.first_met self l
     ++ match Spec.selected self p with
        | Some k =>
            if in_dec Nat.eq_dec k (Spec.first_met self l) then [] else [k]
        | None => []
        end)%list.
Proof.
  induction l as [|a l IH]; simpl.
  - destruct (Spec.selected self p); reflexivity.
  - destruct (Spec.selected self a) as [k0|] eqn:Ea; [|exact IH].
    rewrite IH, remove_app, <- app_comm_cons. f_equal. f_equal.
    destruct (Spec.selected self p) as [k|]; [|reflexivity].
    destruct (in_dec Nat.eq_dec k (Spec.first_met self l)) as [I|I];
      destruct (in_dec Nat.eq_dec k
                  (k0 :: remove Nat.eq_dec k0 (Spec.first_met self l)))
        as [J|J]; cbn [remove].
    + reflexivity.
    + exfalso. apply J. destruct (Nat.eq_dec k0 k) as [->|N]; [now left|].
      right. apply in_in_remove; congruence.
    + destruct (Nat.eq_dec k0 k); [reflexivity|].
      exfalso. destruct J as [J|J]; [congruence|].
      apply in_remove in J. tauto.
    + destruct (Nat.eq_dec k0 k) as [->|N]; [|reflexivity].
      exfalso. apply J. now left.
Qed.

Lemma group_add_present (k : nat) (p : Probe.t) (f : nat -> list Probe.t)
    (L : list nat) :
  NoDup L -> In k L ->
  Planner.group_add k p (map (fun k' => (k', f k')) L)
  = map (fun k' => (k', (f k' ++ if Nat.eqb k' k then [p] else [])%list)) L.
Proof.
  induction 1 as [|k' L N ND IH]; intros I; [destruct I|]. simpl.
  destruct (Nat.eqb k k') eqn:E.
  - apply Nat.eqb_eq in E; subst k'. rewrite Nat.eqb_refl. f_equal.
    apply map_ext_in. intros x Hx.
    assert (Nat.eqb x k = false) as ->
      by (apply Nat.eqb_neq; intros ->; contradiction).
    now rewrite app_nil_r.
  - rewrite Nat.eqb_sym, E, app_nil_r. f_equal. apply IH.
    destruct I as [->|I]; [|exact I]. now rewrite Nat.eqb_refl in E.
Qed.

Lemma group_add_absent (k : nat) (p : Probe.t) (f : nat -> list Probe.t)
    (L : list nat) :
  ~ In k L ->
  Planner.group_add k p (map (fun k' => (k', f k')) L)
  = (map (fun k' => (k', f k')) L ++ [(k, [p])])%list.
Proof.
  induction L as [|k' L IH]; intros N; simpl; [reflexivity|].
  destruct (Nat.eqb k k') eqn:E.
  - apply Nat.eqb_eq in E. exfalso. apply N. now left.
  - f_equal. apply IH. intros H. apply N. now right.
Qed.

Lemma selected_is_snoc (k : nat) (l : list Probe.t) (p : Probe.t) :
  filter (Spec.selected_is self k) (l ++ [p])
  = (filter (Spec.selected_is self k) l
     ++ match Spec.selected self p with
        | Some k0 => if Nat.eqb k k0 then [p] else []
        | None => []
        end)%list.
Proof.
  rewrite filter_app. simpl. unfold Spec.selected_is at 2.
  destruct (Spec.selected self p) as [k0|]; [|reflexivity].
  now destruct (Nat.eqb k k0).
Qed.

Lemma selected_is_none_met (k : nat) (l : list Probe.t) :
  ~ In k (Spec.first_met self l) -> filter (Spec.selected_is self k) l = [].
Proof.
  intros N. destruct (filter (Spec.selected_is self k) l) as [|q r] eqn:E;
    [reflexivity|].
  exfalso. apply N, first_met_in. exists q.
  assert (Hq : In q (filter (Spec.selected_is self k) l))
    by (rewrite E; now left).
  apply filter_In in Hq. destruct Hq as [Hq Hs]. split; [exact Hq|].
  unfold Spec.selected_is in Hs.
  destruct (Spec.selected self q) as [k0|]; [|discriminate].
  apply Nat.eqb_eq in Hs. now subst.
Qed.

(** The groups the loop builds: one per provider met, in the order they are
    met, each with its probes in their order. *)
Lemma group_probes_spec (l : list Probe.t) :
  Planner.group_probes self l
  = map (fun k => (k, filter (Spec.selected_is self k) l))
      (Spec.first_met self l).
Proof.
  induction l as [|p l IH] using rev_ind; [reflexivity|].
  rewrite group_probes_snoc, IH, first_met_snoc.
  destruct (Spec.selected self p) as [k|] eqn:Ep.
  - destruct (in_dec Nat.eq_dec k (Spec.first_met self l)) as [I|I].
    + rewrite app_nil_r, group_add_present by (auto using first_met_NoDup).
      apply map_ext. intros k'. rewrite selected_is_snoc, Ep.
      reflexivity.
    + rewrite group_add_absent by assumption. rewrite map_app. simpl.
      rewrite selected_is_snoc, Ep, Nat.eqb_refl,
        (@selected_is_none_met k l I). simpl.
      f_equal. apply map_ext_in. intros k' Hk'.
      rewrite selected_is_snoc, Ep.
      assert (Nat.eqb k' k = false) as ->
        by (apply Nat.eqb_neq; intros ->; contradiction).
      now rewrite app_nil_r.
  - rewrite app_nil_r. apply map_ext. intros k'.
    rewrite selected_is_snoc, Ep. now rewrite app_nil_r.
Qed.

Lemma optimize_probes_regrouped (l : list Probe.t) :
  Planner.optimize_probes self l = Spec.regrouped self l.
Proof.
  unfold Planner.optimize_probes, Spec.regrouped.
  rewrite fold_left_append, group_probes_spec. simpl.
  now rewrite flat_map_concat_map, map_map, <- flat_map_concat_map.
Qed.

End OptimizePlan.

Lemma filter_exclusive_perm {A} (f g : A -> bool) (l : list A) :
  (forall x, In x l -> f x = true -> g x = false) ->
  Permutation (filter f l ++ filter g l) (filter (fun x => f x || g x) l).
Proof.
  induction l as [|a l IH]; intros Hx; simpl; [constructor|].
  assert (IH' := IH (fun x H => Hx x (or_intror H))).
  destruct (f a) eqn:Ef; simpl.
  - rewrite (Hx a (or_introl eq_refl) Ef). now constructor.
  - destruct (g a); [|exact IH'].
    apply Permutation_sym, Permutation_cons_app, Permutation_sym, IH'.
Qed.

Section OptimizePlanEntries.

Variable W : Type.
Variable self : Planner.t W.

Lemma selected_is_inj (k k' : nat) (p : Probe.t) :
  Spec.selected_is self k p = true -> Spec.selected_is self k' p = true ->
  k = k'.
Proof.
  unfold Spec.selected_is. destruct (Spec.selected self p); [|discriminate].
  intros H1 H2. apply Nat.eqb_eq in H1, H2. congruence.
Qed.

Lemma groups_perm (l : list Probe.t) (L : list nat) :
  NoDup L ->
  Permutation (flat_map (fun k => filter (Spec.selected_is self k) l) L)
    (filter (fun p => existsb (fun k => Spec.selected_is self k p) L) l).
Proof.
  induction 1 as [|k L N ND IH]; simpl.
  - induction l; simpl; auto.
  - eapply Permutation_trans; [apply Permutation_app_head, IH|].
    apply filter_exclusive_perm. intros p _ Hk.
    destruct (existsb (fun k0 => Spec.selected_is self k0 p) L) eqn:E;
      [|reflexivity].
    apply existsb_exists in E. destruct E as [k' [Hin Hk']].
    rewrite (selected_is_inj _ _ _ Hk Hk') in N. contradiction.
Qed.

Lemma assignable_met (l : list Probe.t) (p : Probe.t) :
  In p l ->
  existsb (fun k => Spec.selected_is self k p) (Spec.first_met self l)
  = Spec.assignable self p.
Proof.
  intros Hp. unfold Spec.assignable.
  destruct (Spec.selected self p) as [k|] eqn:E.
  - apply existsb_exists. exists k. split.
    + apply first_met_in. now exists p.
    + unfold Spec.selected_is. rewrite E. apply Nat.eqb_refl.
  - destruct (existsb _ _) eqn:X; [|reflexivity].
    apply existsb_exists in X. destruct X as [k [_ Hk]].
    unfold Spec.selected_is in Hk. now rewrite E in Hk.
Qed.

(** The regrouped probes are the probes that have a provider, rearranged. *)
Lemma regrouped_perm (l : list Probe.t) :
  Permutation (Spec.regrouped self l) (filter (Spec.assignable self) l).
Proof.
  unfold Spec.regrouped.
  eapply Permutation_trans; [apply groups_perm, first_met_NoDup|].
  erewrite filter_ext_in; [reflexivity|].
  intros p Hp. now apply assignable_met.
Qed.

Lemma regrouped_all_assignable (l : list Probe.t) :
  (forall p, In p l -> Spec.assignable self p = true) ->
  Permutation (Spec.regrouped self l) l.
Proof.
  intros H. eapply Permutation_trans; [apply regrouped_perm|].
  assert (filter (Spec.assignable self) l = l) as ->; [|reflexivity].
  induction l as [|a l IH]; simpl; [reflexivity|].
  rewrite (H a (or_introl eq_refl)). f_equal. apply IH.
  intros p Hp. apply H. now right.
Qed.

Lemma optimize_entries (entries : list (string * list Probe.t)) :
  NoDup (keys entries) ->
  forall acc,
    (forall t, In t (keys entries) ->
               ~ In t (keys (ScanPlan.target_probes acc))) ->
    ScanPlan.target_probes
      (fold_left
         (fun optimized_plan tp =>
            match Planner.optimize_probes self (snd tp) with
            | [] => optimized_plan
            | optimized_probes =>
                ScanPlan.add_target optimized_plan (fst tp) optimized_probes
            end)
         entries acc)
    = (ScanPlan.target_probes acc ++ Spec.regrouped_entries self entries)%list.
Proof.
  unfold keys.
  induction entries as [|[t ps] entries IH]; simpl; intros ND acc Hd.
  - now rewrite app_nil_r.
  - inversion ND as [|? ? Nt ND']; subst.
    rewrite optimize_probes_regrouped. unfold Spec.regrouped_entries. simpl.
    destruct (Spec.regrouped self ps) as [|q r] eqn:E; simpl.
    + apply IH; [exact ND'|]. intros t' H. apply Hd. now right.
    + rewrite IH; [|exact ND'|].
      * simpl. rewrite assign_fresh by (apply Hd; now left).
        now rewrite <- app_assoc.
      * intros t' H. simpl. intros H'. apply keys_assign in H'.
        destruct H' as [->|H']; [contradiction|].
        revert H'. apply Hd. now right.
Qed.

Lemma regrouped_entries_lookup (entries : list (string * list Probe.t))
    (t : string) :
  NoDup (keys entries) ->
  lookup t (Spec.regrouped_entries self entries)
  = match lookup t entries with
    | Some ps =>
        match Spec.regrouped self ps with [] => None | r => Some r end
    | None => None
    end.
Proof.
  unfold keys, Spec.regrouped_entries.
  induction entries as [|[t0 ps] entries IH]; simpl; intros ND;
    [reflexivity|].
  inversion ND as [|? ? Nt ND']; subst.
  destruct (String.eqb t t0) eqn:E.
  - apply String.eqb_eq in E; subst t0.
    destruct (Spec.regrouped self ps) as [|q r]; simpl.
    + rewrite (IH ND').
      assert (lookup t entries = None) as -> by (now apply lookup_none_iff).
      reflexivity.
    + now rewrite String.eqb_refl.
  - destruct (Spec.regrouped self ps) as [|q r]; simpl.
    + apply IH, ND'.
    + rewrite E. apply IH, ND'.
Qed.

Lemma regrouped_entries_total (entries : list (string * list Probe.t)) :
  list_sum (map (fun tp => List.length (snd tp))
              (Spec.regrouped_entries self entries))
  = list_sum (map (fun tp => List.length
                               (filter (Spec.assignable self) (snd tp)))
                entries).
Proof.
  unfold Spec.regrouped_entries.
  induction entries as [|[t ps] entries IH]; simpl; [reflexivity|].
  rewrite <- (Permutation_length (regrouped_perm ps)).
  destruct (Spec.regrouped self ps) as [|q r]; simpl; now rewrite IH.
Qed.

(** C7. For a plan (a dictionary, so with distinct targets), optimization
    gives each target its probes regrouped by selected provider
    ([Spec.regrouped]): the groups come in the order their providers are
    first met from left to right, and each group holds the probes of its
    provider in their original order. The regrouped probes are a
    rearrangement of the probes that have a provider: no such probe is lost
    or repeated, so the total count is unchanged when every probe has a
    provider; a probe without provider is dropped, and nothing fails. *)
Theorem optimize_plan_regroups (plan : ScanPlan.t) :
  NoDup (ScanPlan.get_targets plan) ->
  let optimized := Planner.optimize_plan self plan in
  ScanPlan.target_probes optimized
  = Spec.regrouped_entries self (ScanPlan.target_probes plan)
  /\ (forall t ps, lookup t (ScanPlan.target_probes plan) = Some ps ->
      ScanPlan.get_probes_for_target optimized t = Spec.regrouped self ps
      /\ Permutation (ScanPlan.get_probes_for_target optimized t)
           (filter (Spec.assignable self) ps)
      /\ ((forall p, In p ps -> Spec.assignable self p = true) ->
          Permutation (ScanPlan.get_probes_for_target optimized t) ps))
  /\ Planner.total_probes optimized
     = list_sum (map (fun tp => List.length
                                  (filter (Spec.assignable self) (snd tp)))
                   (ScanPlan.target_probes plan))
  /\ ((forall t ps p, In (t, ps) (ScanPlan.target_probes plan) -> In p ps ->
                      Spec.assignable self p = true) ->
      Planner.total_probes optimized = Planner.total_probes plan).
Proof.
  intros ND optimized.
  assert (He : ScanPlan.target_probes optimized
               = Spec.regrouped_entries self (ScanPlan.target_probes plan)).
  { unfold optimized, Planner.optimize_plan.
    rewrite optimize_entries; [reflexivity | exact ND | intros t _ []]. }
  assert (Hg : forall t ps, lookup t (ScanPlan.target_probes plan) = Some ps ->
             ScanPlan.get_probes_for_target optimized t = Spec.regrouped self ps).
  { intros t ps Hl. unfold ScanPlan.get_probes_for_target.
    rewrite He, regrouped_entries_lookup by exact ND. rewrite Hl.
    now destruct (Spec.regrouped self ps). }
  assert (Ht : Planner.total_probes optimized
     = list_sum (map (fun tp => List.length
                                  (filter (Spec.assignable self) (snd tp)))
                   (ScanPlan.target_probes plan))).
  { unfold Planner.total_probes. rewrite He. apply regrouped_entries_total. }
  split; [exact He|]. split; [|split; [exact Ht|]].
  - intros t ps Hl. rewrite (Hg _ _ Hl). split; [reflexivity|].
    split; [apply regrouped_perm | apply regrouped_all_assignable].
  - intros Ha. rewrite Ht. unfold Planner.total_probes.
    clear - Ha. induction (ScanPlan.target_probes plan) as [|[t ps] l IH];
      simpl; [reflexivity|].
    rewrite IH
      by (intros t' ps' p H H2; apply (Ha t' ps' p); [now right | exact H2]).
    f_equal. f_equal.
    assert (H : forall p, In p ps -> Spec.assignable self p = true)
      by (intros p Hp; apply (Ha t ps p); [now left | exact Hp]).
    clear - H. induction ps as [|a ps IH]; simpl; [reflexivity|].
    rewrite (H a (or_introl eq_refl)). f_equal. apply IH.
    intros p Hp. apply H. now right.
Qed.

End OptimizePlanEntries.

(** Probes that alternate between two providers are regrouped, the HTTP
    group first as its provider is met first; the probe without provider is
    dropped. *)
Lemma optimize_plan_regroups_witness :
  ScanPlan.get_probes_for_target
    (Planner.optimize_plan
       [Samples.http_only_provider; Samples.tls_only_provider]
       Samples.mixed_plan) "192.0.2.1"
  = [Samples.http_probe; Samples.http_probe2; Samples.tls_probe].
Proof.
  destruct (@optimize_plan_regroups Samples.world
              [Samples.http_only_provider; Samples.tls_only_provider]
              Samples.mixed_plan
              ltac:(repeat constructor; simpl; tauto)) as (_ & Hg & _).
  destruct (Hg "192.0.2.1"
              [Samples.http_probe; Samples.tls_probe; Samples.dns_probe;
               Samples.http_probe2] eq_refl) as [H _].
  rewrite H. reflexivity.
Defined.

(** ** Order of the keys *)

Lemma ascii_compare_spec (a b : ascii) :
  CompareSpec (a = b) (N_of_ascii a < N_of_ascii b)%N
    (N_of_ascii b < N_of_ascii a)%N (Ascii.compare a b).
Proof.
  unfold Ascii.compare.
  destruct (N.compare_spec (N_of_ascii a) (N_of_ascii b)) as [E|L|G];
    constructor; auto.
  rewrite <- (ascii_N_embedding a), <- (ascii_N_embedding b). now rewrite E.
Qed.

Lemma string_leb_trans (s1 s2 s3 : string) :
  String.leb s1 s2 = true -> String.leb s2 s3 = true -> String.leb s1 s3 = true.
Proof.
  unfold String.leb. revert s2 s3.
  induction s1 as [|c1 s1 IH]; intros [|c2 s2] [|c3 s3]; simpl;
    try reflexivity; try discriminate.
  destruct (ascii_compare_spec c1 c2) as [E12|L12|G12]; try discriminate.
  - subst c2. destruct (ascii_compare_spec c1 c3); try discriminate.
    + apply IH.
    + reflexivity.
  - intros _. destruct (ascii_compare_spec c2 c3) as [E23|L23|G23];
      try discriminate; intros _.
    + subst c3. destruct (ascii_compare_spec c1 c2) as [E|L|G];
        [subst; lia | reflexivity | lia].
    + destruct (ascii_compare_spec c1 c3) as [E|L|G];
        [subst; lia | reflexivity | lia].
Qed.

Section SortItems.

Context {V : Type}.
Implicit Types (x y : string * V) (l : list (string * V)).

Lemma insert_swap x y l :
  fst x <> fst y ->
  Json.insert x (Json.insert y l) = Json.insert y (Json.insert x l).
Proof.
  intros N.
  assert (H : (String.leb (fst x) (fst y) = true
               /\ String.leb (fst y) (fst x) = false)
              \/ (String.leb (fst x) (fst y) = false
                  /\ String.leb (fst y) (fst x) = true)).
  { destruct (String.leb (fst x) (fst y)) eqn:A,
             (String.leb (fst y) (fst x)) eqn:B; auto.
    - exfalso. apply N. now apply String.leb_antisym.
    - destruct (String.leb_total (fst x) (fst y)); congruence. }
  induction l as [|z l IH]; simpl.
  - destruct H as [[A B]|[A B]]; now rewrite A, B.
  - destruct (String.leb (fst y) (fst z)) eqn:Ey,
             (String.leb (fst x) (fst z)) eqn:Ex; simpl;
      destruct H as [[A B]|[A B]];
      rewrite ?A, ?B, ?Ex, ?Ey; simpl; rewrite ?A, ?B, ?Ex, ?Ey;
      try reflexivity;
      try (f_equal; exact IH);
      try (pose proof (string_leb_trans _ _ _ A Ey); congruence);
      try (pose proof (string_leb_trans _ _ _ B Ex); congruence).
Qed.

(** The sorted items do not depend on the order of insertion. *)
Lemma sort_items_perm l l' :
  Permutation l l' -> NoDup (keys l) ->
  Json.sort_items l = Json.sort_items l'.
Proof.
  unfold keys.
  induction 1 as [|x l l' P IH|x y l|l l' l'' P1 IH1 P2 IH2]; simpl; intros ND.
  - reflexivity.
  - inversion ND; subst. now rewrite IH.
  - apply insert_swap. inversion ND as [|? ? N _]; subst.
    intros E. apply N. left. now symmetry.
  - rewrite IH1 by exact ND. apply IH2.
    eapply Permutation_NoDup; [|exact ND]. now apply Permutation_map.
Qed.

End SortItems.

(** ** C8 and C10: the derived fields of a record of evidence *)

Lemma distinct_keys_list (l : list pyval) :
  Spec.distinct_keys (PList l) <-> Forall Spec.distinct_keys l.
Proof.
  induction l as [|x l IH].
  - split; [constructor | intros _; exact I].
  - change (Spec.distinct_keys (PList (x :: l)))
      with (Spec.distinct_keys x /\ Spec.distinct_keys (PList l)).
    rewrite IH. split.
    + intros [H1 H2]. now constructor.
    + intros H. inversion H; subst. now split.
Qed.

Lemma distinct_keys_dict (d : dict) :
  Spec.distinct_keys (PDict d)
  <-> NoDup (keys d) /\ Forall (fun kv => Spec.distinct_keys (snd kv)) d.
Proof.
  assert (H : forall d : dict,
    (fix all (d : dict) : Prop :=
       match d with
       | [] => True
       | kv :: r => Spec.distinct_keys (snd kv) /\ all r
       end) d
    <-> Forall (fun kv => Spec.distinct_keys (snd kv)) d).
  { clear d. induction d as [|kv d IH].
    - split; [constructor | intros _; exact I].
    - rewrite IH. split.
      + intros [H1 H2]. now constructor.
      + intros H. inversion H; subst. now split. }
  change (Spec.distinct_keys (PDict d))
    with (NoDup (keys d) /\
          (fix all (d : dict) : Prop :=
             match d with
             | [] => True
             | kv :: r => Spec.distinct_keys (snd kv) /\ all r
             end) d).
  now rewrite H.
Qed.

Lemma same_content_list (l m : list pyval) :
  Spec.same_content (PList l) (PList m) = true
  <-> Forall2 (fun x y => Spec.same_content x y = true) l m.
Proof.
  revert m; induction l as [|x l IH]; intros [|y m].
  - split; [constructor | reflexivity].
  - split; [discriminate | intros H; inversion H].
  - split; [discriminate | intros H; inversion H].
  - change (Spec.same_content (PList (x :: l)) (PList (y :: m)))
      with (Spec.same_content x y && Spec.same_content (PList l) (PList m)).
    rewrite andb_true_iff, IH. split.
    + intros [H1 H2]. now constructor.
    + intros H. inversion H; subst. now split.
Qed.

Lemma same_content_dict (d e : dict) :
  Spec.same_content (PDict d) (PDict e) = true
  <-> List.length d = List.length e
      /\ Forall (fun kv => exists v', lookup (fst kv) e = Some v'
                           /\ Spec.same_content (snd kv) v' = true) d.
Proof.
  assert (H : forall d : dict,
    (fix go (d : dict) : bool :=
       match d with
       | [] => true
       | kv :: r =>
           match lookup (fst kv) e with
           | Some v' => Spec.same_content (snd kv) v'
           | None => false
           end && go r
       end) d = true
    <-> Forall (fun kv => exists v', lookup (fst kv) e = Some v'
                          /\ Spec.same_content (snd kv) v' = true) d).
  { clear d. induction d as [|kv d IH].
    - split; [constructor | reflexivity].
    - rewrite andb_true_iff, IH. split.
      + intros [H1 H2]. constructor; [|exact H2].
        destruct (lookup (fst kv) e) as [v'|]; [|discriminate].
        now exists v'.
      + intros H. inversion H as [|? ? [v' [Hl Hs]] Hr]; subst.
        rewrite Hl. now split. }
  change (Spec.same_content (PDict d) (PDict e))
    with (Nat.eqb (List.length d) (List.length e) &&
          (fix go (d : dict) : bool :=
             match d with
             | [] => true
             | kv :: r =>
                 match lookup (fst kv) e with
                 | Some v' => Spec.same_content (snd kv) v'
                 | None => false
                 end && go r
             end) d).
  now rewrite andb_true_iff, Nat.eqb_eq, H.
Qed.

Lemma dumps_dict (d : dict) :
  Json.dumps (PDict d)
  = "{" ++ join ", "
             (map Json.dumps_item
                (Json.sort_items
                   (map (fun kv => (fst kv, Json.dumps (snd kv))) d)))
        ++ "}".
Proof. reflexivity. Qed.

Lemma dumps_list (l : list pyval) :
  Json.dumps (PList l) = "[" ++ join ", " (map Json.dumps l) ++ "]".
Proof. reflexivity. Qed.

(** The serialization with sorted keys does not see the order in which the
    keys of a dictionary were inserted. *)
Lemma dumps_same_content (a : pyval) :
  forall b,
    Spec.distinct_keys a -> Spec.distinct_keys b ->
    Spec.same_content a b = true -> Json.dumps a = Json.dumps b.
Proof.
  induction a as [| x | x | x | l IH | d IH] using pyval_nested_ind;
    intros b Da Db Hs.
  - destruct b; try discriminate. reflexivity.
  - destruct b; try discriminate. simpl in Hs.
    apply Bool.eqb_prop in Hs. now subst.
  - destruct b; try discriminate. simpl in Hs.
    apply Z.eqb_eq in Hs. now subst.
  - destruct b; try discriminate. simpl in Hs.
    apply String.eqb_eq in Hs. now subst.
  - destruct b as [| | | |m|]; try discriminate.
    apply same_content_list in Hs.
    apply distinct_keys_list in Da, Db.
    rewrite !dumps_list. do 3 f_equal.
    revert IH Da Db. induction Hs as [|x y l m Hxy _ IHl]; intros IH Da Db;
      [reflexivity|].
    inversion IH; inversion Da; inversion Db; subst. simpl.
    f_equal; auto.
  - destruct b as [| | | | |e]; try discriminate.
    apply same_content_dict in Hs. destruct Hs as [Hlen Hall].
    apply distinct_keys_dict in Da, Db.
    destruct Da as [NDd Dd], Db as [NDe De].
    rewrite !dumps_dict. do 3 f_equal.
    set (f := fun kv : string * pyval => (fst kv, Json.dumps (snd kv))).
    f_equal. apply sort_items_perm.
    + apply NoDup_Permutation_bis.
      * apply NoDup_map_inv with (f := fst).
        rewrite map_map. exact NDd.
      * rewrite !length_map. lia.
      * intros kv Hkv. apply in_map_iff in Hkv.
        destruct Hkv as [[k v] [<- Hin]].
        rewrite Forall_forall in IH, Hall, Dd, De.
        destruct (Hall _ Hin) as [v' [Hl Hsc]]. simpl in *.
        apply lookup_some_in in Hl.
        apply in_map_iff. exists (k, v'). split; [|exact Hl].
        unfold f. simpl. f_equal. symmetry.
        apply (IH _ Hin); [exact (Dd _ Hin) | exact (De _ Hl) | exact Hsc].
    + unfold keys. rewrite map_map. exact NDd.
Qed.

Lemma same_content_truthy (a b : pyval) :
  Spec.same_content a b = true -> truthy a = truthy b.
Proof.
  destruct a as [| x | x | x | l | d], b as [| y | y | y | m | e];
    try discriminate; simpl; intros H.
  - reflexivity.
  - apply Bool.eqb_prop in H. now subst.
  - apply Z.eqb_eq in H. now subst.
  - apply String.eqb_eq in H. now subst.
  - destruct l, m; try discriminate; reflexivity.
  - apply andb_true_iff in H. destruct H as [H _]. apply Nat.eqb_eq in H.
    destruct d, e; try discriminate; reflexivity.
Qed.

Lemma is_hex_digit (n : N) : Spec.is_hex (hex_digit n) = true.
Proof.
  destruct n as [|p]; [reflexivity|].
  do 4 (try destruct p as [p|p|]); reflexivity.
Qed.

Lemma all_hex_app (a b : string) :
  Spec.all_hex (a ++ b) = Spec.all_hex a && Spec.all_hex b.
Proof.
  induction a as [|c a IH]; simpl; [reflexivity|].
  now rewrite IH, andb_assoc.
Qed.

Lemma all_hex_hex8 (x : N) : Spec.all_hex (SHA256.hex8 x) = true.
Proof.
  unfold SHA256.hex8, SHA256.nib. cbn [Spec.all_hex].
  now rewrite !is_hex_digit.
Qed.

Lemma length_hex8 (x : N) : String.length (SHA256.hex8 x) = 8.
Proof. reflexivity. Qed.

(** The first sixteen digits of a digest are those of its first two words. *)
Lemma hexdigest_prefix (msg : list N) :
  String.substring 0 16 (SHA256.hexdigest msg)
  = SHA256.hex8 (SHA256.ha (SHA256.digest msg))
      ++ SHA256.hex8 (SHA256.hb (SHA256.digest msg)).
Proof.
  unfold SHA256.hexdigest. cbv zeta.
  generalize (SHA256.digest msg). intros s.
  generalize (SHA256.hex8 (SHA256.hc s) ++ SHA256.hex8 (SHA256.hd s)
    ++ SHA256.hex8 (SHA256.he s) ++ SHA256.hex8 (SHA256.hf s)
    ++ SHA256.hex8 (SHA256.hg s) ++ SHA256.hex8 (SHA256.hh s)).
  intros rest. generalize (SHA256.ha s), (SHA256.hb s). intros a b.
  unfold SHA256.hex8. cbn [append String.substring].
  now destruct rest.
Qed.

Lemma raw_data_hash_nonempty (e : Evidence.t) :
  truthy (Evidence.raw_data e) = true ->
  Evidence.raw_data_hash e
  = String.substring 0 16
      (SHA256.hexdigest (SHA256.encode (Json.dumps (Evidence.raw_data e)))).
Proof. intros H. unfold Evidence.raw_data_hash. now rewrite H. Qed.

Lemma raw_data_hash_format (e : Evidence.t) :
  truthy (Evidence.raw_data e) = true ->
  String.length (Evidence.raw_data_hash e) = 16
  /\ Spec.all_hex (Evidence.raw_data_hash e) = true.
Proof.
  intros H. rewrite (raw_data_hash_nonempty _ H), hexdigest_prefix. split.
  - reflexivity.
  - now rewrite all_hex_app, !all_hex_hex8.
Qed.

(** C10. A record whose [raw_data] is empty has the empty string for hash,
    not sixteen hexadecimal digits; the hash of a record with data is sixteen
    hexadecimal digits, so a hash that is not empty comes from data that is
    not empty. *)
Theorem raw_data_hash_of_empty (e : Evidence.t) :
  (Evidence.raw_data e = PDict [] -> Evidence.raw_data_hash e = "")
  /\ (truthy (Evidence.raw_data e) = false -> Evidence.raw_data_hash e = "")
  /\ (truthy (Evidence.raw_data e) = true ->
      String.length (Evidence.raw_data_hash e) = 16
      /\ Spec.all_hex (Evidence.raw_data_hash e) = true)
  /\ (Evidence.raw_data_hash e <> "" -> truthy (Evidence.raw_data e) = true).
Proof.
  assert (H0 : truthy (Evidence.raw_data e) = false ->
               Evidence.raw_data_hash e = "").
  { intros H. unfold Evidence.raw_data_hash. now rewrite H. }
  split; [intros H; apply H0; now rewrite H|].
  split; [exact H0|]. split; [apply raw_data_hash_format|].
  intros H. destruct (truthy (Evidence.raw_data e)) eqn:E; [reflexivity|].
  now elim H; apply H0.
Qed.

(** C8, as the code has it. The derived entries of [to_dict] are functions
    of the fields of the record: the hash entry is [raw_data_hash], which
    depends on [raw_data] alone, and the summary entry is [summary], which
    depends on [success], [match], the two values and the error message. Two
    payloads with the same content hash alike whatever the order of their
    keys. The hash of a payload that is not empty is the first sixteen
    hexadecimal digits of the SHA-256 digest of its serialization with sorted
    keys; the hash of an empty payload is the empty string. *)
Theorem evidence_derived_fields_stable :
  (forall e,
     lookup "raw_data_hash" (Evidence.to_dict e)
     = Some (PStr (Evidence.raw_data_hash e))
     /\ lookup "summary" (Evidence.to_dict e)
        = Some (PStr (Evidence.summary e)))
  /\ (forall e1 e2,
        Evidence.success e1 = Evidence.success e2 ->
        Evidence.match_ e1 = Evidence.match_ e2 ->
        Evidence.expected_value e1 = Evidence.expected_value e2 ->
        Evidence.actual_value e1 = Evidence.actual_value e2 ->
        Evidence.error_message e1 = Evidence.error_message e2 ->
        Evidence.summary e1 = Evidence.summary e2)
  /\ (forall e1 e2,
        Spec.distinct_keys (Evidence.raw_data e1) ->
        Spec.distinct_keys (Evidence.raw_data e2) ->
        Spec.same_content (Evidence.raw_data e1) (Evidence.raw_data e2) = true ->
        Evidence.raw_data_hash e1 = Evidence.raw_data_hash e2)
  /\ (forall e,
        truthy (Evidence.raw_data e) = true ->
        Evidence.raw_data_hash e
        = String.substring 0 16
            (SHA256.hexdigest
               (SHA256.encode (Json.dumps (Evidence.raw_data e))))
        /\ String.length (Evidence.raw_data_hash e) = 16
        /\ Spec.all_hex (Evidence.raw_data_hash e) = true)
  /\ (forall e,
        truthy (Evidence.raw_data e) = false ->
        Evidence.raw_data_hash e = "").
Proof.
  split; [intros e; split; reflexivity|].
  split.
  { intros e1 e2 H1 H2 H3 H4 H5. unfold Evidence.summary.
    now rewrite H1, H2, H3, H4, H5. }
  split.
  { intros e1 e2 D1 D2 Hs. unfold Evidence.raw_data_hash.
    rewrite (same_content_truthy _ _ Hs), (@dumps_same_content _ _ D1 D2 Hs).
    reflexivity. }
  split.
  { intros e H. split; [now apply raw_data_hash_nonempty|].
    now apply raw_data_hash_format. }
  intros e H. unfold Evidence.raw_data_hash. now rewrite H.
Qed.

Lemma evidence_derived_fields_stable_witness :
  Evidence.raw_data_hash (Samples.evidence_with Samples.payload_ab)
  = Evidence.raw_data_hash (Samples.evidence_with Samples.payload_ba).
Proof.
  destruct evidence_derived_fields_stable as (_ & _ & H & _).
  apply H.
  - simpl. repeat split; repeat constructor; simpl; intuition discriminate.
  - simpl. repeat split; repeat constructor; simpl; intuition discriminate.
  - reflexivity.
Defined.

Lemma raw_data_hash_of_empty_witness :
  Evidence.raw_data_hash Samples.failed_attempt = ""
  /\ String.length
       (Evidence.raw_data_hash
          (Samples.evidence_with (PDict [("key", PStr "value")]))) = 16.
Proof.
  destruct (raw_data_hash_of_empty Samples.failed_attempt) as (H & _).
  destruct (raw_data_hash_of_empty
              (Samples.evidence_with (PDict [("key", PStr "value")])))
    as (_ & _ & H' & _).
  split; [exact (H eq_refl) | exact (proj1 (H' eq_refl))].
Defined.

(** C8 as the specification words it fails on a record without data: its
    hash is the empty string, which is neither sixteen digits long nor the
    prefix of the digest of the serialized (empty) payload. *)
Lemma raw_data_hash_empty_counterexample :
  Evidence.raw_data_hash Samples.failed_attempt = ""
  /\ String.length (Evidence.raw_data_hash Samples.failed_attempt) <> 16
  /\ Evidence.raw_data_hash Samples.failed_attempt
     <> String.substring 0 16
          (SHA256.hexdigest
             (SHA256.encode
                (Json.dumps (Evidence.raw_data Samples.failed_attempt)))).
Proof.
  split; [reflexivity|]. split; [discriminate|].
  vm_compute. discriminate.
Qed.

(** ** Checks against the libraries and the test suite *)

Example sha256_abc :
  SHA256.hexdigest (SHA256.encode "abc")
  = "ba7816bf8f01cfea414140de5dae2223b00361a396177a9cb410ff61f20015ad".
Proof. vm_compute. reflexivity. Qed.

Example sha256_empty :
  SHA256.hexdigest (SHA256.encode "")
  = "e3b0c44298fc1c149afbf4c8996fb92427ae41e4649b934ca495991b7852b855".
Proof. vm_compute. reflexivity. Qed.

Example sha256_two_blocks :
  SHA256.hexdigest (SHA256.encode
    "abcdbcdecdefdefgefghfghighijhijkijkljklmklmnlmnomnopnopq")
  = "248d6a61d20638b8e5c026930c3e6039a33ce45964ff2167f6ecedd419db06c1".
Proof. vm_compute. reflexivity. Qed.

Example dumps_sorts_keys :
  Json.dumps Samples.payload_ba
  = "{" ++ String dquote ("a" ++ String dquote (": 1, "
      ++ String dquote ("b" ++ String dquote (": {"
      ++ String dquote ("x" ++ String dquote (": "
      ++ String dquote ("1" ++ String dquote (", "
      ++ String dquote ("y" ++ String dquote ": [null, true]}}"))))))))).
Proof. vm_compute. reflexivity. Qed.

Example hash_of_test_payload :
  Evidence.raw_data_hash
    (Samples.evidence_with (PDict [("key", PStr "value")]))
  = "9724c1e20e6e3e4d".
Proof. vm_compute. reflexivity. Qed.

Example summary_of_test_record :
  Evidence.summary (Samples.evidence_with (PDict [("key", PStr "value")]))
  = "Matched 'Apache' found as 'Apache/2.4'".
Proof. reflexivity. Qed.

Example summary_of_failed_attempt :
  Evidence.summary Samples.failed_attempt = "Failed: timeout".
Proof. reflexivity. Qed.

Example evaluate_probe_timeout :
  Evaluator.evaluate_probe Samples.literal_valid Samples.literal_found
    Samples.timeout_result Samples.http_probe
  = Ok (false, "Probe failed: Timeout").
Proof. reflexivity. Qed.

Example evaluate_probe_field_missing :
  Evaluator.evaluate_probe Samples.literal_valid Samples.literal_found
    [("success", PBool true); ("data", PDict [])] Samples.http_probe
  = Ok (false, "Field not found in response").
Proof. reflexivity. Qed.

(** A successful result without data raises instead of giving a verdict. *)
Example evaluate_probe_data_none :
  Evaluator.evaluate_probe Samples.literal_valid Samples.literal_found
    [("success", PBool true); ("data", PNone)] Samples.http_probe
  = Raise TypeError.
Proof. reflexivity. Qed.

(* ################################################################# *)
(** * Further properties of the planner *)

Section Selection.

Variable W : Type.
Implicit Types (self : Planner.t W) (probe : Probe.t).

Lemma select_from_spec (providers : list (Provider W)) probe :
  forall i,
  match Planner.select_from i providers probe with
  | Some (k, p) =>
      exists j, k = (i + j)%nat
        /\ nth_error providers j = Some p
        /\ can_handle p probe = true
        /\ forall j' q, (j' < j)%nat -> nth_error providers j' = Some q ->
                        can_handle q probe = false
  | None => forall q, In q providers -> can_handle q probe = false
  end.
Proof.
  induction providers as [|p providers IH]; intros i; simpl.
  - intros q [].
  - destruct (can_handle p probe) eqn:E.
    + exists 0%nat. split; [lia|]. split; [reflexivity|].
      split; [exact E|]. intros j' q H. lia.
    + specialize (IH (S i)).
      destruct (Planner.select_from (S i) providers probe) as [[k p']|].
      * destruct IH as (j & -> & Hn & Hc & Hb). exists (S j).
        split; [lia|]. split; [exact Hn|]. split; [exact Hc|].
        intros [|j'] q Hlt Hq; simpl in Hq.
        -- now injection Hq as <-.
        -- apply (Hb j' q); [lia | exact Hq].
      * intros q [<-|Hq]; auto.
Qed.

Lemma select_none_iff self probe :
  Planner.select_provider_for_probe self probe = None
  <-> Planner.any_can_handle self probe = false.
Proof.
  unfold Planner.select_provider_for_probe, Planner.any_can_handle.
  generalize 0%nat. induction self as [|p self IH]; intros i; simpl.
  - tauto.
  - destruct (can_handle p probe); simpl; [split; discriminate | apply IH].
Qed.

(** X1. [select_provider_for_probe] returns the provider at the first
    position of the registration order whose [can_handle] accepts the probe,
    and nothing exactly when no registered provider accepts it, which is
    also exactly when planning rejects the probe. *)
Theorem select_provider_first_capable self probe :
  (forall k p,
     Planner.select_provider_for_probe self probe = Some (k, p)
     <-> nth_error self k = Some p
         /\ can_handle p probe = true
         /\ forall j q, (j < k)%nat -> nth_error self j = Some q ->
                        can_handle q probe = false)
  /\ (Planner.select_provider_for_probe self probe = None
      <-> forall q, In q self -> can_handle q probe = false)
  /\ (Planner.select_provider_for_probe self probe = None
      <-> Planner.any_can_handle self probe = false).
Proof.
  assert (S := select_from_spec self probe 0).
  unfold Planner.select_provider_for_probe. split; [|split].
  - intros k p. split.
    + intros E. rewrite E in S. destruct S as (j & -> & H). exact H.
    + intros (Hn & Hc & Hb).
      destruct (Planner.select_from 0 self probe) as [[k' p']|].
      * destruct S as (j & -> & Hn' & Hc' & Hb'). simpl.
        destruct (Nat.lt_trichotomy j k) as [L|[->|L]].
        -- rewrite (Hb j p' L Hn') in Hc'. discriminate.
        -- congruence.
        -- rewrite (Hb' k p L Hn) in Hc. discriminate.
      * apply nth_error_In in Hn. rewrite (S p Hn) in Hc. discriminate.
  - split.
    + intros E. now rewrite E in S.
    + intros H. destruct (Planner.select_from 0 self probe) as [[k p]|];
        [|reflexivity].
      destruct S as (j & _ & Hn & Hc & _). apply nth_error_In in Hn.
      rewrite (H p Hn) in Hc. discriminate.
  - apply select_none_iff.
Qed.

Lemma select_from_app (l1 l2 : list (Provider W)) probe :
  forall i,
  Planner.select_from i (l1 ++ l2) probe
  = match Planner.select_from i l1 probe with
    | Some x => Some x
    | None => Planner.select_from (i + List.length l1) l2 probe
    end.
Proof.
  induction l1 as [|p l1 IH]; intros i; simpl.
  - now rewrite Nat.add_0_r.
  - destruct (can_handle p probe); [reflexivity|].
    rewrite IH. now rewrite Nat.add_succ_comm.
Qed.

(** X2. Registering one more provider leaves every earlier selection as it
    was: the new provider, at the last position, is selected only for the
    probes no provider accepted before. *)
Theorem register_provider_keeps_selection self (provider : Provider W) probe :
  Planner.select_provider_for_probe
    (Planner.register_provider self provider) probe
  = match Planner.select_provider_for_probe self probe with
    | Some x => Some x
    | None =>
        if can_handle provider probe
        then Some (List.length self, provider) else None
    end.
Proof.
  unfold Planner.select_provider_for_probe, Planner.register_provider.
  rewrite select_from_app. simpl.
  destruct (Planner.select_from 0 self probe); [reflexivity|].
  now destruct (can_handle provider probe).
Qed.

End Selection.

(** X5. [add_target] followed by [get_probes_for_target] gives back the
    probes for the target added and leaves every other target as it was; a
    target that was already planned keeps its place and is not listed twice,
    a new one goes last, so the targets stay distinct. *)
Theorem add_target_then_get (plan : ScanPlan.t) (target : string)
    (probes : list Probe.t) :
  let plan' := ScanPlan.add_target plan target probes in
  ScanPlan.get_probes_for_target plan' target = probes
  /\ (forall t, t <> target ->
      ScanPlan.get_probes_for_target plan' t
      = ScanPlan.get_probes_for_target plan t)
  /\ ScanPlan.get_targets plan'
     = (if existsb (String.eqb target) (ScanPlan.get_targets plan)
        then ScanPlan.get_targets plan
        else ScanPlan.get_targets plan ++ [target])%list
  /\ (NoDup (ScanPlan.get_targets plan) ->
      NoDup (ScanPlan.get_targets plan')).
Proof.
  intros plan'. unfold plan', ScanPlan.get_probes_for_target,
    ScanPlan.add_target, ScanPlan.get_targets, keys. simpl.
  assert (Hk : map fst (assign target probes (ScanPlan.target_probes plan))
          = (if existsb (String.eqb target)
                  (map fst (ScanPlan.target_probes plan))
             then map fst (ScanPlan.target_probes plan)
             else map fst (ScanPlan.target_probes plan) ++ [target])%list).
  { induction (ScanPlan.target_probes plan) as [|[k v] d IH]; simpl;
      [reflexivity|].
    destruct (String.eqb target k) eqn:E; simpl.
    - apply String.eqb_eq in E. now subst.
    - rewrite IH. now destruct (existsb _ _). }
  split; [now rewrite lookup_assign_eq|].
  split; [intros t N; rewrite lookup_assign_neq; [reflexivity | congruence]|].
  split; [exact Hk|].
  intros ND. rewrite Hk.
  destruct (existsb _ _) eqn:E; [exact ND|].
  apply NoDup_app; [exact ND | repeat constructor; intros [] |].
  intros x Hx [E'|[]]. subst x.
  assert (existsb (String.eqb target)
            (map fst (ScanPlan.target_probes plan)) = true); [|congruence].
  apply existsb_exists. exists target.
  split; [exact Hx | apply String.eqb_refl].
Qed.

Lemma first_occurrences_ext (s1 s2 l : list string) :
  (forall x, existsb (String.eqb x) s1 = existsb (String.eqb x) s2) ->
  Notions.first_occurrences s1 l = Notions.first_occurrences s2 l.
Proof.
  revert s1 s2; induction l as [|x l IH]; intros s1 s2 H; simpl;
    [reflexivity|].
  rewrite <- (H x). destruct (existsb (String.eqb x) s1); [now apply IH|].
  f_equal. apply IH. intros y. simpl. now rewrite H.
Qed.

Lemma existsb_eqb_In (x : string) (l : list string) :
  existsb (String.eqb x) l = true <-> In x l.
Proof.
  rewrite existsb_exists. split.
  - intros [y [Hy E]]. apply String.eqb_eq in E. now subst.
  - intros H. exists x. split; [exact H | apply String.eqb_refl].
Qed.

Lemma first_occurrences_fresh (seen l : list string) :
  NoDup (Notions.first_occurrences seen l)
  /\ forall x, In x (Notions.first_occurrences seen l)
               <-> In x l /\ ~ In x seen.
Proof.
  revert seen; induction l as [|a l IH]; intros seen; simpl.
  - split; [constructor | tauto].
  - destruct (existsb (String.eqb a) seen) eqn:E.
    + apply existsb_eqb_In in E. destruct (IH seen) as [ND H].
      split; [exact ND|]. intros x. rewrite H.
      split; [tauto|]. intros [[<-|Hx] N]; tauto.
    + assert (Na : ~ In a seen)
        by (intros H; apply existsb_eqb_In in H; congruence).
      destruct (IH (a :: seen)) as [ND H]. split.
      * constructor; [|exact ND]. rewrite H. simpl. tauto.
      * intros x. simpl. rewrite H. simpl. split.
        -- intros [<-|[Hx N]]; tauto.
        -- intros [[<-|Hx] N]; [now left|].
           destruct (string_dec a x) as [->|D]; [now left|]. right. tauto.
Qed.

Lemma assign_known {V} (v : V) (pre : list string) (x : string) :
  In x pre ->
  assign x v (map (fun t => (t, v)) pre) = map (fun t => (t, v)) pre.
Proof.
  induction pre as [|a pre IH]; intros H; [destruct H|]. simpl.
  destruct (String.eqb x a) eqn:E.
  - apply String.eqb_eq in E. now subst.
  - f_equal. apply IH. destruct H as [->|H]; [|exact H].
    now rewrite String.eqb_refl in E.
Qed.

Lemma add_all_entries (vp : list Probe.t) (targets : list string) :
  forall pre plan,
    ScanPlan.target_probes plan = map (fun t => (t, vp)) pre ->
    ScanPlan.target_probes
      (fold_left (fun plan target => ScanPlan.add_target plan target vp)
         targets plan)
    = map (fun t => (t, vp)) (pre ++ Notions.first_occurrences pre targets)%list.
Proof.
  induction targets as [|x targets IH]; intros pre plan Hp; simpl.
  - now rewrite app_nil_r.
  - destruct (existsb (String.eqb x) pre) eqn:E.
    + apply IH. unfold ScanPlan.add_target; simpl. rewrite Hp.
      apply assign_known. now apply existsb_eqb_In.
    + rewrite (IH (pre ++ [x])%list).
      * rewrite <- app_assoc. simpl. do 3 f_equal.
        apply first_occurrences_ext. intros y.
        rewrite existsb_app. simpl. now rewrite orb_false_r, orb_comm.
      * unfold ScanPlan.add_target; simpl. rewrite Hp, map_app. simpl.
        apply assign_fresh. unfold keys. rewrite map_map. simpl.
        rewrite map_id. intros H. apply existsb_eqb_In in H. congruence.
Qed.

Lemma fold_left_unchanged {A B} (l : list B) (a : A) :
  fold_left (fun a0 (_ : B) => a0) l a = a.
Proof. induction l; simpl; auto. Qed.

Section CreatedPlans.

Variable W : Type.
Variable self : Planner.t W.

Lemma create_scan_plan_any_bound (targets : list string)
    (fingerprint : Fingerprint.t) (m : Z) :
  ScanPlan.target_probes
    (Planner.create_scan_plan self targets fingerprint m)
  = match filter (Planner.any_can_handle self)
            (Planner.slice_to (Fingerprint.probes fingerprint) m) with
    | [] => []
    | vp => map (fun t => (t, vp)) (Notions.first_occurrences [] targets)
    end.
Proof.
  unfold Planner.create_scan_plan.
  destruct (filter _ _) as [|p vp].
  - now rewrite fold_left_unchanged.
  - now rewrite (add_all_entries (p :: vp) targets [] ScanPlan.new eq_refl).
Qed.

Lemma assignable_iff (probe : Probe.t) :
  Spec.assignable self probe = true
  <-> Planner.any_can_handle self probe = true.
Proof.
  unfold Spec.assignable, Spec.selected.
  destruct (Planner.select_provider_for_probe self probe) as [[k p]|] eqn:E;
    simpl.
  - split; [intros _|reflexivity].
    destruct (Planner.any_can_handle self probe) eqn:A; [reflexivity|].
    apply select_none_iff in A. congruence.
  - apply select_none_iff in E. rewrite E. tauto.
Qed.

(** X3. Whatever the bound, a created plan lists the distinct targets in the
    order they first occur in the target list, all with the same probes; it
    is valid exactly when there is a target and a probe within the bound
    that some provider handles; and every probe it holds has a provider to
    select. *)
Theorem create_scan_plan_shape (targets : list string)
    (fingerprint : Fingerprint.t) (m : Z) :
  let vp := filter (Planner.any_can_handle self)
              (Planner.slice_to (Fingerprint.probes fingerprint) m) in
  let plan := Planner.create_scan_plan self targets fingerprint m in
  (vp <> [] ->
     ScanPlan.target_probes plan
     = map (fun t => (t, vp)) (Notions.first_occurrences [] targets))
  /\ NoDup (ScanPlan.get_targets plan)
  /\ (ScanPlan.validate plan = true <-> targets <> [] /\ vp <> [])
  /\ (forall t ps p, In (t, ps) (ScanPlan.target_probes plan) -> In p ps ->
        Planner.select_provider_for_probe self p <> None).
Proof.
  intros vp plan.
  assert (H := create_scan_plan_any_bound targets fingerprint m).
  fold vp plan in H.
  assert (Hk : ScanPlan.get_targets plan
               = match vp with
                 | [] => []
                 | _ => Notions.first_occurrences [] targets
                 end).
  { unfold ScanPlan.get_targets, keys. rewrite H. destruct vp; [reflexivity|].
    rewrite map_map. simpl. apply map_id. }
  split; [intros N; rewrite H; now destruct vp|].
  split; [|split].
  - rewrite Hk. destruct vp; [constructor|].
    apply first_occurrences_fresh.
  - unfold ScanPlan.validate. rewrite H. destruct vp as [|p vp'].
    + split; [discriminate | intros [_ N]; now elim N].
    + destruct targets as [|t targets']; simpl.
      * split; [discriminate | intros [N _]; now elim N].
      * split; [intros _; split; discriminate | reflexivity].
  - intros t ps p Hin Hp. rewrite H in Hin.
    assert (ps = vp) as ->.
    { destruct vp; [destruct Hin|]. apply in_map_iff in Hin.
      destruct Hin as [x [E _]]. congruence. }
    apply filter_In in Hp. destruct Hp as [_ Hp].
    intros E. apply select_none_iff in E. congruence.
Qed.

(** X4. Optimizing a plan with the planner that created it loses nothing:
    the targets are the same in the same order, each target keeps a
    rearrangement of its probes, and the total number of probes is the
    same. *)
Theorem optimize_created_plan (targets : list string)
    (fingerprint : Fingerprint.t) (m : Z) :
  let plan := Planner.create_scan_plan self targets fingerprint m in
  let optimized := Planner.optimize_plan self plan in
  ScanPlan.get_targets optimized = ScanPlan.get_targets plan
  /\ (forall t, Permutation (ScanPlan.get_probes_for_target optimized t)
                  (ScanPlan.get_probes_for_target plan t))
  /\ Planner.total_probes optimized = Planner.total_probes plan.
Proof.
  intros plan optimized.
  destruct (create_scan_plan_shape targets fingerprint m)
    as (Hshape & ND & _ & Hsel). fold plan in Hshape, ND, Hsel.
  assert (Ha : forall t ps p, In (t, ps) (ScanPlan.target_probes plan) ->
                 In p ps -> Spec.assignable self p = true).
  { intros t ps p H1 H2. apply assignable_iff.
    destruct (Planner.any_can_handle self p) eqn:A; [reflexivity|].
    apply select_none_iff in A. now elim (Hsel t ps p H1 H2). }
  assert (Hne : forall t ps, In (t, ps) (ScanPlan.target_probes plan) ->
                  ps <> []).
  { assert (H := create_scan_plan_any_bound targets fingerprint m).
    fold plan in H. intros t ps Hin. rewrite H in Hin.
    destruct (filter _ _) as [|p vp]; [destruct Hin|].
    apply in_map_iff in Hin. destruct Hin as [x [E _]].
    injection E as _ <-. discriminate. }
  assert (He : ScanPlan.target_probes optimized
               = Spec.regrouped_entries self (ScanPlan.target_probes plan)).
  { unfold optimized, Planner.optimize_plan.
    rewrite optimize_entries; [reflexivity | exact ND | intros t _ []]. }
  assert (Hkeep : forall entries,
            (forall t ps, In (t, ps) entries -> ps <> []) ->
            (forall t ps p, In (t, ps) entries -> In p ps ->
                            Spec.assignable self p = true) ->
            Spec.regrouped_entries self entries
            = map (fun tp => (fst tp, Spec.regrouped self (snd tp))) entries).
  { unfold Spec.regrouped_entries.
    induction entries as [|[t ps] entries IH]; intros H1 H2; simpl;
      [reflexivity|].
    assert (P : Permutation (Spec.regrouped self ps) ps).
    { apply regrouped_all_assignable. intros p Hp.
      apply (H2 t ps p); [now left | exact Hp]. }
    destruct (Spec.regrouped self ps) as [|q r] eqn:E.
    - apply Permutation_nil in P. elim (H1 t ps); [now left | exact P].
    - simpl. f_equal. apply IH.
      + intros t' ps' H. apply (H1 t' ps'). now right.
      + intros t' ps' p H. apply (H2 t' ps' p). now right. }
  rewrite (Hkeep _ Hne Ha) in He.
  split; [|split].
  - unfold ScanPlan.get_targets, keys. rewrite He, map_map. reflexivity.
  - intros t. unfold ScanPlan.get_probes_for_target. rewrite He.
    assert (L : forall entries,
              (forall t ps p, In (t, ps) entries -> In p ps ->
                              Spec.assignable self p = true) ->
              Permutation
                match lookup t (map (fun tp => (fst tp, Spec.regrouped self (snd tp)))
                                  entries) with
                | Some probes => probes
                | None => []
                end
                match lookup t entries with
                | Some probes => probes
                | None => []
                end).
    { induction entries as [|[t0 ps] entries IH]; intros H2; simpl;
        [constructor|].
      destruct (String.eqb t t0).
      - apply regrouped_all_assignable. intros p Hp.
        apply (H2 t0 ps p); [now left | exact Hp].
      - apply IH. intros t' ps' p H. apply (H2 t' ps' p). now right. }
    apply L, Ha.
  - unfold Planner.total_probes. rewrite He, map_map. simpl.
    clear - Ha. induction (ScanPlan.target_probes plan) as [|[t ps] l IH];
      simpl; [reflexivity|].
    rewrite IH
      by (intros t' ps' p H H2; apply (Ha t' ps' p); [now right | exact H2]).
    f_equal. apply Permutation_length, regrouped_all_assignable.
    intros p Hp. apply (Ha t ps p); [now left | exact Hp].
Qed.

End CreatedPlans.

Section OptimizeAgain.

Variable W : Type.
Variable self : Planner.t W.

Lemma selected_is_spec (k : nat) (p : Probe.t) :
  Spec.selected_is self k p = true <-> Spec.selected self p = Some k.
Proof.
  unfold Spec.selected_is. destruct (Spec.selected self p) as [k'|].
  - rewrite Nat.eqb_eq. split; congruence.
  - split; discriminate.
Qed.

Lemma filter_group_of_group (k k' : nat) (l : list Probe.t) :
  filter (Spec.selected_is self k) (filter (Spec.selected_is self k') l)
  = if Nat.eqb k k' then filter (Spec.selected_is self k) l else [].
Proof.
  induction l as [|a l IH]; simpl; [now destruct (Nat.eqb k k')|].
  destruct (Spec.selected_is self k' a) eqn:E'; simpl;
    destruct (Spec.selected_is self k a) eqn:E; rewrite IH;
    destruct (Nat.eqb k k') eqn:N; try reflexivity.
  - apply Nat.eqb_neq in N. elim N. eapply selected_is_inj; eassumption.
  - apply Nat.eqb_eq in N. subst. congruence.
Qed.

Lemma filter_groups (k : nat) (l : list Probe.t) (L : list nat) :
  NoDup L ->
  filter (Spec.selected_is self k)
    (flat_map (fun k' => filter (Spec.selected_is self k') l) L)
  = if in_dec Nat.eq_dec k L then filter (Spec.selected_is self k) l else [].
Proof.
  induction 1 as [|k' L N ND IH]; [reflexivity|].
  cbn [flat_map]. rewrite filter_app, filter_group_of_group, IH.
  destruct (in_dec Nat.eq_dec k (k' :: L)) as [I|I];
    destruct (in_dec Nat.eq_dec k L) as [J|J];
    destruct (Nat.eqb k k') eqn:E;
    try (apply Nat.eqb_eq in E; subst k');
    try (apply Nat.eqb_neq in E); simpl in *;
    rewrite ?app_nil_r; try reflexivity; try tauto.
  exfalso. destruct I as [I|I]; [now apply E | now apply J].
Qed.

Lemma first_met_group (k : nat) (g rest : list Probe.t) :
  g <> [] -> (forall p, In p g -> Spec.selected self p = Some k) ->
  Spec.first_met self (g ++ rest)
  = k :: remove Nat.eq_dec k (Spec.first_met self rest).
Proof.
  induction g as [|p g IH]; intros N H; [now elim N|]. simpl.
  rewrite (H p (or_introl eq_refl)). f_equal.
  destruct g as [|q g]; [reflexivity|].
  rewrite IH; [|discriminate | intros x Hx; apply H; now right].
  simpl. destruct (Nat.eq_dec k k); [|congruence].
  apply remove_remove_eq.
Qed.

Lemma first_met_groups (l : list Probe.t) (L : list nat) :
  NoDup L ->
  (forall k, In k L -> filter (Spec.selected_is self k) l <> []) ->
  Spec.first_met self
    (flat_map (fun k => filter (Spec.selected_is self k) l) L) = L.
Proof.
  induction 1 as [|k L N ND IH]; intros H; [reflexivity|].
  cbn [flat_map]. rewrite first_met_group with (k := k).
  - rewrite IH by (intros k' Hk'; apply H; now right).
    f_equal. now apply notin_remove.
  - apply H. now left.
  - intros p Hp. apply filter_In in Hp. now apply selected_is_spec.
Qed.

Lemma met_group_nonempty (k : nat) (l : list Probe.t) :
  In k (Spec.first_met self l) -> filter (Spec.selected_is self k) l <> [].
Proof.
  intros H. apply first_met_in in H. destruct H as [p [Hp Hs]].
  assert (In p (filter (Spec.selected_is self k) l)).
  { apply filter_In. split; [exact Hp | now apply selected_is_spec]. }
  intros E. now rewrite E in H.
Qed.

(** Regrouping probes that are already regrouped changes nothing. *)
Lemma regrouped_idempotent (l : list Probe.t) :
  Spec.regrouped self (Spec.regrouped self l) = Spec.regrouped self l.
Proof.
  unfold Spec.regrouped at 1.
  assert (Hm : Spec.first_met self (Spec.regrouped self l)
               = Spec.first_met self l).
  { unfold Spec.regrouped. apply first_met_groups.
    - apply first_met_NoDup.
    - intros k. apply met_group_nonempty. }
  rewrite Hm. unfold Spec.regrouped.
  rewrite !flat_map_concat_map. f_equal. apply map_ext_in. intros k Hk.
  rewrite <- flat_map_concat_map, filter_groups by apply first_met_NoDup.
  destruct (in_dec Nat.eq_dec k (Spec.first_met self l)); tauto.
Qed.

Lemma regrouped_entries_idempotent (entries : list (string * list Probe.t)) :
  Spec.regrouped_entries self (Spec.regrouped_entries self entries)
  = Spec.regrouped_entries self entries.
Proof.
  unfold Spec.regrouped_entries.
  induction entries as [|[t ps] entries IH]; simpl; [reflexivity|].
  destruct (Spec.regrouped self ps) as [|q r] eqn:E; simpl; [exact IH|].
  rewrite <- E, regrouped_idempotent, E. simpl. f_equal. exact IH.
Qed.

Lemma regrouped_entries_keys (entries : list (string * list Probe.t)) :
  NoDup (keys entries) ->
  NoDup (keys (Spec.regrouped_entries self entries))
  /\ forall t, In t (keys (Spec.regrouped_entries self entries)) ->
               In t (keys entries).
Proof.
  unfold keys, Spec.regrouped_entries.
  induction entries as [|[t ps] entries IH]; simpl; intros ND.
  - split; [constructor | tauto].
  - inversion ND as [|? ? N ND']; subst. destruct (IH ND') as [H1 H2].
    destruct (Spec.regrouped self ps); simpl.
    + split; [exact H1 | intros t' H; right; now apply H2].
    + split.
      * constructor; [|exact H1]. intros H. apply N. now apply H2.
      * intros t' [<-|H]; [now left | right; now apply H2].
Qed.

Lemma optimize_plan_entries (plan : ScanPlan.t) :
  NoDup (ScanPlan.get_targets plan) ->
  Planner.optimize_plan self plan
  = ScanPlan.Build
      (Spec.regrouped_entries self (ScanPlan.target_probes plan)) [].
Proof.
  intros ND.
  assert (He : ScanPlan.target_probes (Planner.optimize_plan self plan)
               = Spec.regrouped_entries self (ScanPlan.target_probes plan)).
  { unfold Planner.optimize_plan.
    rewrite optimize_entries; [reflexivity | exact ND | intros t _ []]. }
  assert (Hf : ScanPlan.fingerprint_providers
                 (Planner.optimize_plan self plan) = []).
  { unfold Planner.optimize_plan. generalize (ScanPlan.target_probes plan).
    intros entries.
    assert (G : forall acc, ScanPlan.fingerprint_providers acc = [] ->
              ScanPlan.fingerprint_providers
                (fold_left
                   (fun optimized_plan tp =>
                      match Planner.optimize_probes self (snd tp) with
                      | [] => optimized_plan
                      | optimized_probes =>
                          ScanPlan.add_target optimized_plan (fst tp)
                            optimized_probes
                      end) entries acc) = []).
    { induction entries as [|tp entries IH]; intros acc Ha; simpl;
        [exact Ha|].
      apply IH. now destruct (Planner.optimize_probes self (snd tp)). }
    now apply G. }
  destruct (Planner.optimize_plan self plan) as [tp fp]. simpl in *.
  now subst.
Qed.

(** X6. Optimizing is idempotent: a plan that has been optimized is left as
    it is by a second optimization with the same providers. *)
Theorem optimize_plan_idempotent (plan : ScanPlan.t) :
  NoDup (ScanPlan.get_targets plan) ->
  Planner.optimize_plan self (Planner.optimize_plan self plan)
  = Planner.optimize_plan self plan.
Proof.
  intros ND. rewrite (optimize_plan_entries plan ND).
  rewrite optimize_plan_entries; simpl.
  - now rewrite regrouped_entries_idempotent.
  - unfold ScanPlan.get_targets. simpl. now apply regrouped_entries_keys.
Qed.

(** X7. The optimized plan is valid exactly when some probe of the plan has
    a provider: its targets are targets of the plan, and a target whose
    probes are all without provider is not kept, so that optimizing a valid
    plan can give a plan that is not valid. *)
Theorem optimize_plan_validity (plan : ScanPlan.t) :
  NoDup (ScanPlan.get_targets plan) ->
  let optimized := Planner.optimize_plan self plan in
  (ScanPlan.validate optimized = true
   <-> exists t ps p, In (t, ps) (ScanPlan.target_probes plan)
                      /\ In p ps /\ Spec.assignable self p = true)
  /\ NoDup (ScanPlan.get_targets optimized)
  /\ (forall t, In t (ScanPlan.get_targets optimized) ->
        In t (ScanPlan.get_targets plan)
        /\ ScanPlan.get_probes_for_target optimized t <> []).
Proof.
  intros ND optimized. unfold optimized.
  rewrite (optimize_plan_entries plan ND).
  unfold ScanPlan.validate, ScanPlan.get_targets,
    ScanPlan.get_probes_for_target. simpl.
  destruct (regrouped_entries_keys _ ND) as [H1 H2].
  split; [|split; [exact H1|]].
  - clear. unfold Spec.regrouped_entries.
    induction (ScanPlan.target_probes plan) as [|[t ps] entries IH]; simpl.
    + split; [discriminate | intros (t & ps & p & [] & _)].
    + assert (P := regrouped_perm self ps).
      destruct (Spec.regrouped self ps) as [|q r]; simpl.
      * rewrite IH. split.
        -- intros (t' & ps' & p & Hin & Hp). exists t', ps', p.
           split; [now right | exact Hp].
        -- intros (t' & ps' & p & [E|Hin] & Hp & Ha).
           ++ injection E as <- <-. apply Permutation_nil in P.
              assert (In p (filter (Spec.assignable self) ps))
                by (apply filter_In; now split).
              now rewrite P in H.
           ++ exists t', ps', p. now repeat split.
      * split; [intros _|reflexivity].
        assert (Hq : In q (filter (Spec.assignable self) ps))
          by (eapply Permutation_in; [exact P | now left]).
        apply filter_In in Hq. exists t, ps, q.
        split; [now left | exact Hq].
  - intros t Ht. split; [now apply H2|].
    rewrite regrouped_entries_lookup by exact ND.
    unfold keys, Spec.regrouped_entries in Ht. apply in_map_iff in Ht.
    destruct Ht as [[t' r] [<- Hin]]. apply filter_In in Hin.
    destruct Hin as [Hin Hr]. apply in_map_iff in Hin.
    destruct Hin as [[t0 ps] [E Hin]]. simpl in *. injection E as -> <-.
    assert (Hl : lookup t' (ScanPlan.target_probes plan) = Some ps).
    { clear - ND Hin. unfold ScanPlan.get_targets, keys in ND.
      induction (ScanPlan.target_probes plan) as [|[k v] d IH];
        [destruct Hin|]. simpl in *. inversion ND as [|? ? N ND']; subst.
      destruct Hin as [E|Hin].
      - injection E as -> ->. now rewrite String.eqb_refl.
      - destruct (String.eqb t' k) eqn:E; [|now apply IH].
        apply String.eqb_eq in E. subst. elim N.
        apply in_map_iff. now exists (k, ps). }
    rewrite Hl. destruct (Spec.regrouped self ps); [discriminate|].
    discriminate.
Qed.

End OptimizeAgain.

(* ################################################################# *)
(** * Further properties of the execution *)

Section ExecutionFacts.

Variable W : Type.
Variable clock : W -> string.
Variable self : Planner.t W.

Lemma selected_provider_registered (probe : Probe.t) k provider :
  Planner.select_provider_for_probe self probe = Some (k, provider) ->
  In provider self /\ Spec.assignable self probe = true.
Proof.
  intros E. split.
  - assert (S := select_from_spec self probe 0).
    unfold Planner.select_provider_for_probe in E. rewrite E in S.
    destruct S as (j & _ & Hn & _). eapply nth_error_In; exact Hn.
  - unfold Spec.assignable, Spec.selected. now rewrite E.
Qed.

Lemma probe_step_facts (target : string) (probe : Probe.t) s1 s2 :
  Spec.probe_step clock self target probe s1 s2 ->
  (exists e, fst (snd s2) = (fst (snd s1) ++ [e])%list
             /\ Notions.evidence_key e = (target, Probe.name probe)
             /\ Notions.unevaluated e)
  /\ (exists new, fst s2 = (fst s1 ++ new)%list
                  /\ Notions.subsequence (map fst new) [probe]
                  /\ ((forall p, In p self -> Notions.keeps_contract p) ->
                      map fst new
                      = filter (Spec.assignable self) [probe])).
Proof.
  intros H. inversion H as [trs ec w Hs|trs ec w k provider result w' Hs Hq
                            |trs ec w k provider message w' Hs Hq];
    subst; simpl.
  - split; [eexists; repeat split|].
    exists []. rewrite app_nil_r. split; [reflexivity|].
    split; [repeat constructor|]. intros _.
    unfold Spec.assignable, Spec.selected. now rewrite Hs.
  - split; [eexists; repeat split|].
    exists [(probe, result)]. split; [reflexivity|].
    split; [repeat constructor|]. intros _.
    now rewrite (proj2 (selected_provider_registered _ Hs)).
  - split; [eexists; repeat split|].
    exists []. rewrite app_nil_r. split; [reflexivity|].
    split; [repeat constructor|]. intros Hc.
    destruct (Hc provider (proj1 (selected_provider_registered _ Hs))
                target probe w) as (r & w'' & E).
    congruence.
Qed.

Lemma subsequence_app {A} (s1 l1 s2 l2 : list A) :
  Notions.subsequence s1 l1 -> Notions.subsequence s2 l2 ->
  Notions.subsequence (s1 ++ s2) (l1 ++ l2).
Proof. induction 1; simpl; intros H'; auto; constructor; auto. Qed.

Lemma probes_run_facts (target : string) (probes : list Probe.t) s1 s2 :
  Spec.probes_run clock self target probes s1 s2 ->
  (exists added, fst (snd s2) = (fst (snd s1) ++ added)%list
                 /\ map Notions.evidence_key added
                    = map (fun p => (target, Probe.name p)) probes
                 /\ Forall Notions.unevaluated added)
  /\ (exists new, fst s2 = (fst s1 ++ new)%list
                  /\ Notions.subsequence (map fst new) probes
                  /\ ((forall p, In p self -> Notions.keeps_contract p) ->
                      map fst new = filter (Spec.assignable self) probes)).
Proof.
  induction 1 as [s|probe rest s1 s2 s3 Hstep _ IH].
  - split.
    + exists []. rewrite app_nil_r. repeat split; constructor.
    + exists []. rewrite app_nil_r. repeat split; constructor.
  - destruct (probe_step_facts Hstep)
      as [(e & He & Hk & Hu) (new & Hn & Hs & Hc)].
    destruct IH as [(added & Ha & Hka & Hua) (new' & Hn' & Hs' & Hc')].
    split.
    + exists (e :: added). rewrite Ha, He, <- app_assoc. simpl.
      split; [reflexivity|]. split; [now rewrite Hk, Hka | now constructor].
    + exists (new ++ new')%list. rewrite Hn', Hn, <- app_assoc.
      split; [reflexivity|]. rewrite map_app. split.
      * change (probe :: rest) with ([probe] ++ rest)%list.
        now apply subsequence_app.
      * intros H. rewrite (Hc H), (Hc' H).
        change (probe :: rest) with ([probe] ++ rest)%list.
        now rewrite filter_app.
Qed.

Lemma targets_run_evidence_order (plan : ScanPlan.t) (targets : list string)
    s1 s2 :
  Spec.targets_run clock self plan targets s1 s2 ->
  exists added,
    fst (snd s2) = (fst (snd s1) ++ added)%list
    /\ map Notions.evidence_key added
       = flat_map
           (fun t => map (fun p => (t, Probe.name p))
                       (ScanPlan.get_probes_for_target plan t)) targets
    /\ Forall Notions.unevaluated added.
Proof.
  induction 1 as [s|target rest results st trs st' s3 Hp _ IH].
  - exists []. rewrite app_nil_r. repeat split; constructor.
  - destruct (probes_run_facts Hp) as [(a1 & H1 & K1 & U1) _].
    destruct IH as (a2 & H2 & K2 & U2). simpl in *.
    exists (a1 ++ a2)%list. rewrite H2, H1, <- app_assoc.
    split; [reflexivity|]. rewrite map_app, K1, K2.
    split; [reflexivity | now apply Forall_app].
Qed.

Lemma targets_run_results (plan : ScanPlan.t) (targets : list string) s1 s2 :
  Spec.targets_run clock self plan targets s1 s2 ->
  NoDup targets ->
  (forall t, In t targets -> ~ In t (keys (fst s1))) ->
  exists entries,
    fst s2 = (fst s1 ++ entries)%list
    /\ map fst entries = targets
    /\ Forall
         (fun e =>
            Notions.subsequence (map fst (snd e))
              (ScanPlan.get_probes_for_target plan (fst e))
            /\ ((forall p, In p self -> Notions.keeps_contract p) ->
                map fst (snd e)
                = filter (Spec.assignable self)
                    (ScanPlan.get_probes_for_target plan (fst e))))
         entries.
Proof.
  induction 1 as [s|target rest results st trs st' s3 Hp _ IH];
    intros ND Hfresh.
  - exists []. rewrite app_nil_r. repeat split; constructor.
  - inversion ND as [|? ? Nt ND']; subst. simpl in *.
    destruct (probes_run_facts Hp) as [_ (new & Hn & Hs & Hc)].
    simpl in Hn. subst trs.
    rewrite assign_fresh in IH by (apply Hfresh; now left).
    destruct IH as (entries & He & Hk & Hf); [exact ND'| |].
    + intros t Ht. unfold keys. rewrite map_app. simpl. intros H.
      apply in_app_or in H. destruct H as [H|[<-|[]]].
      * revert H. apply Hfresh. now right.
      * contradiction.
    + exists ((target, new) :: entries). rewrite He, <- app_assoc.
      split; [reflexivity|]. simpl. split; [now rewrite Hk|].
      constructor; [|exact Hf]. simpl. split; assumption.
Qed.

Lemma invalid_plan_no_targets (plan : ScanPlan.t) :
  ScanPlan.validate plan = false -> ScanPlan.get_targets plan = [].
Proof.
  unfold ScanPlan.validate, ScanPlan.get_targets.
  now destruct (ScanPlan.target_probes plan).
Qed.

Lemma execute_plan_runs (plan : ScanPlan.t) (st : Planner.store W) :
  exists results st',
    Planner.execute_plan clock self plan st = (inl results, st')
    /\ Spec.targets_run clock self plan (ScanPlan.get_targets plan)
         ([], st) (results, st').
Proof.
  unfold Planner.execute_plan.
  destruct (ScanPlan.validate plan) eqn:V; simpl.
  - destruct (execute_targets_run clock self plan
                (ScanPlan.get_targets plan) [] st)
      as (results & st' & Hrun & Hrel & _).
    now exists results, st'.
  - exists [], st. split; [reflexivity|].
    rewrite (invalid_plan_no_targets plan V). constructor.
Qed.

(** X8. Execution only appends to the collector, one record per attempt and
    in the order of the attempts: the records added name, in order, each
    target of the plan with each of its probes. Every record added has
    [match] false and an empty [actual_value], so the records that
    [get_matching_probes] finds are those it found before. *)
Theorem execute_plan_evidence_order
    (plan : ScanPlan.t) (ec : EvidenceCollector.t) (w : W) :
  exists results added w',
    Planner.execute_plan clock self plan (ec, w)
    = (inl results, ((ec ++ added)%list, w'))
    /\ map Notions.evidence_key added
       = map (fun a => (fst a, Probe.name (snd a))) (Notions.attempts plan)
    /\ Forall Notions.unevaluated added
    /\ EvidenceCollector.get_matching_probes (ec ++ added)%list
       = EvidenceCollector.get_matching_probes ec.
Proof.
  destruct (execute_plan_runs plan (ec, w)) as (results & [ec' w'] & Hrun & Hrel).
  destruct (targets_run_evidence_order Hrel) as (added & Ha & Hk & Hu).
  simpl in Ha. subst ec'. exists results, added, w'.
  split; [exact Hrun|]. split; [|split; [exact Hu|]].
  - rewrite Hk. unfold Notions.attempts. clear.
    induction (ScanPlan.get_targets plan) as [|t l IH]; simpl; [reflexivity|].
    now rewrite map_app, map_map, IH.
  - unfold EvidenceCollector.get_matching_probes. rewrite filter_app.
    assert (filter (fun e => truthy (Evidence.success e) && Evidence.match_ e)
              added = []) as ->; [|apply app_nil_r].
    clear - Hu. induction Hu as [|e l [Hm _] _ IH]; simpl; [reflexivity|].
    now rewrite Hm, andb_false_r.
Qed.

(** X9. The mapping returned has the targets of the plan as its keys, in
    the order of the plan, and the probes of the pairs listed for a target
    are probes planned for it, in their planned order, each at most once per
    planned occurrence. *)
Theorem execute_plan_results_shape
    (plan : ScanPlan.t) (st : Planner.store W) :
  NoDup (ScanPlan.get_targets plan) ->
  exists results st',
    Planner.execute_plan clock self plan st = (inl results, st')
    /\ keys results = ScanPlan.get_targets plan
    /\ forall t trs, In (t, trs) results ->
         Notions.subsequence (map fst trs)
           (ScanPlan.get_probes_for_target plan t).
Proof.
  intros ND.
  destruct (execute_plan_runs plan st) as (results & st' & Hrun & Hrel).
  destruct (targets_run_results Hrel ND) as (entries & He & Hk & Hf);
    [intros t _ []|].
  simpl in He. subst results. exists entries, st'.
  split; [exact Hrun|]. split; [exact Hk|].
  intros t trs Hin. rewrite Forall_forall in Hf.
  exact (proj1 (Hf _ Hin)).
Qed.

(** X10. When every registered provider keeps the contract and never
    raises, the pairs listed for a target are exactly its planned probes
    that have a provider, in order: a probe is missing from the result only
    for want of a provider. *)
Theorem execute_plan_with_contract
    (plan : ScanPlan.t) (st : Planner.store W) :
  NoDup (ScanPlan.get_targets plan) ->
  (forall p, In p self -> Notions.keeps_contract p) ->
  exists results st',
    Planner.execute_plan clock self plan st = (inl results, st')
    /\ forall t, In t (ScanPlan.get_targets plan) ->
         exists trs, lookup t results = Some trs
           /\ map fst trs
              = filter (Spec.assignable self)
                  (ScanPlan.get_probes_for_target plan t).
Proof.
  intros ND Hc.
  destruct (execute_plan_runs plan st) as (results & st' & Hrun & Hrel).
  destruct (targets_run_results Hrel ND) as (entries & He & Hk & Hf);
    [intros t _ []|].
  simpl in He. subst results. exists entries, st'.
  split; [exact Hrun|]. intros t Ht. rewrite <- Hk in Ht, ND.
  clear - Hf Hc Ht ND.
  induction entries as [|[t0 trs] entries IH]; [destruct Ht|].
  simpl in *. inversion Hf as [|? ? [_ H0] Hf']; subst.
  inversion ND as [|? ? N ND']; subst.
  destruct (String.eqb t t0) eqn:E.
  - apply String.eqb_eq in E. subst t0. exists trs.
    split; [reflexivity | now apply H0].
  - apply IH; [exact ND' | exact Hf' |].
    destruct Ht as [<-|Ht]; [now rewrite String.eqb_refl in E | exact Ht].
Qed.

End ExecutionFacts.

(* ################################################################# *)
(** * Properties of the Netlas provider *)

Section NetlasFacts.

Variable W : Type.
Variable sleep : W -> option string * W.
Variable http_get : string -> W -> NetlasProvider.http_outcome * W.

Let netlas_query := NetlasProvider.query sleep http_get.

(** X11. A query of the Netlas provider raises only when [time.sleep],
    which stands before the [try], raises: then the query ends with that
    exception, and no request is sent. Once the delay has passed the query
    returns a dictionary with the three keys [success], [data] and [error]:
    a successful answer carries the body of the response and no error, a
    failed one carries no data and the text of the error, and for a probe it
    does not support the provider answers with a failure naming the probe,
    without sending a request. *)
Theorem netlas_query_contract (target : string) (probe : Probe.t) (w : W) :
  (forall w1, sleep w = (None, w1) ->
     exists success data error w',
       netlas_query target probe w
       = (Returned (NetlasProvider.answer success data error), w')
       /\ (success = true ->
           error = PNone
           /\ exists q, NetlasProvider.build_query target probe = Some q
                        /\ http_get q w1 = (NetlasProvider.Body data, w'))
       /\ (success = false ->
           data = PNone /\ exists message, error = PStr message)
       /\ (NetlasProvider.build_query target probe = None ->
           success = false /\ w' = w1
           /\ error = PStr ("Unsupported probe: " ++ Probe.protocol probe
                              ++ "." ++ Probe.field probe)))
  /\ (forall message w1, sleep w = (Some message, w1) ->
      netlas_query target probe w = (Raised message, w1))
  /\ (forall message w', netlas_query target probe w = (Raised message, w') ->
      sleep w = (Some message, w')).
Proof.
  unfold netlas_query, NetlasProvider.query. split; [|split].
  - intros w1 ->.
    destruct (NetlasProvider.build_query target probe) as [q|] eqn:B.
    + destruct (http_get q w1) as [[data|message] w'] eqn:H.
      * exists true, data, PNone, w'. split; [reflexivity|].
        split; [intros _; split; [reflexivity | now exists q]|].
        split; discriminate.
      * exists false, PNone, (PStr message), w'. split; [reflexivity|].
        split; [discriminate|]. split; [|discriminate].
        intros _. split; [reflexivity | now exists message].
    + exists false, PNone,
        (PStr ("Unsupported probe: " ++ Probe.protocol probe ++ "."
                 ++ Probe.field probe)), w1.
      split; [reflexivity|]. split; [discriminate|].
      split; [intros _; split; [reflexivity | eexists; reflexivity]|].
      intros _. repeat split.
  - intros message w1 ->. reflexivity.
  - intros message w'. destruct (sleep w) as [[m|] w1].
    + now intros [= -> ->].
    + destruct (NetlasProvider.build_query target probe) as [q|];
        [|discriminate].
      destruct (http_get q w1) as [[data|m] w2]; discriminate.
Qed.

Lemma netlas_keeps_contract :
  (forall w, fst (sleep w) = None) ->
  Notions.keeps_contract (NetlasProvider.provider sleep http_get).
Proof.
  intros Hs target probe w. simpl. unfold NetlasProvider.query.
  specialize (Hs w). destruct (sleep w) as [[m|] w1]; [discriminate|].
  destruct (NetlasProvider.build_query target probe) as [q|].
  - destruct (http_get q w1) as [[data|message] w']; eauto.
  - eauto.
Qed.

Lemma netlas_assignable (l : list Probe.t) :
  filter (Spec.assignable [NetlasProvider.provider sleep http_get]) l
  = filter NetlasProvider.can_handle l.
Proof.
  apply filter_ext. intros p.
  unfold Spec.assignable, Spec.selected, Planner.select_provider_for_probe.
  simpl. now destruct (NetlasProvider.can_handle p).
Qed.

(** X12. The provider supports less than it claims: every probe it builds
    a request for passes [can_handle], but an HTTP probe on another field
    than the server header, or a TLS probe on another field than the
    certificate serial, passes [can_handle] and is answered "Unsupported
    probe". *)
Theorem netlas_can_handle_wider_than_query (target : string) (probe : Probe.t) :
  (NetlasProvider.build_query target probe <> None ->
   NetlasProvider.can_handle probe = true)
  /\ (NetlasProvider.can_handle probe = true
      /\ NetlasProvider.build_query target probe = None
      <-> (Probe.protocol probe = "http"
           /\ Probe.field probe <> "headers.server")
          \/ (Probe.protocol probe = "tls"
              /\ Probe.field probe <> "certificate.serial")).
Proof.
  unfold NetlasProvider.build_query, NetlasProvider.can_handle. simpl.
  destruct (String.eqb_spec (Probe.protocol probe) "http") as [Eh|Nh];
    destruct (String.eqb_spec (Probe.protocol probe) "tls") as [Et|Nt];
    destruct (String.eqb_spec (Probe.field probe) "headers.server") as [Es|Ns];
    destruct (String.eqb_spec (Probe.field probe) "certificate.serial")
      as [Ec|Nc]; simpl;
    (split; [intros H; try reflexivity; now elim H|]);
    (split; [intros [H1 H2]; try discriminate; auto; try congruence
            | intros [[H1 H2]|[H1 H2]]; try congruence; auto]).
Qed.


Lemma lookup_entry {V} (entries : list (string * V)) (P : string * V -> Prop)
    (t : string) :
  NoDup (map fst entries) -> Forall P entries -> In t (map fst entries) ->
  exists v, lookup t entries = Some v /\ P (t, v).
Proof.
  induction entries as [|[t0 v0] entries IH]; intros ND Hf Ht; [destruct Ht|].
  simpl in *. inversion Hf as [|? ? H0 Hf']; subst.
  inversion ND as [|? ? N ND']; subst.
  destruct (String.eqb t t0) eqn:E.
  - apply String.eqb_eq in E. subst t0. now exists v0.
  - apply IH; [exact ND' | exact Hf' |].
    destruct Ht as [<-|Ht]; [now rewrite String.eqb_refl in E | exact Ht].
Qed.

Lemma probes_run_all_raise (clock : W -> string) (self : Planner.t W)
    (target : string) (probes : list Probe.t) s1 s2 :
  (forall p, In p self -> forall t probe w,
     exists message w', query p t probe w = (Raised message, w')) ->
  Spec.probes_run clock self target probes s1 s2 -> fst s2 = fst s1.
Proof.
  intros Hr. induction 1 as [s|probe rest s1 s2 s3 Hstep _ IH];
    [reflexivity|].
  rewrite IH.
  inversion Hstep as [trs ec w Hs|trs ec w k provider result w' Hs Hq
                      |trs ec w k provider message w' Hs Hq];
    subst; simpl; try reflexivity.
  destruct (Hr provider (proj1 (selected_provider_registered _ _ Hs))
              target probe w) as (m & w'' & E).
  congruence.
Qed.

Lemma targets_run_all_raise (clock : W -> string) (self : Planner.t W)
    (plan : ScanPlan.t) (targets : list string) s1 s2 :
  (forall p, In p self -> forall t probe w,
     exists message w', query p t probe w = (Raised message, w')) ->
  Spec.targets_run clock self plan targets s1 s2 ->
  (forall t trs, In (t, trs) (fst s1) -> trs = []) ->
  forall t trs, In (t, trs) (fst s2) -> trs = [].
Proof.
  intros Hr. induction 1 as [s|target rest results st trs st' s3 Hp _ IH];
    intros H0; [exact H0|].
  apply IH. simpl in *. apply (probes_run_all_raise Hr) in Hp. simpl in Hp.
  subst trs. clear - H0. intros t trs Hin.
  induction results as [|[k v] results IHr]; simpl in Hin.
  - destruct Hin as [[= _ <-]|[]]. reflexivity.
  - destruct (String.eqb target k).
    + destruct Hin as [[= _ <-]|Hin]; [reflexivity|].
      apply (H0 t trs). now right.
    + destruct Hin as [E|Hin]; [apply (H0 t trs); now left|].
      apply IHr; [|exact Hin]. intros t' trs' H. apply (H0 t' trs'). now right.
Qed.

(** X14. With the Netlas provider alone, the execution of a plan (its
    targets are distinct, being the keys of a dictionary) returns. With a
    delay that [time.sleep] accepts, the pairs returned for a target are its
    planned HTTP and TLS probes, in order: the probes of another protocol
    have no pair, and a probe answered "Unsupported probe" has one. With a
    delay that [time.sleep] rejects every query raises, and every target
    is returned with no pair. *)
Theorem execute_plan_with_netlas (clock : W -> string)
    (plan : ScanPlan.t) (st : Planner.store W) :
  NoDup (ScanPlan.get_targets plan) ->
  exists results st',
    Planner.execute_plan clock [NetlasProvider.provider sleep http_get]
      plan st = (inl results, st')
    /\ ((forall w, fst (sleep w) = None) ->
        forall t, In t (ScanPlan.get_targets plan) ->
          exists trs, lookup t results = Some trs
            /\ map fst trs
               = filter NetlasProvider.can_handle
                   (ScanPlan.get_probes_for_target plan t))
    /\ ((forall w, fst (sleep w) <> None) ->
        forall t, In t (ScanPlan.get_targets plan) ->
          lookup t results = Some []).
Proof.
  intros ND.
  set (self := [NetlasProvider.provider sleep http_get]).
  destruct (execute_plan_runs clock self plan st)
    as (results & st' & Hrun & Hrel).
  exists results, st'. split; [exact Hrun|].
  destruct (targets_run_results Hrel ND) as (entries & He & Hk & Hf);
    [intros t0 _ []|].
  simpl in He. subst results. rewrite <- Hk in ND. rewrite <- Hk.
  split.
  - intros Hs t Ht.
    destruct (@lookup_entry _ _ _ t ND Hf Ht) as (trs & Hl & _ & Hc).
    exists trs. split; [exact Hl|]. simpl in Hc.
    rewrite <- netlas_assignable. apply Hc.
    intros p [<-|[]]. now apply netlas_keeps_contract.
  - intros Hs t Ht.
    destruct (@lookup_entry _ _ _ t ND Hf Ht) as (trs & Hl & _).
    rewrite Hl. f_equal. apply lookup_some_in in Hl. revert t trs Hl Ht.
    intros t trs Hl _. revert t trs Hl.
    apply (targets_run_all_raise (clock := clock) (self := self) (plan := plan)
             (targets := ScanPlan.get_targets plan)
             (s1 := ([], st)) (s2 := (entries, st'))).
    + intros p [<-|[]] t probe w. simpl. unfold NetlasProvider.query.
      specialize (Hs w). destruct (sleep w) as [[m|] w1]; [eauto|].
      now elim Hs.
    + exact Hrel.
    + intros t trs [].
Qed.

End NetlasFacts.

(* ################################################################# *)
(** * Further properties of the evaluator *)

Section EvaluatorMore.

Variable re_valid : string -> bool.
Variable re_found : string -> string -> bool.

(** X15. A probe is reported as matching only on evidence: the result was
    successful, a field value was extracted, the match type is one of the
    three known ones and its test passed on that value, and the evidence
    text shows the field and the value. A failed result, a missing field or
    an unknown match type never gives a match. *)
Theorem evaluate_probe_match_needs_value
    (probe_result : dict) (probe : Probe.t) (ev : string) :
  Evaluator.evaluate_probe re_valid re_found probe_result probe
  = Ok (true, ev) ->
  truthy (get_default probe_result "success" (PBool false)) = true
  /\ exists fv,
       Evaluator.extract_field (get_default probe_result "data" (PDict []))
         (Probe.field probe) = Ok fv
       /\ fv <> PNone
       /\ ev = Probe.field probe ++ "=" ++ str fv
       /\ ((Probe.match_type probe = "exact" /\ fv = PStr (Probe.value probe))
           \/ (Probe.match_type probe = "contains"
               /\ Evaluator.contains_in (Probe.value probe) fv = Ok true)
           \/ (Probe.match_type probe = "regex"
               /\ re_valid (Probe.value probe) = true
               /\ exists s, fv = PStr s
                            /\ re_found (Probe.value probe) s = true)).
Proof.
  unfold Evaluator.evaluate_probe.
  destruct (truthy (get_default probe_result "success" (PBool false)));
    simpl; [|discriminate].
  destruct (Evaluator.extract_field _ _) as [fv|e]; simpl; [|discriminate].
  destruct (Evaluator.is_none fv) eqn:N; [discriminate|].
  intros H. split; [reflexivity|]. exists fv. split; [reflexivity|].
  split; [intros ->; discriminate|].
  destruct (String.eqb_spec (Probe.match_type probe) "exact") as [E1|N1].
  { injection H as Hm <-. split; [reflexivity|]. left.
    split; [exact E1 | now apply eq_str_iff]. }
  destruct (String.eqb_spec (Probe.match_type probe) "contains") as [E2|N2].
  { destruct (Evaluator.contains_in (Probe.value probe) fv) as [m|] eqn:C;
      simpl in H; [|discriminate].
    injection H as -> <-. split; [reflexivity|]. right. left. now split. }
  destruct (String.eqb_spec (Probe.match_type probe) "regex") as [E3|N3];
    [|discriminate].
  unfold Evaluator.search in H.
  destruct (re_valid (Probe.value probe)) eqn:V; [|discriminate].
  destruct fv as [| | |s| |]; simpl in H; try discriminate.
  injection H as Hf <-. split; [reflexivity|]. right. right.
  split; [exact E3|]. split; [reflexivity|]. now exists s.
Qed.

(** X16. The evaluator understands two fields only: for a probe on any other
    field a successful result gives "Field not found in response" whatever
    its items hold. *)
Theorem evaluate_probe_unknown_field
    (probe_result : dict) (probe : Probe.t) (d : dict) :
  Probe.field probe <> "headers.server" ->
  Probe.field probe <> "certificate.serial" ->
  truthy (get_default probe_result "success" (PBool false)) = true ->
  get_default probe_result "data" (PDict []) = PDict d ->
  (lookup "items" d = None \/ exists l, lookup "items" d = Some (PList l)) ->
  Evaluator.evaluate_probe re_valid re_found probe_result probe
  = Ok (false, "Field not found in response").
Proof.
  intros N1 N2 Hs Hd Hi. unfold Evaluator.evaluate_probe.
  rewrite Hs, Hd. simpl. unfold Evaluator.extract_field. simpl.
  apply String.eqb_neq in N1, N2.
  destruct Hi as [Hi|[l Hi]]; rewrite Hi; simpl; [reflexivity|].
  destruct l as [|item l]; simpl; [reflexivity|].
  now rewrite N1, N2.
Qed.

(** X17. A successful result whose data, or whose items, is [None], a
    boolean or a number makes the evaluation raise [TypeError]; for the two
    known fields, a first item that is no dictionary makes it raise
    [AttributeError]. No verdict is returned in these cases. *)
Theorem evaluate_probe_raises_on_malformed
    (probe_result : dict) (probe : Probe.t) :
  truthy (get_default probe_result "success" (PBool false)) = true ->
  let data := get_default probe_result "data" (PDict []) in
  let run := Evaluator.evaluate_probe re_valid re_found probe_result probe in
  (Notions.is_scalar data = true -> run = Raise TypeError)
  /\ (forall d items, data = PDict d -> lookup "items" d = Some items ->
        Notions.is_scalar items = true -> run = Raise TypeError)
  /\ (forall d item rest, data = PDict d ->
        lookup "items" d = Some (PList (item :: rest)) ->
        (forall x, item <> PDict x) ->
        Probe.field probe = "headers.server"
        \/ Probe.field probe = "certificate.serial" ->
        run = Raise AttributeError).
Proof.
  intros Hs data run. unfold run, Evaluator.evaluate_probe. rewrite Hs.
  fold data. simpl. split; [|split].
  - intros H. destruct data; try discriminate; reflexivity.
  - intros d items -> Hi H. unfold Evaluator.extract_field. simpl.
    rewrite Hi. simpl. destruct items; try discriminate; reflexivity.
  - intros d item rest -> Hi Hn Hf. unfold Evaluator.extract_field. simpl.
    rewrite Hi. simpl.
    assert (G : forall k v, Evaluator.get item k v = Raise AttributeError).
    { intros k v. destruct item; try reflexivity. now elim (Hn d0). }
    destruct Hf as [->| ->]; simpl; now rewrite G.
Qed.

Lemma evaluate_each_raise (prs : list (Probe.t * dict)) (e : exc) :
  forall acc1 acc2,
  Evaluator.evaluate_each re_valid re_found prs acc1 acc2 = Raise e
  <-> exists pre pr post mes,
        prs = (pre ++ pr :: post)%list
        /\ Spec.verdicts re_valid re_found pre mes
        /\ Evaluator.evaluate_probe re_valid re_found (snd pr) (fst pr)
           = Raise e.
Proof.
  induction prs as [|[probe r] prs IH]; intros acc1 acc2; simpl.
  - split; [discriminate|]. intros (pre & pr & post & mes & H & _).
    now destruct pre.
  - destruct (Evaluator.evaluate_probe re_valid re_found r probe)
      as [me|e'] eqn:E; simpl.
    + rewrite IH. split.
      * intros (pre & pr & post & mes & -> & Hv & Hr).
        exists ((probe, r) :: pre), pr, post, (me :: mes).
        split; [reflexivity|]. split; [|exact Hr]. now constructor.
      * intros (pre & pr & post & mes & H & Hv & Hr).
        destruct pre as [|p0 pre]; simpl in H.
        -- injection H as <- <-. simpl in Hr. congruence.
        -- injection H as <- ->. inversion Hv; subst.
           now exists pre, pr, post, l'.
    + split.
      * intros [= ->]. exists [], (probe, r), prs, [].
        split; [reflexivity|]. split; [constructor | exact E].
      * intros (pre & pr & post & mes & H & Hv & Hr).
        destruct pre as [|p0 pre]; simpl in H.
        -- injection H as <- <-. simpl in Hr. congruence.
        -- injection H as <- ->. inversion Hv; subst. simpl in *. congruence.
Qed.

(** X18. [evaluate_fingerprint] raises exactly when the evaluation of some
    pair raises while every pair before it returned a verdict; it raises
    that exception, the pairs after it are not evaluated and no result is
    returned. *)
Theorem evaluate_fingerprint_raises
    (prs : list (Probe.t * dict)) (fingerprint : Fingerprint.t) (e : exc) :
  Evaluator.evaluate_fingerprint re_valid re_found prs fingerprint = Raise e
  <-> exists pre pr post mes,
        prs = (pre ++ pr :: post)%list
        /\ Spec.verdicts re_valid re_found pre mes
        /\ Evaluator.evaluate_probe re_valid re_found (snd pr) (fst pr)
           = Raise e.
Proof.
  rewrite <- (evaluate_each_raise prs e [] []).
  unfold Evaluator.evaluate_fingerprint.
  destruct (Evaluator.evaluate_each re_valid re_found prs [] []); simpl.
  - split; discriminate.
  - split; intros [= ->]; reflexivity.
Qed.

Lemma evaluate_each_ok (prs : list (Probe.t * dict)) :
  forall acc1 acc2 st,
  Evaluator.evaluate_each re_valid re_found prs acc1 acc2 = Ok st ->
  exists mes, Spec.verdicts re_valid re_found prs mes.
Proof.
  induction prs as [|[probe r] prs IH]; intros acc1 acc2 st; simpl.
  - intros _. exists []. constructor.
  - destruct (Evaluator.evaluate_probe re_valid re_found r probe)
      as [me|e'] eqn:E; simpl; [|discriminate].
    intros H. destruct (IH _ _ _ H) as [mes Hv].
    exists (me :: mes). now constructor.
Qed.

Lemma forallb_filter_length {A} (f : A -> bool) (l : list A) :
  forallb f l = true <-> List.length (filter f l) = List.length l.
Proof.
  induction l as [|a l IH]; simpl; [tauto|].
  destruct (f a); simpl.
  - rewrite IH. split; [congruence | now intros [= H]].
  - split; [discriminate|]. intros H.
    assert (L := filter_length_le f l). lia.
Qed.

Lemma existsb_filter_nonempty {A} (f : A -> bool) (l : list A) :
  existsb f l = true <-> filter f l <> [].
Proof.
  induction l as [|a l IH]; simpl; [split; [discriminate | tauto]|].
  destruct (f a); simpl; [split; [discriminate | reflexivity] | exact IH].
Qed.

(** X19. In a result of [evaluate_fingerprint] the verdict and the list of
    matched probes agree: under ["any"] the verdict is true iff some probe
    is listed as matched, under any other logic iff all the probes are; the
    individual records name the probes of the pairs in order. *)
Theorem evaluate_fingerprint_verdict_and_matches
    (prs : list (Probe.t * dict)) (fingerprint : Fingerprint.t)
    (out : Evaluator.evaluation) :
  Evaluator.evaluate_fingerprint re_valid re_found prs fingerprint = Ok out ->
  (Fingerprint.match_logic fingerprint = "any" ->
   (Evaluator.overall_match out = true
    <-> Evaluator.matched_probes out <> []))
  /\ (Fingerprint.match_logic fingerprint <> "any" ->
      (Evaluator.overall_match out = true
       <-> List.length (Evaluator.matched_probes out)
           = List.length (Evaluator.probe_results out)))
  /\ map Evaluator.rec_probe (Evaluator.probe_results out)
     = map (fun pr => Probe.name (fst pr)) prs.
Proof.
  unfold Evaluator.evaluate_fingerprint.
  destruct (Evaluator.evaluate_each re_valid re_found prs [] [])
    as [[rs evs]|] eqn:E; simpl; [|discriminate].
  intros [= <-]. simpl.
  destruct (evaluate_each_ok _ _ _ E) as [mes Hv].
  rewrite (evaluate_each_verdicts Hv [] []) in E. simpl in E.
  injection E as <- _.
  split; [|split].
  - intros ->. simpl. rewrite existsb_filter_nonempty.
    split; intros H.
    + destruct (filter _ _); [now elim H | discriminate].
    + intros X. rewrite X in H. now elim H.
  - intros N. rewrite length_map.
    assert (Ov : (if String.eqb (Fingerprint.match_logic fingerprint) "all"
                  then forallb Evaluator.rec_match (Spec.records_of prs mes)
                  else if String.eqb (Fingerprint.match_logic fingerprint) "any"
                       then existsb Evaluator.rec_match (Spec.records_of prs mes)
                       else forallb Evaluator.rec_match (Spec.records_of prs mes))
                 = forallb Evaluator.rec_match (Spec.records_of prs mes)).
    { apply String.eqb_neq in N. rewrite N.
      now destruct (String.eqb _ "all"). }
    rewrite Ov. apply forallb_filter_length.
  - unfold Spec.records_of. rewrite map_map. simpl.
    clear - Hv. induction Hv; simpl; [reflexivity|]. now f_equal.
Qed.

End EvaluatorMore.

(* ################################################################# *)
(** * Properties of the evidence collector *)

(** X20. [add_probe_result] appends one record, the one it returns, behind
    the records the collector holds. The record is the last evidence of its
    target and changes the evidence of no other target; it is listed as
    failed when [success] is false and as matching when [success] and
    [match] are both true. Its hash is the empty string exactly when the
    raw data given is empty or missing. *)
Theorem add_probe_result_appends (self : EvidenceCollector.t)
    (now probe_name target : string) (success : pyval) (match_ : bool)
    (expected_value actual_value error_message : string) (raw_data : pyval) :
  let r := EvidenceCollector.add_probe_result self now probe_name target
             success match_ expected_value actual_value error_message
             raw_data in
  let e := fst r in
  let self' := snd r in
  self' = (self ++ [e])%list
  /\ EvidenceCollector.get_evidence_for_target self' target
     = (EvidenceCollector.get_evidence_for_target self target ++ [e])%list
  /\ (forall t, t <> target ->
      EvidenceCollector.get_evidence_for_target self' t
      = EvidenceCollector.get_evidence_for_target self t)
  /\ EvidenceCollector.get_failed_probes self'
     = (EvidenceCollector.get_failed_probes self
        ++ if truthy success then [] else [e])%list
  /\ EvidenceCollector.get_matching_probes self'
     = (EvidenceCollector.get_matching_probes self
        ++ if truthy success && match_ then [e] else [])%list
  /\ (Evidence.raw_data_hash e = "" <-> truthy raw_data = false).
Proof.
  intros r e self'. unfold self', e, r, EvidenceCollector.add_probe_result,
    EvidenceCollector.add_evidence, EvidenceCollector.get_evidence_for_target,
    EvidenceCollector.get_failed_probes,
    EvidenceCollector.get_matching_probes. simpl.
  rewrite !filter_app. simpl. rewrite String.eqb_refl.
  split; [reflexivity|]. split; [reflexivity|]. split; [|split; [|split]].
  - intros t N. apply not_eq_sym, String.eqb_neq in N.
    rewrite filter_app. simpl. rewrite N. apply app_nil_r.
  - now destruct (truthy success).
  - now destruct (truthy success && match_).
  - set (ev := Evidence.Build _ _ _ _ _ _ _ _ _).
    assert (Ht : truthy (Evidence.raw_data ev) = truthy raw_data).
    { unfold ev, EvidenceCollector.or_empty. simpl.
      now destruct (truthy raw_data) eqn:T. }
    destruct (truthy raw_data) eqn:T.
    + split; [|discriminate]. intros H.
      destruct (raw_data_hash_format ev Ht) as [L _]. now rewrite H in L.
    + split; [reflexivity|]. intros _.
      unfold Evidence.raw_data_hash. now rewrite Ht.
Qed.

(* ################################################################# *)
(** * Properties of scan.py *)

Lemma lstrip_idempotent (s : string) :
  Scan.lstrip (Scan.lstrip s) = Scan.lstrip s.
Proof.
  induction s as [|c s IH]; simpl; [reflexivity|].
  destruct (Scan.is_space c) eqn:E; [exact IH|]. simpl. now rewrite E.
Qed.

Lemma rstrip_cons (c : ascii) (s : string) :
  Scan.rstrip (String c s)
  = match Scan.rstrip s with
    | EmptyString => if Scan.is_space c then "" else String c ""
    | r' => String c r'
    end.
Proof. reflexivity. Qed.

Lemma rstrip_idempotent (s : string) :
  Scan.rstrip (Scan.rstrip s) = Scan.rstrip s.
Proof.
  induction s as [|c s IH]; [reflexivity|].
  rewrite rstrip_cons. destruct (Scan.rstrip s) as [|c' r'] eqn:R.
  - destruct (Scan.is_space c) eqn:E; [reflexivity|].
    rewrite rstrip_cons. simpl. now rewrite E.
  - rewrite rstrip_cons, IH. reflexivity.
Qed.

Lemma rstrip_of_lstrip (s : string) :
  Scan.rstrip s = s -> Scan.rstrip (Scan.lstrip s) = Scan.lstrip s.
Proof.
  induction s as [|c s IH]; [reflexivity|].
  intros H. simpl Scan.lstrip.
  destruct (Scan.is_space c) eqn:E; [|exact H].
  apply IH. rewrite rstrip_cons in H.
  destruct (Scan.rstrip s) as [|c' r']; [rewrite E in H; discriminate|].
  now injection H.
Qed.

Lemma lstrip_head (s : string) (c : ascii) (r : string) :
  Scan.lstrip s = String c r -> Scan.is_space c = false.
Proof.
  induction s as [|a s IH]; simpl; [discriminate|].
  destruct (Scan.is_space a) eqn:E; [exact IH|]. now intros [= <- _].
Qed.

Lemma string_app_assoc (a b c : string) : (a ++ b) ++ c = a ++ (b ++ c).
Proof. induction a as [|x a IH]; simpl; [reflexivity | now rewrite IH]. Qed.

Lemma string_app_nil (a : string) : a ++ "" = a.
Proof. induction a as [|x a IH]; simpl; [reflexivity | now rewrite IH]. Qed.

Lemma file_lines_from_line (line : string) :
  forall current rest,
    Notions.one_line line ->
    Scan.file_lines_from current (line ++ String "010"%char rest)
    = (current ++ line ++ String "010"%char "")
        :: Scan.file_lines_from "" rest.
Proof.
  unfold Notions.one_line.
  induction line as [|c line IH]; intros current rest H; simpl in *.
  - reflexivity.
  - apply orb_false_iff in H. destruct H as [Hc Hl]. rewrite Hc.
    rewrite (IH _ _ Hl). now rewrite string_app_assoc.
Qed.

Lemma file_lines_from_last (last : string) :
  forall current,
    Notions.one_line last ->
    Scan.file_lines_from current last
    = match current ++ last with
      | EmptyString => []
      | text => [text]
      end.
Proof.
  unfold Notions.one_line.
  induction last as [|c last IH]; intros current H; simpl in *.
  - rewrite string_app_nil. now destruct current.
  - apply orb_false_iff in H. destruct H as [Hc Hl]. rewrite Hc.
    rewrite (IH _ Hl). now rewrite string_app_assoc.
Qed.

Lemma file_lines_of_text (lines : list string) (last : string) :
  Forall Notions.one_line lines -> Notions.one_line last ->
  Scan.file_lines (Notions.text_of lines last)
  = (map (fun line => (line ++ String "010"%char "")%string) lines
       ++ match last with EmptyString => [] | _ => [last] end)%list.
Proof.
  unfold Scan.file_lines. intros Hl Hlast.
  induction Hl as [|line lines H _ IH]; simpl.
  - rewrite (file_lines_from_last "" Hlast). simpl. now destruct last.
  - rewrite (file_lines_from_line "" _ H). simpl. now rewrite IH.
Qed.

Lemma text_has_lines (content : string) :
  exists lines last,
    content = Notions.text_of lines last
    /\ Forall Notions.one_line lines /\ Notions.one_line last.
Proof.
  induction content as [|c content (lines & last & E & Hl & Hlast)].
  - exists [], "". repeat split. constructor.
  - destruct (Ascii.eqb c "010"%char) eqn:Ec.
    + apply Ascii.eqb_eq in Ec. subst c.
      exists ("" :: lines), last. split; [simpl; now rewrite E|].
      split; [|exact Hlast]. constructor; [reflexivity | exact Hl].
    + destruct lines as [|line lines].
      * exists [], (String c last). simpl in E. subst content.
        split; [reflexivity|]. split; [constructor|].
        unfold Notions.one_line in *. simpl. now rewrite Ec.
      * exists (String c line :: lines), last. simpl in E. subst content.
        split; [reflexivity|]. split; [|exact Hlast].
        inversion Hl as [|? ? H1 H2]; subst. constructor; [|exact H2].
        unfold Notions.one_line in *. simpl. now rewrite Ec.
Qed.

Lemma rstrip_app_space (s : string) (c : ascii) :
  Scan.is_space c = true -> Scan.rstrip (s ++ String c "") = Scan.rstrip s.
Proof.
  intros H. induction s as [|a s IH]; simpl.
  - now rewrite H.
  - now rewrite IH.
Qed.

Lemma strip_line (line : string) :
  Scan.strip (line ++ String "010"%char "") = Scan.strip line.
Proof. unfold Scan.strip. now rewrite rstrip_app_space. Qed.

Lemma stripped_lines (lines : list string) :
  map Scan.strip
    (filter (fun line => negb (String.eqb (Scan.strip line) "")) lines)
  = filter (fun t => negb (String.eqb t "")) (map Scan.strip lines).
Proof.
  induction lines as [|line lines IH]; simpl; [reflexivity|].
  destruct (String.eqb (Scan.strip line) ""); simpl; now rewrite IH.
Qed.

(** X21. [load_targets] gives, in the order of the file and as often as
    they occur, the lines that are not blank with the white space around
    them removed: the targets of the text made of the lines [lines] and of
    an unended line [last] are the stripped lines that are not empty, in
    that order, and every text is made of such lines. No target is empty,
    none begins with a white space character, and stripping a target again
    changes nothing. *)
Theorem load_targets_trimmed (content : string) :
  (forall t, In t (Scan.load_targets content)
     <-> exists line, In line (Scan.file_lines content)
                      /\ Scan.strip line = t /\ t <> "")
  /\ Forall
       (fun t =>
          t <> ""
          /\ Scan.lstrip t = t /\ Scan.rstrip t = t /\ Scan.strip t = t
          /\ exists c r, t = String c r /\ Scan.is_space c = false)
       (Scan.load_targets content)
  /\ (forall lines last,
        content = Notions.text_of lines last ->
        Forall Notions.one_line lines -> Notions.one_line last ->
        Scan.load_targets content
        = filter (fun t => negb (String.eqb t ""))
            (map Scan.strip (lines ++ [last])%list))
  /\ (exists lines last,
        content = Notions.text_of lines last
        /\ Forall Notions.one_line lines /\ Notions.one_line last).
Proof.
  split; [|split; [|split]].
  - unfold Scan.load_targets.
    intros t. rewrite in_map_iff. split.
    + intros (line & <- & H). apply filter_In in H. destruct H as [H N].
      exists line. split; [exact H|]. split; [reflexivity|].
      intros E. rewrite E in N. discriminate.
    + intros (line & H & <- & N). exists line. split; [reflexivity|].
      apply filter_In. split; [exact H|].
      now apply negb_true_iff, String.eqb_neq.
  - unfold Scan.load_targets.
    apply Forall_forall. intros t Ht. apply in_map_iff in Ht.
    destruct Ht as (line & <- & H). apply filter_In in H.
    destruct H as [_ N]. apply negb_true_iff, String.eqb_neq in N.
    assert (L : Scan.lstrip (Scan.strip line) = Scan.strip line)
      by apply lstrip_idempotent.
    assert (R : Scan.rstrip (Scan.strip line) = Scan.strip line)
      by (apply rstrip_of_lstrip, rstrip_idempotent).
    split; [exact N|]. split; [exact L|]. split; [exact R|]. split.
    + unfold Scan.strip at 1. now rewrite R, L.
    + destruct (Scan.strip line) as [|c r] eqn:E; [now elim N|].
      exists c, r. split; [reflexivity|].
      unfold Scan.strip in E. eapply lstrip_head; exact E.
  - intros lines last -> Hl Hlast. unfold Scan.load_targets.
    rewrite (file_lines_of_text Hl Hlast), stripped_lines.
    rewrite !map_app, !filter_app, map_map. f_equal.
    + f_equal. apply map_ext. intros line. apply strip_line.
    + now destruct last.
  - apply text_has_lines.
Qed.

Lemma evaluate_fingerprint_names (re_valid : string -> bool)
    (re_found : string -> string -> bool)
    (prs : list (Probe.t * dict)) (fingerprint : Fingerprint.t)
    (out : Evaluator.evaluation) :
  Evaluator.evaluate_fingerprint re_valid re_found prs fingerprint = Ok out ->
  Evaluator.ev_fingerprint_id out = Fingerprint.fingerprint_id fingerprint
  /\ map Evaluator.rec_probe (Evaluator.probe_results out)
     = map (fun pr => Probe.name (fst pr)) prs.
Proof.
  unfold Evaluator.evaluate_fingerprint.
  destruct (Evaluator.evaluate_each re_valid re_found prs [] [])
    as [[rs evs]|] eqn:E; simpl; [|discriminate].
  intros [= <-]. simpl. split; [reflexivity|].
  destruct (evaluate_each_ok _ _ _ _ _ E) as [mes Hv].
  rewrite (evaluate_each_verdicts Hv [] []) in E. simpl in E.
  injection E as <- _.
  unfold Spec.records_of. rewrite map_map. simpl.
  clear - Hv. induction Hv; simpl; [reflexivity|]. now f_equal.
Qed.

Section ScanFacts.

Variable W : Type.
Variable re_valid : string -> bool.
Variable re_found : string -> string -> bool.
Variable provider : Provider W.

Lemma run_probes_none_handled (target : string) (probes : list Probe.t) :
  (forall p, In p probes -> can_handle provider p = false) ->
  forall acc w,
    Scan.run_probes provider target probes acc w = (Scan.Done acc, w).
Proof.
  induction probes as [|p probes IH]; intros H acc w; simpl; [reflexivity|].
  rewrite (H p (or_introl eq_refl)). apply IH. intros q Hq. apply H.
  now right.
Qed.

(** X22. When the provider handles none of the probes of the fingerprint,
    the scan of a target sends no query and evaluates an empty list of
    results: the target is reported as a match unless the logic is ["any"],
    with no evidence and no matched probe. *)
Theorem process_target_nothing_handled
    (fingerprint : Fingerprint.t) (target : string) (w : W) :
  (forall p, In p (Fingerprint.probes fingerprint) ->
             can_handle provider p = false) ->
  exists e,
    Scan.process_target re_valid re_found provider fingerprint target w
    = (Scan.Done e, w)
    /\ Scan.entry_target e = target
    /\ Scan.entry_match e
       = negb (String.eqb (Fingerprint.match_logic fingerprint) "any")
    /\ Evaluator.probe_results (Scan.entry_evaluation e) = []
    /\ Evaluator.matched_probes (Scan.entry_evaluation e) = []
    /\ Evaluator.evidence (Scan.entry_evaluation e) = "".
Proof.
  intros H. unfold Scan.process_target.
  rewrite (run_probes_none_handled target _ H). simpl.
  eexists. split; [reflexivity|]. simpl. repeat split.
  destruct (String.eqb_spec (Fingerprint.match_logic fingerprint) "all")
    as [E|N]; [now rewrite E|].
  now destruct (String.eqb (Fingerprint.match_logic fingerprint) "any").
Qed.

Lemma run_probes_done (target : string) (probes : list Probe.t) :
  forall acc w prs w',
    Scan.run_probes provider target probes acc w = (Scan.Done prs, w') ->
    exists new, prs = (acc ++ new)%list
                /\ map fst new = filter (can_handle provider) probes.
Proof.
  induction probes as [|p probes IH]; intros acc w prs w'; simpl.
  - intros [= <- _]. exists []. now rewrite app_nil_r.
  - destruct (can_handle provider p) eqn:E.
    + destruct (query provider target p w) as [[result|message] w1];
        [|discriminate].
      intros H. destruct (IH _ _ _ _ H) as (new & -> & Hm).
      exists ((p, result) :: new). rewrite <- app_assoc. simpl.
      now rewrite Hm.
    + apply IH.
Qed.

(** X23. When the scan of the targets ends without an exception, the
    results gain one entry per target, in the order of the targets; the flag
    [match] of an entry is the overall verdict of its evaluation, and the
    evaluation holds one record for each probe the provider handles, in the
    order of the fingerprint. *)
Theorem process_targets_entries
    (fingerprint : Fingerprint.t) (targets : list string)
    (results out : list Scan.entry) (w w' : W) :
  Scan.process_targets re_valid re_found provider fingerprint targets
    results w = (Scan.Done out, w') ->
  exists added,
    out = (results ++ added)%list
    /\ map Scan.entry_target added = targets
    /\ Forall
         (fun e =>
            Scan.entry_match e
            = Evaluator.overall_match (Scan.entry_evaluation e)
            /\ Evaluator.ev_fingerprint_id (Scan.entry_evaluation e)
               = Fingerprint.fingerprint_id fingerprint
            /\ map Evaluator.rec_probe
                 (Evaluator.probe_results (Scan.entry_evaluation e))
               = map Probe.name
                   (filter (can_handle provider)
                      (Fingerprint.probes fingerprint)))
         added.
Proof.
  revert results w. induction targets as [|t targets IH]; intros results w;
    simpl.
  - intros [= <- _]. exists []. rewrite app_nil_r. repeat split. constructor.
  - unfold Scan.process_target.
    destruct (Scan.run_probes provider t (Fingerprint.probes fingerprint) [] w)
      as [[prs|m|x] w1] eqn:R; try discriminate.
    destruct (Evaluator.evaluate_fingerprint re_valid re_found prs fingerprint)
      as [ev|x] eqn:E; [|discriminate].
    intros H. destruct (IH _ _ H) as (added & -> & Ht & Hf).
    eexists (_ :: added). rewrite <- app_assoc. simpl.
    split; [reflexivity|]. split; [now rewrite Ht|].
    constructor; [|exact Hf]. simpl.
    split; [now destruct (Evaluator.overall_match ev)|].
    destruct (run_probes_done _ _ _ _ R) as (new & -> & Hm). simpl in E.
    destruct (evaluate_fingerprint_names _ _ _ _ E) as [Hid Hn].
    split; [exact Hid|]. rewrite Hn, <- Hm, map_map. reflexivity.
Qed.

End ScanFacts.

(* ################################################################# *)
(** * The further properties on sample data *)

Lemma add_target_then_get_witness :
  ScanPlan.get_targets
    (ScanPlan.add_target Samples.sample_scan_plan "192.0.2.2"
       [Samples.tls_probe])
  = Samples.targets
  /\ ScanPlan.get_probes_for_target
       (ScanPlan.add_target Samples.sample_scan_plan "192.0.2.2"
          [Samples.tls_probe]) "192.0.2.1"
     = [Samples.http_probe; Samples.tls_probe].
Proof.
  destruct (add_target_then_get Samples.sample_scan_plan "192.0.2.2"
              [Samples.tls_probe]) as (_ & Ho & Hk & _).
  split; [exact Hk | exact (Ho "192.0.2.1" ltac:(discriminate))].
Defined.

Lemma create_scan_plan_shape_witness :
  ScanPlan.target_probes
    (Planner.create_scan_plan [Samples.http_only_provider]
       ["192.0.2.2"; "192.0.2.1"; "192.0.2.2"] Samples.sample_fingerprint (-1))
  = [("192.0.2.2", [Samples.http_probe]); ("192.0.2.1", [Samples.http_probe])].
Proof.
  destruct (@create_scan_plan_shape Samples.world [Samples.http_only_provider]
              ["192.0.2.2"; "192.0.2.1"; "192.0.2.2"]
              Samples.sample_fingerprint (-1)%Z) as (H & _).
  exact (H ltac:(discriminate)).
Defined.

Lemma optimize_plan_idempotent_witness :
  Planner.optimize_plan
    [Samples.http_only_provider; Samples.tls_only_provider]
    (Planner.optimize_plan
       [Samples.http_only_provider; Samples.tls_only_provider]
       Samples.mixed_plan)
  = Planner.optimize_plan
      [Samples.http_only_provider; Samples.tls_only_provider]
      Samples.mixed_plan.
Proof.
  apply optimize_plan_idempotent.
  repeat constructor; simpl; tauto.
Defined.

(** Without providers the optimized sample plan holds nothing, although the
    sample plan is valid. *)
Lemma optimize_plan_validity_witness :
  ScanPlan.validate Samples.sample_scan_plan = true
  /\ ScanPlan.validate
       (Planner.optimize_plan ([] : list (Provider Samples.world))
          Samples.sample_scan_plan) <> true.
Proof.
  split; [reflexivity|].
  destruct (@optimize_plan_validity Samples.world [] Samples.sample_scan_plan
              ltac:(repeat constructor; simpl; intuition discriminate))
    as (Hv & _).
  intros H. apply Hv in H. destruct H as (t & ps & p & _ & _ & Ha).
  discriminate Ha.
Defined.

Lemma execute_plan_results_shape_witness :
  exists results st',
    Planner.execute_plan Samples.clock [Samples.failing_provider]
      Samples.sample_scan_plan (EvidenceCollector.new, 0) = (inl results, st')
    /\ keys results = Samples.targets.
Proof.
  destruct (@execute_plan_results_shape Samples.world Samples.clock
              [Samples.failing_provider] Samples.sample_scan_plan
              (EvidenceCollector.new, 0)
              ltac:(repeat constructor; simpl; intuition discriminate))
    as (results & st' & Hr & Hk & _).
  exists results, st'. split; [exact Hr | exact Hk].
Defined.

Lemma execute_plan_with_contract_witness :
  exists results st',
    Planner.execute_plan Samples.clock [Samples.http_only_provider]
      Samples.mixed_plan (EvidenceCollector.new, 0) = (inl results, st')
    /\ exists trs, lookup "192.0.2.1" results = Some trs
         /\ map fst trs = [Samples.http_probe; Samples.http_probe2].
Proof.
  destruct (@execute_plan_with_contract Samples.world Samples.clock
              [Samples.http_only_provider] Samples.mixed_plan
              (EvidenceCollector.new, 0)
              ltac:(repeat constructor; simpl; tauto))
    as (results & st' & Hr & Hl).
  - intros p [<-|[]] target probe w. simpl. eauto.
  - exists results, st'. split; [exact Hr|].
    exact (Hl "192.0.2.1" ltac:(simpl; tauto)).
Defined.


(** The probe the provider does not support still has its pair. *)
Lemma execute_plan_with_netlas_witness :
  exists results st',
    Planner.execute_plan Samples.clock [Fixtures.netlas]
      (ScanPlan.add_target ScanPlan.new "192.0.2.1"
         [Samples.dns_probe; Fixtures.serial_over_http; Samples.tls_probe])
      (EvidenceCollector.new, 0) = (inl results, st')
    /\ exists trs, lookup "192.0.2.1" results = Some trs
         /\ map fst trs = [Fixtures.serial_over_http; Samples.tls_probe].
Proof.
  destruct (@execute_plan_with_netlas nat Fixtures.sleep Fixtures.http_ok
              Samples.clock
              (ScanPlan.add_target ScanPlan.new "192.0.2.1"
                 [Samples.dns_probe; Fixtures.serial_over_http;
                  Samples.tls_probe])
              (EvidenceCollector.new, 0)
              ltac:(repeat constructor; simpl; tauto))
    as (results & st' & Hr & Hl & _).
  exists results, st'. split; [exact Hr|].
  exact (Hl (fun w => eq_refl) "192.0.2.1" ltac:(simpl; tauto)).
Defined.

(** With a delay that is rejected the same plan gives no pair, and each
    attempt leaves a failed record with the text of the exception. *)
Example execute_plan_with_rejected_delay :
  Planner.execute_plan Samples.clock
    [NetlasProvider.provider Fixtures.sleep_rejected Fixtures.http_ok]
    (ScanPlan.add_target ScanPlan.new "192.0.2.1" [Samples.tls_probe])
    (EvidenceCollector.new, 0)
  = (inl [("192.0.2.1", [])],
     ([Evidence.Build "tls_certificate" "192.0.2.1" "2024-01-01T00:00:00"
         (PBool false) false "" "" "sleep length must be non-negative"
         (PDict [])], 0)).
Proof. vm_compute. reflexivity. Qed.

Lemma evaluate_probe_match_needs_value_witness :
  truthy (get_default (Samples.server_response (PStr "Apache/2.4.41"))
            "success" (PBool false)) = true.
Proof.
  exact (proj1 (@evaluate_probe_match_needs_value
                  Samples.literal_valid Samples.literal_found
                  (Samples.server_response (PStr "Apache/2.4.41"))
                  Samples.http_probe "headers.server=Apache/2.4.41" eq_refl)).
Defined.

Lemma evaluate_probe_unknown_field_witness :
  Evaluator.evaluate_probe Samples.literal_valid Samples.literal_found
    (Samples.server_response (PStr "Welcome")) Fixtures.title_probe
  = Ok (false, "Field not found in response").
Proof.
  eapply evaluate_probe_unknown_field.
  - discriminate.
  - discriminate.
  - reflexivity.
  - reflexivity.
  - right. eexists. reflexivity.
Defined.

Lemma evaluate_probe_raises_on_malformed_witness :
  Evaluator.evaluate_probe Samples.literal_valid Samples.literal_found
    Fixtures.data_none Samples.http_probe = Raise TypeError.
Proof.
  destruct (@evaluate_probe_raises_on_malformed
              Samples.literal_valid Samples.literal_found
              Fixtures.data_none Samples.http_probe eq_refl) as (H & _).
  exact (H eq_refl).
Defined.

Lemma evaluate_fingerprint_verdict_and_matches_witness :
  exists out,
    Evaluator.evaluate_fingerprint Samples.literal_valid Samples.literal_found
      [(Samples.http_probe, Samples.server_response (PStr "Apache/2.4.41"));
       (Samples.tls_probe, Samples.serial_response "0000")]
      Samples.sample_fingerprint = Ok out
    /\ (Evaluator.overall_match out = true
        <-> List.length (Evaluator.matched_probes out)
            = List.length (Evaluator.probe_results out)).
Proof.
  destruct (Evaluator.evaluate_fingerprint Samples.literal_valid
              Samples.literal_found
              [(Samples.http_probe, Samples.server_response (PStr "Apache/2.4.41"));
               (Samples.tls_probe, Samples.serial_response "0000")]
              Samples.sample_fingerprint) as [out|x] eqn:E.
  - exists out. split; [reflexivity|].
    destruct (@evaluate_fingerprint_verdict_and_matches
                Samples.literal_valid Samples.literal_found _ _ out E)
      as (_ & Hall & _).
    apply Hall. discriminate.
  - vm_compute in E. discriminate E.
Defined.

(** A fingerprint of DNS probes scanned with the Netlas provider: every
    target is reported as a match, and no request is sent. *)
Lemma process_target_nothing_handled_witness :
  exists e,
    Scan.process_target Samples.literal_valid Samples.literal_found
      Fixtures.netlas Fixtures.dns_fingerprint "192.0.2.1" 0
    = (Scan.Done e, 0)
    /\ Scan.entry_match e = true.
Proof.
  destruct (@process_target_nothing_handled nat
              Samples.literal_valid Samples.literal_found Fixtures.netlas
              Fixtures.dns_fingerprint "192.0.2.1" 0) as (e & He & _ & Hm & _).
  - intros p [<-|[]]. reflexivity.
  - exists e. split; [exact He | exact Hm].
Defined.

Lemma process_targets_entries_witness :
  exists out w',
    Scan.process_targets Samples.literal_valid Samples.literal_found
      Fixtures.netlas Samples.sample_fingerprint Samples.targets [] 0
    = (Scan.Done out, w')
    /\ map Scan.entry_target out = Samples.targets.
Proof.
  destruct (Scan.process_targets Samples.literal_valid Samples.literal_found
              Fixtures.netlas Samples.sample_fingerprint Samples.targets [] 0)
    as [[out|m|x] w'] eqn:E.
  - exists out, w'. split; [reflexivity|].
    destruct (@process_targets_entries nat
                Samples.literal_valid Samples.literal_found Fixtures.netlas
                Samples.sample_fingerprint Samples.targets [] out 0 w' E)
      as (added & -> & Ht & _).
    exact Ht.
  - vm_compute in E. discriminate E.
  - vm_compute in E. discriminate E.
Defined.

(** A file with a blank line, a target written twice and an unended last
    line: the targets come in the order of the file, the repeated one
    twice. *)
Lemma load_targets_trimmed_witness :
  Scan.load_targets
    (Notions.text_of ["  192.0.2.2 "; ""; "192.0.2.1"; "192.0.2.2"]
       " 192.0.2.3")
  = ["192.0.2.2"; "192.0.2.1"; "192.0.2.2"; "192.0.2.3"].
Proof.
  destruct (load_targets_trimmed
              (Notions.text_of ["  192.0.2.2 "; ""; "192.0.2.1"; "192.0.2.2"]
                 " 192.0.2.3")) as (_ & _ & H & _).
  rewrite (H ["  192.0.2.2 "; ""; "192.0.2.1"; "192.0.2.2"] " 192.0.2.3"
             eq_refl ltac:(repeat constructor) eq_refl).
  reflexivity.
Defined.

(** A query with a delay that is rejected, and one with a delay that
    passes. *)
Lemma netlas_query_contract_witness :
  NetlasProvider.query Fixtures.sleep_rejected Fixtures.http_ok
    "192.0.2.1" Samples.http_probe 0
  = (Raised "sleep length must be non-negative", 0)
  /\ exists success data error w',
       NetlasProvider.query Fixtures.sleep Fixtures.http_ok
         "192.0.2.1" Samples.http_probe 0
       = (Returned (NetlasProvider.answer success data error), w').
Proof.
  split.
  - destruct (@netlas_query_contract nat Fixtures.sleep_rejected
                Fixtures.http_ok "192.0.2.1" Samples.http_probe 0)
      as (_ & H & _).
    exact (H _ _ eq_refl).
  - destruct (@netlas_query_contract nat Fixtures.sleep Fixtures.http_ok
                "192.0.2.1" Samples.http_probe 0) as (H & _).
    destruct (H _ eq_refl) as (success & data & error & w' & E & _).
    now exists success, data, error, w'.
Defined.

Example load_targets_of_sample_file :
  Scan.load_targets
    ("192.0.2.1" ++ String "010"%char ("" ++ String "010"%char
       ("  192.0.2.2 " ++ String "009"%char ("" ++ String "010"%char
       "192.0.2.3"))))
  = ["192.0.2.1"; "192.0.2.2"; "192.0.2.3"].
Proof. reflexivity. Qed.

Example netlas_query_text :
  NetlasProvider.build_query "192.0.2.1" Samples.http_probe
  = Some ("ip:" ++ NetlasProvider.quoted "192.0.2.1"
            ++ " AND http.head.server:" ++ NetlasProvider.quoted "Apache").
Proof. reflexivity. Qed.

Example netlas_unsupported_probe :
  NetlasProvider.query Fixtures.sleep Fixtures.http_ok "192.0.2.1"
    Fixtures.serial_over_http 0
  = (Returned
       (NetlasProvider.answer false PNone
          (PStr "Unsupported probe: http.certificate.serial")), 0).
Proof. reflexivity. Qed.
